(** * Session manager and query tools of the Superset agent

    A shallow embedding of [utils/superset_auth.py] ([SupersetAuthManager])
    and of the tool functions of [tools/query.py] and [tools/chart.py].

    Python values received from the remote service are modelled as JSON
    values; Python's [None] is [JNull].  The remote service, the clock and
    the uuid generator are an oracle ([world]): the [n]-th HTTP request of a
    run receives [w_http w n rq].  The program state threads the singleton
    session, the clock (in seconds), the log of every HTTP request issued and
    the counters of the uuid and [requests.Session] generators.  Python
    exceptions are the [Raise] outcome of a state and exception monad; the
    state reached when the exception is raised is kept, as in Python.  A
    Python [str] is a [string] whose characters are read as the code points
    U+0000-U+00FF (Latin-1); text beyond U+00FF is outside the model. *)

From Stdlib Require Import String Ascii List ZArith Bool Lia.
Set Warnings "-register-all".
Import ListNotations.
Open Scope string_scope.
Open Scope Z_scope.

(** ** Strings *)

(** [str.upper()] of one character, as the code points of its upper case
    (Unicode's full case mapping on U+0000-U+00FF): [a-z] and [U+00E0-U+00FE]
    but [U+00F7] move down by 32, [U+00B5] gives [U+039C], [U+00DF] gives
    ["SS"] and [U+00FF] gives [U+0178]; every other character is unchanged. *)
Definition char_upper (c : ascii) : list N :=
  let n := N_of_ascii c in
  if andb (N.leb 97 n) (N.leb n 122) then [(n - 32)%N]
  else if andb (andb (N.leb 224 n) (N.leb n 254)) (negb (N.eqb n 247)) then [(n - 32)%N]
  else if N.eqb n 181 then [924%N]
  else if N.eqb n 223 then [83%N; 83%N]
  else if N.eqb n 255 then [376%N]
  else [n].

(** [str.upper()], as the list of code points of the result. *)
Fixpoint py_upper (s : string) : list N :=
  match s with
  | EmptyString => []
  | String c r => char_upper c ++ py_upper r
  end.

(** The code points of a string. *)
Definition code_points (s : string) : list N := map N_of_ascii (list_ascii_of_string s).

Fixpoint cp_prefix (p l : list N) : bool :=
  match p, l with
  | [], _ => true
  | _ :: _, [] => false
  | a :: p', b :: l' => andb (N.eqb a b) (cp_prefix p' l')
  end.

(** [needle in hay] on code points. *)
Fixpoint cp_contains (needle hay : list N) : bool :=
  if cp_prefix needle hay then true
  else match hay with
       | [] => false
       | _ :: r => cp_contains needle r
       end.

Fixpoint is_prefix (p s : string) : bool :=
  match p, s with
  | EmptyString, _ => true
  | String _ _, EmptyString => false
  | String a p', String b s' => andb (Ascii.eqb a b) (is_prefix p' s')
  end.

(** [needle in hay] for strings. *)
Fixpoint py_contains (needle hay : string) : bool :=
  if is_prefix needle hay then true
  else match hay with
       | EmptyString => false
       | String _ r => py_contains needle r
       end.

(** The whitespace of [str.strip()] and [str.rstrip()] on U+0000-U+00FF:
    [\t\n\x0b\x0c\r], [\x1c-\x1f], the space, [\x85] and [\xa0]. *)
Definition is_py_space (c : ascii) : bool :=
  let n := nat_of_ascii c in
  orb (orb (andb (Nat.leb 9 n) (Nat.leb n 13)) (andb (Nat.leb 28 n) (Nat.leb n 32)))
      (orb (Nat.eqb n 133) (Nat.eqb n 160)).

Fixpoint drop_while {A} (p : A -> bool) (l : list A) : list A :=
  match l with
  | [] => []
  | x :: r => if p x then drop_while p r else l
  end.

Definition rstrip_by (p : ascii -> bool) (s : string) : string :=
  string_of_list_ascii (rev (drop_while p (rev (list_ascii_of_string s)))).

(** [s.rstrip()] and [s.rstrip(';')]. *)
Definition py_rstrip (s : string) : string := rstrip_by is_py_space s.
Definition py_rstrip_semi (s : string) : string :=
  rstrip_by (fun c => Ascii.eqb c ";"%char) s.

(** [s[:n]]. *)
Definition py_prefix (n : nat) (s : string) : string := substring 0 n s.

Fixpoint py_join (sep : string) (l : list string) : string :=
  match l with
  | [] => ""
  | [x] => x
  | x :: r => x ++ sep ++ py_join sep r
  end.

(** ["-" * n]. *)
Fixpoint repeat_string (s : string) (n : nat) : string :=
  match n with
  | O => ""
  | S k => s ++ repeat_string s k
  end.

Definition digit_char (d : N) : ascii := ascii_of_N (48 + d).

Fixpoint digits_aux (fuel : nat) (n : N) (acc : string) : string :=
  match fuel with
  | O => acc
  | S f =>
      let acc' := String (digit_char (N.modulo n 10)) acc in
      if N.ltb n 10 then acc' else digits_aux f (N.div n 10) acc'
  end.

Definition string_of_N (n : N) : string :=
  digits_aux (S (N.to_nat (N.size n))) n "".

(** [str(i)] for a Python [int]. *)
Definition string_of_Z (z : Z) : string :=
  if z <? 0 then "-" ++ string_of_N (Z.to_N (- z)) else string_of_N (Z.to_N z).

(** Zero-padded two- and four-digit fields of [strftime]/[isoformat]. *)
Definition pad (w : nat) (z : Z) : string :=
  let s := string_of_Z z in
  repeat_string "0" (w - String.length s) ++ s.

(** Proleptic Gregorian date of a day count since 1970-01-01. *)
Definition civil_from_days (z : Z) : Z * Z * Z :=
  let z := z + 719468 in
  let era := (if z >=? 0 then z else z - 146096) / 146097 in
  let doe := z - era * 146097 in
  let yoe := (doe - doe / 1460 + doe / 36524 - doe / 146096) / 365 in
  let y := yoe + era * 400 in
  let doy := doe - (365 * yoe + yoe / 4 - yoe / 100) in
  let mp := (5 * doy + 2) / 153 in
  let d := doy - (153 * mp + 2) / 5 + 1 in
  let m := if mp <? 10 then mp + 3 else mp - 9 in
  ((if m <=? 2 then y + 1 else y), m, d).

(** A naive local [datetime] is a count of seconds since 1970-01-01 00:00. *)
Definition datetime_fields (t : Z) : Z * Z * Z * Z * Z * Z :=
  let '(y, m, d) := civil_from_days (t / 86400) in
  let sec := t mod 86400 in
  (y, m, d, sec / 3600, (sec mod 3600) / 60, sec mod 60).

(** [dt.isoformat()] (whole seconds). *)
Definition isoformat (t : Z) : string :=
  let '(y, mo, d, h, mi, s) := datetime_fields t in
  pad 4 y ++ "-" ++ pad 2 mo ++ "-" ++ pad 2 d ++ "T" ++
  pad 2 h ++ ":" ++ pad 2 mi ++ ":" ++ pad 2 s.

(** [dt.strftime('%Y%m%d_%H%M%S')]. *)
Definition strftime_compact (t : Z) : string :=
  let '(y, mo, d, h, mi, s) := datetime_fields t in
  pad 4 y ++ pad 2 mo ++ pad 2 d ++ "_" ++ pad 2 h ++ pad 2 mi ++ pad 2 s.

(** ** JSON values *)

Inductive json : Type :=
| JNull
| JBool (b : bool)
| JNum (z : Z)
| JDec (lit : string)          (* a float, kept as its decimal literal *)
| JStr (s : string)
| JArr (l : list json)
| JObj (kvs : list (string * json)).

Definition type_name (j : json) : string :=
  match j with
  | JNull => "NoneType" | JBool _ => "bool" | JNum _ => "int"
  | JDec _ => "float" | JStr _ => "str" | JArr _ => "list" | JObj _ => "dict"
  end.

(** The one-character string made of a double quote. *)
Definition dq : string := String (ascii_of_nat 34) EmptyString.

(** [repr] of a Python string (escape sequences are not modelled). *)
Definition repr_string (s : string) : string :=
  if andb (py_contains "'" s) (negb (py_contains dq s))
  then dq ++ s ++ dq
  else "'" ++ s ++ "'".

Fixpoint py_repr (j : json) : string :=
  match j with
  | JNull => "None"
  | JBool true => "True"
  | JBool false => "False"
  | JNum z => string_of_Z z
  | JDec lit => lit
  | JStr s => repr_string s
  | JArr l =>
      "[" ++ (fix go (l : list json) : string :=
                match l with
                | [] => ""
                | [x] => py_repr x
                | x :: r => py_repr x ++ ", " ++ go r
                end) l ++ "]"
  | JObj kvs =>
      "{" ++ (fix go (l : list (string * json)) : string :=
                match l with
                | [] => ""
                | [(k, v)] => repr_string k ++ ": " ++ py_repr v
                | (k, v) :: r => repr_string k ++ ": " ++ py_repr v ++ ", " ++ go r
                end) kvs ++ "}"
  end.

(** [str(v)]. *)
Definition py_str (j : json) : string :=
  match j with
  | JStr s => s
  | _ => py_repr j
  end.

Definition is_zero_literal (lit : string) : bool :=
  forallb (fun c => orb (Ascii.eqb c "0"%char) (orb (Ascii.eqb c "."%char) (Ascii.eqb c "-"%char)))
          (list_ascii_of_string lit).

(** Python truthiness ([bool(v)]). *)
Definition truthy (j : json) : bool :=
  match j with
  | JNull => false
  | JBool b => b
  | JNum z => negb (z =? 0)
  | JDec lit => negb (is_zero_literal lit)
  | JStr s => negb (String.eqb s "")
  | JArr l => negb (List.length l =? 0)%nat
  | JObj kvs => negb (List.length kvs =? 0)%nat
  end.

(** [v == "lit"]. *)
Definition json_eq_str (j : json) (s : string) : bool :=
  match j with
  | JStr t => String.eqb t s
  | _ => false
  end.

Fixpoint assoc (k : string) (kvs : list (string * json)) : option json :=
  match kvs with
  | [] => None
  | (k', v) :: r => if String.eqb k k' then Some v else assoc k r
  end.

(** ** Exceptions, requests and the world *)

Inductive exc : Type :=
| ConnectionError (msg : string)     (* requests.exceptions.ConnectionError *)
| PyException (msg : string).        (* any other Exception; [str(e)] *)

Inductive meth : Type := GET | POST.

Record request : Type := mkRequest {
  rq_meth : meth;
  rq_url : string;
  rq_json : option json;
  rq_headers : list (string * json);
  rq_params : list (string * json);
  rq_session : option nat   (* the requests.Session used; None: module-level call *)
}.

Record response : Type := mkResponse {
  status_code : Z;
  body : option json;        (* None: the body is not valid JSON *)
  text : string
}.

Inductive outcome : Type :=
| HResp (r : response)
| HRaise (e : exc).

Record world : Type := mkWorld {
  w_http : nat -> request -> outcome;
  w_uuid : nat -> string;               (* str(uuid.uuid4()) *)
  w_env : string -> option string       (* os.getenv *)
}.

(** ** The session ([SupersetAuthManager] instance) and the program state *)

Record session : Type := mkSession {
  access_token : json;
  csrf_token : json;
  refresh_token : json;
  token_expiry : option Z;
  base_url : string;
  username : string;
  password : string;
  http_session : nat
}.

Record st : Type := mkSt {
  sess : session;
  created : bool;       (* SupersetAuthManager._instance is not None *)
  clock : Z;
  log : list request;
  uuid_ctr : nat;
  sess_ctr : nat
}.

Definition set_sess (s : st) (x : session) : st :=
  mkSt x (created s) (clock s) (log s) (uuid_ctr s) (sess_ctr s).

Definition set_tokens (x : session) (atok ct rt : json) (exp : option Z) : session :=
  mkSession atok ct rt exp (base_url x) (username x) (password x) (http_session x).

Inductive res (A : Type) : Type :=
| Ok (a : A)
| Raise (e : exc).
Arguments Ok {A} a.
Arguments Raise {A} e.

Definition M (A : Type) : Type := st -> res A * st.

Definition ret {A} (a : A) : M A := fun s => (Ok a, s).

Definition bind {A B} (m : M A) (f : A -> M B) : M B :=
  fun s => match m s with
           | (Ok a, s') => f a s'
           | (Raise e, s') => (Raise e, s')
           end.

Definition raise {A} (e : exc) : M A := fun s => (Raise e, s).

(** [try: m except ...: h(e)]. *)
Definition try_except {A} (m : M A) (h : exc -> M A) : M A :=
  fun s => match m s with
           | (Raise e, s') => h e s'
           | r => r
           end.

Notation "x <- m ;; k" := (bind m (fun x => k))
  (at level 61, m at next level, right associativity).

Definition get_sess : M session := fun s => (Ok (sess s), s).
Definition put_sess (x : session) : M unit := fun s => (Ok tt, set_sess s x).

(** [datetime.now()] and [time.sleep(1)]. *)
Definition datetime_now : M Z := fun s => (Ok (clock s), s).
Definition tick (s : st) : st :=
  mkSt (sess s) (created s) (clock s + 1) (log s) (uuid_ctr s) (sess_ctr s).
Definition sleep1 : M unit := fun s => (Ok tt, tick s).

(** Python-level errors raised by operations on JSON values. *)
Definition attr_error (j : json) (a : string) : exc :=
  PyException ("'" ++ type_name j ++ "' object has no attribute '" ++ a ++ "'").
Definition type_error (msg : string) : exc := PyException msg.

(** [d.get(k, default)] *)
Definition py_get_default (j : json) (k : string) (dflt : json) : M json :=
  match j with
  | JObj kvs => ret (match assoc k kvs with Some v => v | None => dflt end)
  | _ => raise (attr_error j "get")
  end.

(** [d.get(k)] *)
Definition py_get (j : json) (k : string) : M json := py_get_default j k JNull.

(** [k in d] for a dict [d]. *)
Definition py_in_keys (k : string) (j : json) : M bool :=
  match j with
  | JObj kvs => ret (match assoc k kvs with Some _ => true | None => false end)
  | JArr l => ret (existsb (fun x => json_eq_str x k) l)
  | JStr s => ret (py_contains k s)
  | _ => raise (type_error ("argument of type '" ++ type_name j ++ "' is not iterable"))
  end.

(** [v[0]]. *)
Definition py_index0 (j : json) : M json :=
  match j with
  | JArr (x :: _) => ret x
  | JArr [] => raise (PyException "list index out of range")
  | JStr (String c _) => ret (JStr (String c EmptyString))
  | JStr EmptyString => raise (PyException "string index out of range")
  | JObj _ => raise (PyException "0")
  | _ => raise (type_error ("'" ++ type_name j ++ "' object is not subscriptable"))
  end.

(** The items of [for x in v]. *)
Definition py_iter (j : json) : M (list json) :=
  match j with
  | JArr l => ret l
  | JStr s => ret (map (fun c => JStr (String c EmptyString)) (list_ascii_of_string s))
  | JObj kvs => ret (map (fun kv => JStr (fst kv)) kvs)
  | _ => raise (type_error ("'" ++ type_name j ++ "' object is not iterable"))
  end.

(** [len(v)]. *)
Definition py_len (j : json) : M nat :=
  match j with
  | JArr l => ret (List.length l)
  | JStr s => ret (String.length s)
  | JObj kvs => ret (List.length kvs)
  | _ => raise (type_error ("object of type '" ++ type_name j ++ "' has no len()"))
  end.

(** [response.json()]. *)
Definition resp_json (r : response) : M json :=
  match body r with
  | Some j => ret j
  | None => raise (PyException "Expecting value: line 1 column 1 (char 0)")
  end.

Definition log_request (s : st) (rq : request) : st :=
  mkSt (sess s) (created s) (clock s) (log s ++ [rq]) (uuid_ctr s) (sess_ctr s).
Definition bump_uuid (s : st) : st :=
  mkSt (sess s) (created s) (clock s) (log s) (S (uuid_ctr s)) (sess_ctr s).
Definition bump_sess (s : st) : st :=
  mkSt (sess s) (created s) (clock s) (log s) (uuid_ctr s) (S (sess_ctr s)).

Section Program.

Variable w : world.

(** An HTTP request: appended to the log, answered by the world. *)
Definition http (rq : request) : M response :=
  fun s =>
    match w_http w (List.length (log s)) rq with
    | HResp r => (Ok r, log_request s rq)
    | HRaise e => (Raise e, log_request s rq)
    end.

(** [self.session.post(url, json=payload, headers=h)] and [self.session.get]. *)
Definition session_post (url : string) (payload : json) (h : list (string * json)) : M response :=
  x <- get_sess ;; http (mkRequest POST url (Some payload) h [] (Some (http_session x))).
Definition session_get (url : string) (h : list (string * json)) : M response :=
  x <- get_sess ;; http (mkRequest GET url None h [] (Some (http_session x))).

(** [str(uuid.uuid4())]. *)
Definition uuid4 : M string :=
  fun s => (Ok (w_uuid w (uuid_ctr s)), bump_uuid s).

(** [requests.Session()]: a fresh connection/cookie context. *)
Definition new_http_session : M nat :=
  fun s => (Ok (sess_ctr s), bump_sess s).

Definition getenv (k dflt : string) : string :=
  match w_env w k with Some v => v | None => dflt end.

(** ** [SupersetAuthManager] *)

(** [SupersetAuthManager()]: no tokens, configuration from the environment
    and a fresh [requests.Session()]. *)
Definition new_manager : M session :=
  n <- new_http_session ;;
  ret (mkSession JNull JNull JNull None
                 (getenv "SUPERSET_URL" "http://localhost:8088")
                 (getenv "SUPERSET_USERNAME" "")
                 (getenv "SUPERSET_PASSWORD" "") n).

(** [SupersetAuthManager.get_instance()]. *)
Definition get_instance : M unit :=
  fun s =>
    if created s then (Ok tt, s)
    else match new_manager s with
         | (Ok x, s') => (Ok tt, mkSt x true (clock s') (log s') (uuid_ctr s') (sess_ctr s'))
         | (Raise e, s') => (Raise e, s')
         end.

End Program.

(** [is_authenticated()], a function of the session and of [datetime.now()]. *)
Definition is_authenticated (x : session) (now : Z) : bool :=
  if negb (truthy (access_token x)) then false
  else match token_expiry x with
       | Some e => if e <=? now then false else true
       | None => true
       end.

(** [get_headers()]. *)
Definition get_headers (x : session) : list (string * json) :=
  [("Content-Type", JStr "application/json")] ++
  (if truthy (access_token x)
   then [("Authorization", JStr ("Bearer " ++ py_str (access_token x)))] else []) ++
  (if truthy (csrf_token x) then [("X-CSRFToken", csrf_token x)] else []).

(** The token lifetime set by [authenticate()]: [timedelta(minutes=10)]. *)
Definition token_ttl : Z := 600.

(** The records returned by [authenticate()] and [execute_query()]. *)
Inductive auth_result : Type :=
| AuthSuccess (message : string) (access_preview csrf_preview expires_at : json)
| AuthError (message : string).

Inductive query_result : Type :=
| QSuccess (data columns query : json)
| QError (message : string).

Definition auth_status (r : auth_result) : string :=
  match r with AuthSuccess _ _ _ _ => "success" | AuthError _ => "error" end.

Definition auth_message (r : auth_result) : string :=
  match r with AuthSuccess m _ _ _ => m | AuthError m => m end.

Definition result_status (r : query_result) : string :=
  match r with QSuccess _ _ _ => "success" | QError _ => "error" end.

Definition exc_str (e : exc) : string :=
  match e with ConnectionError m => m | PyException m => m end.

(** [tok[:20] + "..." if tok else None]. *)
Definition mask_token (j : json) : M json :=
  if truthy j then
    match j with
    | JStr s => ret (JStr (py_prefix 20 s ++ "..."))
    | _ => raise (type_error ("unsupported operand type(s) for +: '" ++ type_name j ++ "' and 'str'"))
    end
  else ret JNull.

Section Manager.

Variable w : world.

Definition is_authenticated_m : M bool :=
  fun s => (Ok (is_authenticated (sess s) (clock s)), s).

(** Step 1 of [authenticate()] (lines 62-87): the login request; [Some r]
    is the early [return r] on a non-200 status. *)
Definition login_step : M (option auth_result) :=
  x <- get_sess ;;
  let login_url := base_url x ++ "/api/v1/security/login" in
  let login_payload := JObj [("username", JStr (username x)); ("password", JStr (password x));
                             ("provider", JStr "db"); ("refresh", JBool true)] in
  login_response <- session_post w login_url login_payload
                      [("Content-Type", JStr "application/json")] ;;
  if negb (status_code login_response =? 200) then
    ret (Some (AuthError ("Login failed with status " ++ string_of_Z (status_code login_response)
                          ++ ": " ++ text login_response)))
  else
    login_data <- resp_json login_response ;;
    atok <- py_get login_data "access_token" ;;
    x <- get_sess ;;
    _ <- put_sess (set_tokens x atok (csrf_token x) (refresh_token x) (token_expiry x)) ;;
    rtok <- py_get login_data "refresh_token" ;;
    x <- get_sess ;;
    _ <- put_sess (set_tokens x (access_token x) (csrf_token x) rtok (token_expiry x)) ;;
    now <- datetime_now ;;
    x <- get_sess ;;
    _ <- put_sess (set_tokens x (access_token x) (csrf_token x) (refresh_token x)
                              (Some (now + token_ttl))) ;;
    ret None.

(** Step 2 of [authenticate()] (lines 92-103): the CSRF token request; a
    non-200 status is only logged. *)
Definition csrf_step : M unit :=
  x <- get_sess ;;
  let csrf_url := base_url x ++ "/api/v1/security/csrf_token/" in
  csrf_response <- session_get w csrf_url
                     [("Authorization", JStr ("Bearer " ++ py_str (access_token x)))] ;;
  if status_code csrf_response =? 200 then
    csrf_data <- resp_json csrf_response ;;
    c <- py_get csrf_data "result" ;;
    x <- get_sess ;;
    put_sess (set_tokens x (access_token x) c (refresh_token x) (token_expiry x))
  else ret tt.

(** The success record of [authenticate()] (lines 105-111). *)
Definition auth_success_result : M auth_result :=
  x <- get_sess ;;
  ap <- mask_token (access_token x) ;;
  cp <- mask_token (csrf_token x) ;;
  let ea := match token_expiry x with Some t => JStr (isoformat t) | None => JNull end in
  ret (AuthSuccess "Successfully authenticated with Superset" ap cp ea).

(** The two [except] clauses of [authenticate()] (lines 113-120). *)
Definition authenticate_handler (e : exc) : M auth_result :=
  match e with
  | ConnectionError _ =>
      x <- get_sess ;;
      ret (AuthError ("Could not connect to Superset at " ++ base_url x
                      ++ ". Please ensure Superset is running."))
  | PyException m => ret (AuthError ("Authentication error: " ++ m))
  end.

(** [authenticate()]. *)
Definition authenticate : M auth_result :=
  try_except
    (early <- login_step ;;
     match early with
     | Some r => ret r
     | None => _ <- csrf_step ;; auth_success_result
     end)
    authenticate_handler.

(** [force_reauthenticate()]: clear the four token fields, create a new
    [requests.Session()], then [authenticate()]. *)
Definition force_reauthenticate : M auth_result :=
  x <- get_sess ;;
  _ <- put_sess (set_tokens x JNull JNull JNull None) ;;
  n <- new_http_session ;;
  x <- get_sess ;;
  _ <- put_sess (mkSession (access_token x) (csrf_token x) (refresh_token x) (token_expiry x)
                           (base_url x) (username x) (password x) n) ;;
  authenticate.

(** The prologue shared by [get_database_id] and [execute_query]:
    [if not self.is_authenticated(): auth_result = self.authenticate()];
    [None] when authenticated or when authentication succeeded. *)
Definition ensure_authenticated : M (option string) :=
  ok <- is_authenticated_m ;;
  if ok then ret None
  else ar <- authenticate ;;
       match ar with
       | AuthSuccess _ _ _ _ => ret None
       | AuthError m => ret (Some m)
       end.

(** [for db in databases: if db.get("database_name") == database_name:
    return db.get("id")]. *)
Fixpoint find_database (name : string) (dbs : list json) : M (option json) :=
  match dbs with
  | [] => ret None
  | db :: rest =>
      n <- py_get db "database_name" ;;
      if json_eq_str n name then (i <- py_get db "id" ;; ret (Some i))
      else find_database name rest
  end.

(** [get_database_id(database_name)]; [JNull] is [None]. *)
Definition get_database_id (database_name : string) : M json :=
  failed <- ensure_authenticated ;;
  match failed with
  | Some _ => ret JNull
  | None =>
      try_except
        (x <- get_sess ;;
         response <- session_get w (base_url x ++ "/api/v1/database/") (get_headers x) ;;
         if status_code response =? 200 then
           data <- resp_json response ;;
           databases <- py_get_default data "result" (JArr []) ;;
           items <- py_iter databases ;;
           found <- find_database database_name items ;;
           match found with
           | Some i => ret i
           | None =>
               if truthy databases then
                 fallback_db <- py_index0 databases ;;
                 py_get fallback_db "id"
               else ret JNull
           end
         else ret JNull)
        (fun _ => ret JNull)
  end.

(** [{"status": "success", "data": d.get("data", []), ...}]. *)
Definition success_result (d : json) : M query_result :=
  data <- py_get_default d "data" (JArr []) ;;
  cols <- py_get_default d "columns" (JArr []) ;;
  q <- py_get_default d "query" (JObj []) ;;
  ret (QSuccess data cols q).

(** [d.get("error") or d.get("errors", ["Unknown error"])[0]]. *)
Definition first_error (d : json) : M json :=
  e <- py_get d "error" ;;
  if truthy e then ret e
  else errs <- py_get_default d "errors" (JArr [JStr "Unknown error"]) ;;
       py_index0 errs.

(** [d.get("status") == "success" or "data" in d]. *)
Definition looks_successful (d : json) : M bool :=
  st <- py_get d "status" ;;
  if json_eq_str st "success" then ret true else py_in_keys "data" d.

Definition results_url (x : session) (query_id : json) : string :=
  base_url x ++ "/api/v1/sqllab/results/?key=" ++ py_str query_id.

(** The polling loop [for attempt in range(n): time.sleep(1); ...];
    [None] when the loop runs to its end without returning. *)
Fixpoint poll_results (n : nat) (query_id : json) : M (option query_result) :=
  match n with
  | O => ret None
  | S k =>
      _ <- sleep1 ;;
      x <- get_sess ;;
      status_response <- session_get w (results_url x query_id) (get_headers x) ;;
      if status_code status_response =? 200 then
        status_data <- resp_json status_response ;;
        query_status <- py_get status_data "status" ;;
        if json_eq_str query_status "success" then
          r <- success_result status_data ;; ret (Some r)
        else if json_eq_str query_status "error" then
          em <- first_error status_data ;; ret (Some (QError ("Query error: " ++ py_str em)))
        else poll_results k query_id
      else poll_results k query_id
  end.

Definition max_attempts : nat := 30.

Definition is_200_or_202 (c : Z) : bool := orb (c =? 200) (c =? 202).

Definition execute_payload (client_id : string) (database_id : json) (sql : string)
           (editor_id : string) (query_limit : Z) : json :=
  JObj [("client_id", JStr client_id); ("database_id", database_id); ("json", JBool true);
        ("runAsync", JBool false); ("sql", JStr sql); ("sql_editor_id", JStr editor_id);
        ("tab", JStr "Query"); ("tmp_table_name", JStr ""); ("select_as_cta", JBool false);
        ("ctas_method", JStr "TABLE"); ("queryLimit", JNum query_limit);
        ("expand_data", JBool true)].

Definition execute_url (x : session) : string := base_url x ++ "/api/v1/sqllab/execute/".

(** The [401] branch: one [force_reauthenticate()] and one retry of the
    same POST. *)
Definition retry_after_401 (url : string) (payload : json) : M query_result :=
  reauth_result <- force_reauthenticate ;;
  match reauth_result with
  | AuthSuccess _ _ _ _ =>
      x <- get_sess ;;
      retry_response <- session_post w url payload (get_headers x) ;;
      ok <- (if is_200_or_202 (status_code retry_response) then
               result_data <- resp_json retry_response ;;
               good <- looks_successful result_data ;;
               if good then (r <- success_result result_data ;; ret (Some r)) else ret None
             else ret None) ;;
      match ok with
      | Some r => ret r
      | None =>
          ret (QError ("Query failed after reauthentication: " ++ py_prefix 500 (text retry_response)))
      end
  | AuthError m => ret (QError ("Reauthentication failed: " ++ m))
  end.

(** The branch on the status of the execute response (lines 284-376). *)
Definition handle_execute_response (url : string) (payload : json) (response : response)
  : M query_result :=
  if is_200_or_202 (status_code response) then
    result_data <- resp_json response ;;
    pending <- (if status_code response =? 202 then ret true
                else st <- py_get result_data "status" ;; ret (json_eq_str st "pending")) ;;
    if pending then
      i <- py_get result_data "id" ;;
      query_id <- (if truthy i then ret i
                   else q <- py_get_default result_data "query" (JObj []) ;; py_get q "id") ;;
      o <- poll_results max_attempts query_id ;;
      match o with
      | Some r => ret r
      | None => ret (QError "Query timeout - took too long to execute")
      end
    else
      st <- py_get result_data "status" ;;
      good <- (if json_eq_str st "success" then ret true else py_in_keys "data" result_data) ;;
      if good then success_result result_data
      else
        st2 <- py_get result_data "status" ;;
        if json_eq_str st2 "error" then
          em <- first_error result_data ;; ret (QError ("Query error: " ++ py_str em))
        else
          data <- py_get_default result_data "data" (JArr []) ;;
          cols <- py_get_default result_data "columns" (JArr []) ;;
          ret (QSuccess data cols result_data)
  else if status_code response =? 401 then retry_after_401 url payload
  else ret (QError ("Query execution failed: " ++ py_prefix 500 (text response))).

(** The body of the [try] block of [execute_query] (lines 255-376). *)
Definition execute_body (sql : string) (database_id : json) (query_limit : Z) : M query_result :=
  u1 <- uuid4 w ;;
  let client_id := py_prefix 11 u1 in
  x <- get_sess ;;
  let url := execute_url x in
  u2 <- uuid4 w ;;
  let payload := execute_payload client_id database_id sql (py_prefix 8 u2) query_limit in
  x <- get_sess ;;
  response <- session_post w url payload (get_headers x) ;;
  handle_execute_response url payload response.

(** [execute_query(sql, database_id, database_name, query_limit)];
    a [database_id] of [JNull] is [None], a [query_limit] of [None] is [None]. *)
Definition execute_query (sql : string) (database_id : json) (database_name : string)
           (query_limit : option Z) : M query_result :=
  failed <- ensure_authenticated ;;
  match failed with
  | Some m => ret (QError m)
  | None =>
      did <- (match database_id with
              | JNull => get_database_id database_name
              | d => ret d
              end) ;;
      match did with
      | JNull => ret (QError ("Could not find database: " ++ database_name))
      | _ =>
          let lim := match query_limit with Some l => l | None => 100 end in
          try_except (execute_body sql did lim)
                     (fun e => ret (QError ("Query execution error: " ++ exc_str e)))
      end
  end.

End Manager.

(** ** Tool functions of [tools/query.py] *)

Definition nl : string := String (ascii_of_nat 10) EmptyString.

Fixpoint map_m {A B} (f : A -> M B) (l : list A) : M (list B) :=
  match l with
  | [] => ret []
  | x :: r => y <- f x ;; ys <- map_m f r ;; ret (y :: ys)
  end.

(** The argument of [" | ".join(...)]: every item must be a [str]. *)
Fixpoint as_strings (l : list json) : M (list string) :=
  match l with
  | [] => ret []
  | JStr s :: r => ss <- as_strings r ;; ret (s :: ss)
  | j :: _ => raise (type_error ("sequence item: expected str instance, " ++ type_name j ++ " found"))
  end.

(** [[col.get("column_name", col.get("name", f"col_{i}")) for i, col in enumerate(columns)]]. *)
Fixpoint column_names_from (i : Z) (cols : list json) : M (list json) :=
  match cols with
  | [] => ret []
  | col :: r =>
      nm <- py_get_default col "name" (JStr ("col_" ++ string_of_Z i)) ;;
      c <- py_get_default col "column_name" nm ;;
      cs <- column_names_from (i + 1) r ;;
      ret (c :: cs)
  end.

(** [list(d.keys())]. *)
Definition py_keys (d : json) : M (list json) :=
  match d with
  | JObj kvs => ret (map (fun kv => JStr (fst kv)) kvs)
  | _ => raise (attr_error d "keys")
  end.

(** The column-name computation shared by the query tools. *)
Definition column_names_of (data columns : json) : M (list json) :=
  if truthy columns then (cs <- py_iter columns ;; column_names_from 0 cs)
  else if truthy data then (d0 <- py_index0 data ;; py_keys d0)
  else ret [].

(** [str(val) if val is not None else "NULL"]. *)
Definition render_cell (v : json) : string :=
  match v with JNull => "NULL" | _ => py_str v end.

(** One data row, dict or sequence, joined by [" | "]. *)
Definition render_row (names : list string) (row : json) : M string :=
  match row with
  | JObj kvs =>
      ret (py_join " | " (map (fun c => render_cell (match assoc c kvs with
                                                       | Some v => v
                                                       | None => JStr "NULL"
                                                       end)) names) ++ nl)
  | _ => vals <- py_iter row ;; ret (py_join " | " (map render_cell vals) ++ nl)
  end.

(** [data[:10]]. *)
Definition py_slice10 (j : json) : M json :=
  match j with
  | JArr l => ret (JArr (firstn 10 l))
  | JStr s => ret (JStr (py_prefix 10 s))
  | _ => raise (type_error ("'" ++ type_name j ++ "' object is not subscriptable"))
  end.

Definition header_lines (names : list string) : string :=
  py_join " | " names ++ nl ++ repeat_string "-" (String.length (py_join " | " names)) ++ nl.

Definition more_rows_suffix (n : nat) : string :=
  if (10 <? n)%nat then nl ++ "... and " ++ string_of_Z (Z.of_nat n - 10) ++ " more rows" else "".

(** Lines 44-99 of [execute_sql_query]: formatting a query result. *)
Definition format_sql_result (query : string) (result : query_result) : M string :=
  match result with
  | QError m => ret ("Error executing query: " ++ m ++ nl ++ "Query: " ++ query)
  | QSuccess data columns _ =>
      if negb (truthy data) then
        ret ("Query executed successfully. No results found." ++ nl ++ "Query: " ++ query)
      else
        cn <- column_names_of data columns ;;
        let result_str := "Query: " ++ query ++ nl ++ nl in
        match cn with
        | _ :: _ =>
            names <- as_strings cn ;;
            shown <- py_slice10 data ;;
            rows <- py_iter shown ;;
            lines <- map_m (render_row names) rows ;;
            n <- py_len data ;;
            ret (result_str ++ header_lines names ++ String.concat "" lines
                 ++ more_rows_suffix n ++ nl ++ nl ++ "Total rows: " ++ string_of_Z (Z.of_nat n))
        | [] =>
            shown <- py_slice10 data ;;
            n <- py_len data ;;
            ret (result_str ++ py_str shown ++ more_rows_suffix n
                 ++ nl ++ nl ++ "Total rows: " ++ string_of_Z (Z.of_nat n))
        end
  end.

(** Lines 24-29 of [execute_sql_query]: the automatic LIMIT clause. *)
Definition add_limit (query : string) (limit : Z) : string :=
  if andb (negb (cp_contains (code_points "LIMIT") (py_upper query))) (negb (limit =? 0))
  then py_rstrip_semi (py_rstrip query) ++ " LIMIT " ++ string_of_Z limit
  else query.

(** Lines 288-306 of [execute_aggregation_query]: every row is rendered. *)
Definition format_aggregation_result (query : string) (result : query_result) : M string :=
  match result with
  | QError m => ret ("Error executing aggregation query: " ++ m ++ nl ++ "Query: " ++ query)
  | QSuccess data columns _ =>
      if negb (truthy data) then
        ret ("Aggregation query executed successfully. No results found." ++ nl ++ "Query: " ++ query)
      else
        cn <- column_names_of data columns ;;
        let result_str := "=== Aggregation Results ===" ++ nl ++ "Query: " ++ query ++ nl ++ nl in
        body <- (match cn with
                 | _ :: _ =>
                     names <- as_strings cn ;;
                     rows <- py_iter data ;;
                     lines <- map_m (render_row names) rows ;;
                     ret (header_lines names ++ String.concat "" lines)
                 | [] => ret (py_str data)
                 end) ;;
        n <- py_len data ;;
        ret (result_str ++ body ++ nl ++ "**Total result rows:** " ++ string_of_Z (Z.of_nat n))
  end.

Section Tools.

Variable w : world.

(** [execute_sql_query(query, database, limit)]. *)
Definition execute_sql_query (query : string) (database : string) (limit : Z) : M string :=
  let query := add_limit query limit in
  try_except
    (_ <- get_instance w ;;
     result <- execute_query w query JNull database (Some limit) ;;
     format_sql_result query result)
    (fun e => ret ("Error executing query: " ++ exc_str e ++ nl ++ "Query: " ++ query)).

(** [execute_aggregation_query(query, database)]. *)
Definition execute_aggregation_query (query : string) (database : string) : M string :=
  try_except
    (_ <- get_instance w ;;
     result <- execute_query w query JNull database (Some 100) ;;
     format_aggregation_result query result)
    (fun e => ret ("Error executing aggregation query: " ++ exc_str e ++ nl ++ "Query: " ++ query)).

End Tools.

(** ** Tool functions of [tools/chart.py] *)

(** [str.lower()] of one character of U+0000-U+00FF: [A-Z] and
    [U+00C0-U+00DE] but [U+00D7] move up by 32. *)
Definition ascii_lower (c : ascii) : ascii :=
  let n := nat_of_ascii c in
  if orb (andb (Nat.leb 65 n) (Nat.leb n 90))
         (andb (andb (Nat.leb 192 n) (Nat.leb n 222)) (negb (Nat.eqb n 215)))
  then ascii_of_nat (n + 32) else c.

(** [str.lower()]. *)
Fixpoint py_lower (s : string) : string :=
  match s with
  | EmptyString => EmptyString
  | String c r => String (ascii_lower c) (py_lower r)
  end.

Definition hex_digit (n : nat) : ascii :=
  if Nat.ltb n 10 then ascii_of_nat (48 + n) else ascii_of_nat (87 + n).

(** The string escapes of [json.dumps] (with its default [ensure_ascii=True]:
    every character outside [' '..'~'] without a short escape is written
    [\u00XX]). *)
Fixpoint json_escape (s : string) : string :=
  match s with
  | EmptyString => EmptyString
  | String c r =>
      let n := nat_of_ascii c in
      let e :=
        if Nat.eqb n 34 then "\" ++ dq
        else if Nat.eqb n 92 then "\\"
        else if Nat.eqb n 10 then "\n"
        else if Nat.eqb n 13 then "\r"
        else if Nat.eqb n 9 then "\t"
        else if Nat.eqb n 8 then "\b"
        else if Nat.eqb n 12 then "\f"
        else if orb (Nat.ltb n 32) (Nat.leb 127 n) then "\u00" ++ String (hex_digit (n / 16)) (String (hex_digit (n mod 16)) EmptyString)
        else String c EmptyString in
      e ++ json_escape r
  end.

(** [json.dumps(v)] with its default separators [", "] and [": "]. *)
Fixpoint json_dumps (j : json) : string :=
  match j with
  | JNull => "null"
  | JBool true => "true"
  | JBool false => "false"
  | JNum z => string_of_Z z
  | JDec lit => lit
  | JStr s => dq ++ json_escape s ++ dq
  | JArr l =>
      "[" ++ (fix go (l : list json) : string :=
                match l with
                | [] => ""
                | [x] => json_dumps x
                | x :: r => json_dumps x ++ ", " ++ go r
                end) l ++ "]"
  | JObj kvs =>
      "{" ++ (fix go (l : list (string * json)) : string :=
                match l with
                | [] => ""
                | [(k, v)] => dq ++ json_escape k ++ dq ++ ": " ++ json_dumps v
                | (k, v) :: r => dq ++ json_escape k ++ dq ++ ": " ++ json_dumps v ++ ", " ++ go r
                end) kvs ++ "}"
  end.

(** [d[k]] for a JSON value [d]. *)
Definition py_index_key (j : json) (k : string) : M json :=
  match j with
  | JObj kvs => match assoc k kvs with
                | Some v => ret v
                | None => raise (PyException ("'" ++ k ++ "'"))
                end
  | _ => raise (type_error ("'" ++ type_name j ++ "' indices must be integers"))
  end.

Definition viz_type_mapping : list (string * string) :=
  [("table", "table"); ("bar", "echarts_timeseries_bar"); ("line", "echarts_timeseries_line");
   ("pie", "pie"); ("area", "echarts_area"); ("scatter", "echarts_scatter");
   ("heatmap", "heatmap"); ("boxplot", "box_plot"); ("big_number", "big_number_total")].

Fixpoint lookup_str (k : string) (l : list (string * string)) (dflt : string) : string :=
  match l with
  | [] => dflt
  | (k', v) :: r => if String.eqb k k' then v else lookup_str k r dflt
  end.

Definition dict_get (f : list (string * json)) (k : string) (dflt : json) : json :=
  match assoc k f with Some v => v | None => dflt end.

Definition adhoc_filter_of (f : list (string * json)) : json :=
  JObj [("clause", JStr "WHERE"); ("subject", dict_get f "column" (JStr ""));
        ("operator", dict_get f "operator" (JStr "=")); ("comparator", dict_get f "value" (JStr ""));
        ("expressionType", JStr "SIMPLE")].

Definition default_adhoc_filter : json :=
  JObj [("clause", JStr "WHERE"); ("subject", JStr "created_at");
        ("operator", JStr "TEMPORAL_RANGE"); ("comparator", JStr "No filter");
        ("expressionType", JStr "SIMPLE")].

(** [params.update(...)] for each visualization type. *)
Definition viz_params (viz_type metric : string) (dims : json) : list (string * json) :=
  if String.eqb viz_type "big_number_total" then
    [("metric", JStr metric); ("header_font_size", JDec "0.4"); ("subtitle_font_size", JDec "0.15");
     ("metric_name_font_size", JDec "0.15"); ("y_axis_format", JStr "SMART_NUMBER");
     ("time_format", JStr "smart_date")]
  else if String.eqb viz_type "table" then
    [("metrics", JArr [JStr metric]); ("columns", dims); ("row_limit", JNum 10000)]
  else if existsb (String.eqb viz_type)
                  ["echarts_timeseries_bar"; "echarts_timeseries_line"; "echarts_area"] then
    [("metrics", JArr [JStr metric]); ("groupby", dims); ("row_limit", JNum 10000)]
  else if String.eqb viz_type "pie" then
    [("metric", JStr metric); ("groupby", dims); ("row_limit", JNum 10)]
  else [("metrics", JArr [JStr metric]); ("row_limit", JNum 10000)].

(** [{"col": f["column"], "op": f.get("operator", "="), "val": f["value"]}]. *)
Definition query_filter_of (f : list (string * json)) : M json :=
  c <- py_index_key (JObj f) "column" ;;
  v <- py_index_key (JObj f) "value" ;;
  ret (JObj [("col", c); ("op", dict_get f "operator" (JStr "=")); ("val", v)]).

Definition not_authenticated_msg : string :=
  "Error: Not authenticated with Superset. Please run authenticate_superset first.".

Section ChartTools.

Variable w : world.

(** [requests.post] and [requests.get] at module level (no session object). *)
Definition requests_post (url : string) (payload : json) (h : list (string * json)) : M response :=
  http w (mkRequest POST url (Some payload) h [] None).
Definition requests_get (url : string) (h : list (string * json)) (params : list (string * json)) : M response :=
  http w (mkRequest GET url None h params None).

(** [create_superset_chart(datasource_id, chart_type, chart_name, metric,
    dimensions, filters)]; [None] arguments are [None]. *)
Definition create_superset_chart (datasource_id : Z) (chart_type : string)
           (chart_name : option string) (metric : string)
           (dimensions : option (list string))
           (filters : option (list (list (string * json)))) : M string :=
  _ <- get_instance w ;;
  ok <- is_authenticated_m ;;
  if negb ok then ret not_authenticated_msg
  else
    now <- datetime_now ;;
    let chart_name := match chart_name with
                      | Some n => if String.eqb n "" then "Chart_" ++ chart_type ++ "_" ++ strftime_compact now else n
                      | None => "Chart_" ++ chart_type ++ "_" ++ strftime_compact now
                      end in
    let viz_type := lookup_str (py_lower chart_type) viz_type_mapping "table" in
    let fl := match filters with Some l => l | None => [] end in
    let adhoc_filters := match fl with
                         | [] => [default_adhoc_filter]
                         | _ => map adhoc_filter_of fl
                         end in
    let dims := JArr (map JStr (match dimensions with Some d => d | None => [] end)) in
    let params :=
      JObj ([("datasource", JStr (string_of_Z datasource_id ++ "__table"));
             ("viz_type", JStr viz_type); ("adhoc_filters", JArr adhoc_filters);
             ("extra_form_data", JObj []); ("dashboards", JArr [])]
            ++ viz_params viz_type metric dims) in
    qfilters <- map_m query_filter_of fl ;;
    let query_context :=
      JObj [("datasource", JObj [("id", JNum datasource_id); ("type", JStr "table")]);
            ("force", JBool false);
            ("queries", JArr [JObj [("filters", JArr qfilters);
                                    ("extras", JObj [("having", JStr ""); ("where", JStr "")]);
                                    ("applied_time_extras", JObj []); ("columns", dims);
                                    ("metrics", JArr [JStr metric]); ("annotation_layers", JArr []);
                                    ("series_limit", JNum 0);
                                    ("group_others_when_limit_reached", JBool false);
                                    ("order_desc", JBool true); ("url_params", JObj []);
                                    ("custom_params", JObj []); ("custom_form_data", JObj [])]]);
            ("form_data", params); ("result_format", JStr "json"); ("result_type", JStr "full")] in
    let chart_config :=
      JObj [("params", JStr (json_dumps params)); ("slice_name", JStr chart_name);
            ("viz_type", JStr viz_type); ("datasource_id", JNum datasource_id);
            ("datasource_type", JStr "table"); ("dashboards", JArr []); ("owners", JArr []);
            ("query_context", JStr (json_dumps query_context))] in
    try_except
      (x <- get_sess ;;
       response <- requests_post (base_url x ++ "/api/v1/chart/") chart_config (get_headers x) ;;
       if status_code response =? 201 then
         response_data <- resp_json response ;;
         has_result <- py_in_keys "result" response_data ;;
         chart_id <- (if has_result then
                        chart_data <- py_index_key response_data "result" ;;
                        inner <- py_get chart_data "id" ;;
                        py_get_default response_data "id" inner
                      else py_get response_data "id") ;;
         let chart_url := base_url x ++ "/explore/?slice_id=" ++ py_str chart_id in
         ret ("Chart created successfully!" ++ nl ++ "- Chart Name: " ++ chart_name ++ nl ++
              "- Chart Type: " ++ chart_type ++ nl ++ "- Chart ID: " ++ py_str chart_id ++ nl ++
              "- View URL: " ++ chart_url ++ nl ++
              "- Edit URL: " ++ base_url x ++ "/chart/edit/" ++ py_str chart_id)
       else ret ("Failed to create chart: " ++ string_of_Z (status_code response) ++ " - " ++ text response))
      (fun e => ret ("Error creating chart: " ++ exc_str e)).

(** One entry of the chart listing. *)
Definition render_chart (base : string) (chart : json) : M string :=
  nm <- py_get_default chart "slice_name" (JStr "Unnamed") ;;
  i <- py_get chart "id" ;;
  vt <- py_get_default chart "viz_type" (JStr "Unknown") ;;
  i2 <- py_get chart "id" ;;
  ch <- py_get_default chart "changed_on_delta_humanized" (JStr "Unknown") ;;
  ret ("- Name: " ++ py_str nm ++ nl ++ "  ID: " ++ py_str i ++ nl ++
       "  Type: " ++ py_str vt ++ nl ++ "  URL: " ++ base ++ "/explore/?slice_id=" ++ py_str i2 ++ nl ++
       "  Last Modified: " ++ py_str ch ++ nl ++ nl).

(** [list_existing_charts(page_size)]. *)
Definition list_existing_charts (page_size : Z) : M string :=
  _ <- get_instance w ;;
  ok <- is_authenticated_m ;;
  if negb ok then ret not_authenticated_msg
  else
    try_except
      (x <- get_sess ;;
       response <- requests_get (base_url x ++ "/api/v1/chart/") (get_headers x)
                                [("page_size", JNum page_size)] ;;
       if status_code response =? 200 then
         data <- resp_json response ;;
         charts <- py_get_default data "result" (JArr []) ;;
         if negb (truthy charts) then ret "No charts found in Superset."
         else
           n <- py_len charts ;;
           cnt <- py_get_default data "count" (JNum 0) ;;
           items <- py_iter charts ;;
           entries <- map_m (render_chart (base_url x)) items ;;
           ret ("Existing Charts (showing " ++ string_of_Z (Z.of_nat n) ++ " of " ++ py_str cnt ++ "):"
                ++ nl ++ nl ++ String.concat "" entries)
       else ret ("Failed to fetch charts: " ++ string_of_Z (status_code response) ++ " - " ++ text response))
      (fun e => ret ("Error fetching charts: " ++ exc_str e)).

End ChartTools.

(** ** Further methods of [SupersetAuthManager] *)

(** The dict returned by [refresh_authentication()]: either the record
    [{"status": "success", "message": "Authentication still valid",
    "expires_at": ...}] or the dict returned by [authenticate()]. *)
Inductive refresh_result : Type :=
| StillValid (expires_at : json)
| Reauthenticated (r : auth_result).

(** The dict returned by [test_connection()]: [{"status": "success",
    "message": "Connection successful", "database_count": ..., "base_url": ...}]
    or [{"status": "error", "message": ...}], with a ["details"] entry on a
    non-200 status. *)
Inductive conn_result : Type :=
| ConnSuccess (database_count : json) (base : string)
| ConnError (message : string) (details : option string).

Section ManagerMore.

Variable w : world.

(** [SupersetAuthManager.reset_instance()]: [cls._instance = None], then
    [cls.get_instance()]. *)
Definition reset_instance : M unit :=
  fun s => get_instance w (mkSt (sess s) false (clock s) (log s) (uuid_ctr s) (sess_ctr s)).

(** [refresh_authentication()]. *)
Definition refresh_authentication : M refresh_result :=
  ok <- is_authenticated_m ;;
  if ok then
    x <- get_sess ;;
    ret (StillValid (match token_expiry x with Some t => JStr (isoformat t) | None => JNull end))
  else
    r <- authenticate w ;;
    ret (Reauthenticated r).

(** [test_connection()]; its prologue is the one of [get_database_id]:
    authenticate when not authenticated, and return the error record with
    the message of [authenticate()] when that failed. *)
Definition test_connection : M conn_result :=
  failed <- ensure_authenticated w ;;
  match failed with
  | Some m => ret (ConnError m None)
  | None =>
      try_except
        (x <- get_sess ;;
         response <- session_get w (base_url x ++ "/api/v1/database/") (get_headers x) ;;
         if status_code response =? 200 then
           data <- resp_json response ;;
           cnt <- py_get_default data "count" (JNum 0) ;;
           x <- get_sess ;;
           ret (ConnSuccess cnt (base_url x))
         else
           ret (ConnError ("Connection test failed with status " ++ string_of_Z (status_code response))
                          (Some (py_prefix 200 (text response)))))
        (fun e => ret (ConnError ("Connection test error: " ++ exc_str e) None))
  end.

End ManagerMore.

(** ** Tool functions of [tools/auth.py] *)

(** The UTF-8 bytes of U+2713 and U+2717. *)
Definition check_mark : string :=
  String (ascii_of_nat 226) (String (ascii_of_nat 156) (String (ascii_of_nat 147) EmptyString)).
Definition cross_mark : string :=
  String (ascii_of_nat 226) (String (ascii_of_nat 156) (String (ascii_of_nat 151) EmptyString)).

(** [int(time_remaining.total_seconds() / 60) if time_remaining else 0]. *)
Definition minutes_remaining (expiry : option Z) (now : Z) : Z :=
  match expiry with Some e => Z.quot (e - now) 60 | None => 0 end.

Section AuthTools.

Variable w : world.

(** [authenticate_superset()]. *)
Definition authenticate_superset : M string :=
  _ <- get_instance w ;;
  result <- authenticate w ;;
  match result with
  | AuthSuccess _ ap cp ea =>
      x <- get_sess ;;
      ret ("Successfully authenticated with Superset!" ++ nl ++
           "- Access Token: " ++ py_str ap ++ nl ++
           "- CSRF Token: " ++ py_str cp ++ nl ++
           "- Token expires at: " ++ py_str ea ++ nl ++
           "- Base URL: " ++ base_url x ++ nl ++ nl ++
           "You can now use Superset API endpoints for creating charts, dashboards, and running queries.")
  | AuthError m => ret ("Authentication failed: " ++ m)
  end.

(** [get_superset_auth_status()]. *)
Definition get_superset_auth_status : M string :=
  _ <- get_instance w ;;
  ok <- is_authenticated_m ;;
  x <- get_sess ;;
  if ok then
    now <- datetime_now ;;
    ret ("Superset Authentication Status:" ++ nl ++
         "- Status: Authenticated " ++ check_mark ++ nl ++
         "- Base URL: " ++ base_url x ++ nl ++
         "- Username: " ++ username x ++ nl ++
         "- Token expires in: " ++ string_of_Z (minutes_remaining (token_expiry x) now) ++ " minutes" ++ nl ++
         "- Token expiry: " ++ (match token_expiry x with Some e => isoformat e | None => "Unknown" end))
  else
    ret ("Superset Authentication Status:" ++ nl ++
         "- Status: Not authenticated " ++ cross_mark ++ nl ++
         "- Base URL: " ++ base_url x ++ nl ++
         "- Username: " ++ username x ++ nl ++
         "- Action required: Run 'authenticate_superset' to establish connection").

(** [test_superset_connection()]. *)
Definition test_superset_connection : M string :=
  _ <- get_instance w ;;
  result <- test_connection w ;;
  match result with
  | ConnSuccess cnt base =>
      ret ("Superset connection test successful!" ++ nl ++
           "- API is accessible " ++ check_mark ++ nl ++
           "- Authentication is valid " ++ check_mark ++ nl ++
           "- Found " ++ py_str cnt ++ " configured databases" ++ nl ++
           "- Base URL: " ++ base)
  | ConnError m details =>
      let d := match details with Some t => t | None => "" end in
      ret ("Superset connection test failed:" ++ nl ++
           "- Error: " ++ m ++ nl ++
           (if String.eqb d "" then "" else "- Details: " ++ d))
  end.

End AuthTools.

(** ** [explore_table_structure] of [tools/query.py] *)

(** [str(val)[:50] if val is not None else "NULL"]. *)
Definition render_cell50 (v : json) : string :=
  match v with JNull => "NULL" | _ => py_prefix 50 (py_str v) end.

(** One sample row (lines 189-196). *)
Definition explore_row (names : list string) (row : json) : M string :=
  match row with
  | JObj kvs => ret (py_join " | " (map (fun c => render_cell50 (dict_get kvs c (JStr "NULL"))) names) ++ nl)
  | _ => vals <- py_iter row ;; ret (py_join " | " (map render_cell50 vals) ++ nl)
  end.

(** The sample-data section (lines 168-200); the second component is
    [column_names] when that local variable was assigned. *)
Definition sample_section (sample : query_result) : M (string * option (list json)) :=
  match sample with
  | QSuccess data columns _ =>
      cn <- column_names_of data columns ;;
      body <- (match cn with
               | _ :: _ =>
                   if truthy data then
                     names <- as_strings cn ;;
                     rows <- py_iter data ;;
                     lines <- map_m (explore_row names) rows ;;
                     ret (header_lines names ++ String.concat "" lines)
                   else ret ("No data found or table is empty." ++ nl)
               | [] => ret ("No data found or table is empty." ++ nl)
               end) ;;
      ret ("**Sample Data (5 rows):**" ++ nl ++ body, Some cn)
  | QError m => ret ("Error getting sample data: " ++ m ++ nl, None)
  end.

(** [d.items()]. *)
Definition py_items (d : json) : M (list (string * json)) :=
  match d with
  | JObj kvs => ret kvs
  | _ => raise (attr_error d "items")
  end.

(** The statistics section (lines 203-210). *)
Definition stats_section (stats : query_result) : M string :=
  match stats with
  | QSuccess data _ _ =>
      if truthy data then
        d0 <- py_index0 data ;;
        items <- py_items d0 ;;
        ret (String.concat "" (map (fun kv => "- " ++ fst kv ++ ": " ++ py_str (snd kv) ++ nl) items))
      else ret ""
  | QError _ => ret ("Could not retrieve statistics" ++ nl)
  end.

(** The column summary (lines 212-215). *)
Definition columns_section (cn : option (list json)) : M string :=
  let n := match cn with Some l => List.length l | None => O end in
  let head := nl ++ "**Columns Found:** " ++ string_of_Z (Z.of_nat n) ++ nl in
  match cn with
  | Some ((_ :: _) as l) => names <- as_strings l ;; ret (head ++ "Column Names: " ++ py_join ", " names ++ nl)
  | _ => ret head
  end.

Definition sample_query (table_name : string) : string :=
  "SELECT * FROM " ++ table_name ++ " LIMIT 5".

(** The f-string of lines 141-146, with its line breaks and indentation. *)
Definition stats_query (table_name : string) : string :=
  nl ++ "        SELECT " ++ nl ++
  "            COUNT(*) as total_rows," ++ nl ++
  "            COUNT(DISTINCT *) as approx_unique_rows" ++ nl ++
  "        FROM " ++ table_name ++ nl ++ "        ".

Definition fallback_stats_query (table_name : string) : string :=
  "SELECT COUNT(*) as total_rows FROM " ++ table_name.

Section Explore.

Variable w : world.

(** Lines 148-162: the statistics query, with the bare [except:] that
    falls back to a plain row count. *)
Definition explore_stats (table_name database : string) : M query_result :=
  try_except (execute_query w (stats_query table_name) JNull database (Some 10))
             (fun _ => execute_query w (fallback_stats_query table_name) JNull database (Some 10)).

(** [explore_table_structure(table_name, database)]. *)
Definition explore_table_structure (table_name database : string) : M string :=
  try_except
    (_ <- get_instance w ;;
     sample_result <- execute_query w (sample_query table_name) JNull database (Some 5) ;;
     stats_result <- explore_stats table_name database ;;
     let r0 := "=== Table Structure: " ++ table_name ++ " ===" ++ nl ++ nl in
     sc <- sample_section sample_result ;;
     r2 <- stats_section stats_result ;;
     r3 <- columns_section (snd sc) ;;
     ret (r0 ++ fst sc ++ nl ++ "**Table Statistics:**" ++ nl ++ r2 ++ r3))
    (fun e => ret ("Error exploring table: " ++ exc_str e ++ nl ++ "Table: " ++ table_name)).

End Explore.

(** ** [get_available_datasets] and [create_chart_from_query] of [tools/chart.py] *)

(** One dataset line (line 220). *)
Definition render_dataset (ds : json) : M string :=
  i <- py_index_key ds "id" ;;
  nm <- py_index_key ds "table_name" ;;
  db <- py_get_default ds "database" (JObj []) ;;
  dbn <- py_get_default db "database_name" (JStr "Unknown") ;;
  ret ("- ID: " ++ py_str i ++ ", Name: " ++ py_str nm ++ ", Database: " ++ py_str dbn ++ nl).

(** [s.strip()]. *)
Definition py_strip (s : string) : string :=
  string_of_list_ascii (drop_while is_py_space (list_ascii_of_string (rstrip_by is_py_space s))).

(** [s.split(sep)] for a non-empty [sep]: scanning left to right, [skip]
    counts the characters of a matched separator still to be passed over,
    [cur] is the piece being built. *)
Fixpoint split_go (sep s : string) (skip : nat) (cur : string) : list string :=
  match s with
  | EmptyString => [cur]
  | String c r =>
      match skip with
      | S k => split_go sep r k cur
      | O => if is_prefix sep s then cur :: split_go sep r (String.length sep - 1) ""
             else split_go sep r O (cur ++ String c EmptyString)
      end
  end.

Definition py_split (sep s : string) : list string := split_go sep s O "".

(** [l[i]] for a list of strings. *)
Definition py_list_index (l : list string) (i : nat) : M string :=
  match nth_error l i with
  | Some x => ret x
  | None => raise (PyException "list index out of range")
  end.

(** Lines 288-301: the automatic chart type. *)
Definition auto_chart_type (query : string) : string :=
  let query_lower := py_lower query in
  if andb (py_contains "count(*)" query_lower) (negb (py_contains "group by" query_lower)) then "big_number"
  else if andb (py_contains "group by" query_lower) (py_contains "count" query_lower) then "bar"
  else if orb (py_contains "date" query_lower) (py_contains "time" query_lower) then "line"
  else if andb (py_contains "sum" query_lower) (py_contains "group by" query_lower) then "pie"
  else "table".

(** Lines 309-320: the metric. *)
Definition detect_metric (query_lower : string) : string :=
  if orb (py_contains "count(*)" query_lower) (py_contains "count(" query_lower) then "count"
  else if py_contains "sum(" query_lower then "sum"
  else if py_contains "avg(" query_lower then "avg"
  else if py_contains "max(" query_lower then "max"
  else if py_contains "min(" query_lower then "min"
  else "count".

(** Lines 323-325: the dimensions of the GROUP BY clause. *)
Definition group_by_dimensions (query_lower : string) : M (list string) :=
  if py_contains "group by" query_lower then
    p1 <- py_list_index (py_split "group by" query_lower) 1 ;;
    p2 <- py_list_index (py_split "order by" p1) 0 ;;
    group_by_part <- py_list_index (py_split "having" p2) 0 ;;
    ret (map py_strip (filter (fun dim => negb (String.eqb (py_strip dim) ""))
                              (py_split "," group_by_part)))
  else ret [].

Section ChartTools2.

Variable w : world.

(** [get_available_datasets()]. *)
Definition get_available_datasets : M string :=
  _ <- get_instance w ;;
  ok <- is_authenticated_m ;;
  if negb ok then ret not_authenticated_msg
  else
    try_except
      (x <- get_sess ;;
       response <- requests_get w (base_url x ++ "/api/v1/dataset/") (get_headers x)
                                [("page_size", JNum 100)] ;;
       if status_code response =? 200 then
         data <- resp_json response ;;
         datasets <- py_get_default data "result" (JArr []) ;;
         if negb (truthy datasets) then ret "No datasets found in Superset."
         else
           items <- py_iter datasets ;;
           lines <- map_m render_dataset items ;;
           ret ("Available Datasets:" ++ nl ++ String.concat "" lines)
       else ret ("Failed to fetch datasets: " ++ string_of_Z (status_code response) ++ " - " ++ text response))
      (fun e => ret ("Error fetching datasets: " ++ exc_str e)).

(** The call [create_superset_chart(datasource_id=..., chart_type=...,
    chart_name=..., metric=..., dimensions=...)] of line 351 goes through
    the object built by LangChain's [@tool] decorator; its behaviour is a
    parameter here. *)
Variable chart_tool_call : Z -> string -> option string -> string -> list string -> M string.

(** [create_chart_from_query(query, chart_type, chart_name, database_id)]. *)
Definition create_chart_from_query (query chart_type : string) (chart_name : option string)
           (database_id : Z) : M string :=
  _ <- get_instance w ;;
  ok <- is_authenticated_m ;;
  if negb ok then ret not_authenticated_msg
  else
    let chart_type := if String.eqb chart_type "auto" then auto_chart_type query else chart_type in
    let query_lower := py_lower query in
    let metric := detect_metric query_lower in
    dimensions <- group_by_dimensions query_lower ;;
    try_except
      (x <- get_sess ;;
       let sql_payload := JObj [("database_id", JNum database_id); ("sql", JStr query);
                                ("runAsync", JBool false); ("schema", JNull)] in
       response <- requests_post w (base_url x ++ "/api/v1/sqllab/execute/") sql_payload (get_headers x) ;;
       if negb (status_code response =? 200) then
         ret ("Query execution failed: " ++ string_of_Z (status_code response) ++ " - " ++ text response)
       else
         query_result <- resp_json response ;;
         d <- py_get_default query_result "data" (JArr []) ;;
         row_count <- py_len d ;;
         chart_result <- chart_tool_call database_id chart_type chart_name metric dimensions ;;
         ret ("Query executed and visualization created!" ++ nl ++ nl ++
              "Query Statistics:" ++ nl ++
              "- Rows returned: " ++ string_of_Z (Z.of_nat row_count) ++ nl ++
              "- Selected chart type: " ++ chart_type ++ nl ++
              "- Metric: " ++ metric ++ nl ++
              "- Dimensions: " ++ (match dimensions with [] => "None" | _ => py_join ", " dimensions end)
              ++ nl ++ nl ++ chart_result))
      (fun e => ret ("Error: " ++ exc_str e)).

End ChartTools2.

(** ** Spec-side notions *)

Definition is_ident_char (c : ascii) : bool :=
  let n := nat_of_ascii c in
  orb (andb (Nat.leb 48 n) (Nat.leb n 57))
      (orb (andb (Nat.leb 65 n) (Nat.leb n 90))
           (orb (andb (Nat.leb 97 n) (Nat.leb n 122)) (Nat.eqb n 95))).

Fixpoint words_aux (s : string) (cur : string) : list string :=
  match s with
  | EmptyString => [cur]
  | String c r =>
      if is_ident_char c then words_aux r (cur ++ String c EmptyString)
      else cur :: words_aux r ""
  end.

(** The spec's "the keyword LIMIT": a whole SQL word equal to LIMIT in any case. *)
Definition has_limit_keyword (q : string) : bool :=
  existsb (fun wd => if list_eq_dec N.eq_dec (py_upper wd) (code_points "LIMIT") then true else false)
          (words_aux q "").

(** ** Notions of the verification: invariants, requests of a run, concrete scenarios *)

Definition no_raise {A} (m : M A) : Prop := forall s, exists a s', m s = (Ok a, s').

Definition keeps {A} (P : st -> Prop) (m : M A) : Prop :=
  forall s r s', P s -> m s = (r, s') -> P s'.

(** The clock only moves by [time.sleep(1)]. *)
Definition same_clock (c : Z) (s : st) : Prop := clock s = c.

Definition demo_session : session :=
  mkSession JNull JNull JNull None "http://localhost:8088" "admin" "admin" 0.

Definition demo_state : st := mkSt demo_session true 1000 [] 0 1.

Definition mk_resp (code : Z) (j : json) : response := mkResponse code (Some j) "".

Definition login_ok_world : world :=
  mkWorld (fun _ _ => HResp (mk_resp 200 (JObj [("access_token", JStr "tok");
                                                ("refresh_token", JStr "ref");
                                                ("result", JStr "csrf")])))
          (fun _ => "uuid") (fun _ => None).

Definition poll_request (x : session) (query_id : json) : request :=
  mkRequest GET (results_url x query_id) None (get_headers x) [] (Some (http_session x)).

Definition still_pending (r : response) : bool :=
  if status_code r =? 200 then
    match body r with
    | Some (JObj kvs) =>
        let st := dict_get kvs "status" JNull in
        andb (negb (json_eq_str st "success")) (negb (json_eq_str st "error"))
    | _ => false
    end
  else true.

Definition success_record (kvs : list (string * json)) : query_result :=
  QSuccess (dict_get kvs "data" (JArr [])) (dict_get kvs "columns" (JArr []))
           (dict_get kvs "query" (JObj [])).

Definition reported_error (kvs : list (string * json)) : option json :=
  let e := dict_get kvs "error" JNull in
  if truthy e then Some e
  else match dict_get kvs "errors" (JArr [JStr "Unknown error"]) with
       | JArr (x :: _) => Some x
       | _ => None
       end.

Definition effective_limit (query_limit : option Z) : Z :=
  match query_limit with Some l => l | None => 100 end.

(** The payload and the request of the execute POST issued from state [s]. *)
Definition execute_payload_at (w : world) (s : st) (sql : string) (database_id : json) (lim : Z) : json :=
  execute_payload (py_prefix 11 (w_uuid w (uuid_ctr s))) database_id sql
                  (py_prefix 8 (w_uuid w (S (uuid_ctr s)))) lim.

Definition execute_request_at (w : world) (s : st) (sql : string) (database_id : json) (lim : Z) : request :=
  mkRequest POST (execute_url (sess s)) (Some (execute_payload_at w s sql database_id lim))
            (get_headers (sess s)) [] (Some (http_session (sess s))).

Definition query_error_handler (e : exc) : M query_result :=
  ret (QError ("Query execution error: " ++ exc_str e)).

(** Lines 245-248 of [execute_query]: the database id given, or the one
    looked up by name when none is given. *)
Definition resolve_database_id (w : world) (database_id : json) (database_name : string) : M json :=
  match database_id with
  | JNull => get_database_id w database_name
  | d => ret d
  end.

Definition poll_outcome (o : option query_result) : M query_result :=
  match o with
  | Some r => ret r
  | None => ret (QError "Query timeout - took too long to execute")
  end.

(** Line 290 of [execute_query]: [result_data.get("id") or
    result_data.get("query", {}).get("id")], when it does not raise. *)
Definition pending_query_id (kvs : list (string * json)) : option json :=
  let i := dict_get kvs "id" JNull in
  if truthy i then Some i
  else match dict_get kvs "query" (JObj []) with
       | JObj q => Some (dict_get q "id" JNull)
       | _ => None
       end.

Definition after_execute_post (w : world) (s1 : st) (sql : string) (d : json) (lim : option Z) : st :=
  log_request (bump_uuid (bump_uuid s1)) (execute_request_at w s1 sql d (effective_limit lim)).

Definition retry_request (url : string) (payload : json) (x : session) : request :=
  mkRequest POST url (Some payload) (get_headers x) [] (Some (http_session x)).

Definition reauth_failed_msg (r : response) : string :=
  "Query failed after reauthentication: " ++ py_prefix 500 (text r).

Definition retry_success_shaped (kvs : list (string * json)) : bool :=
  orb (json_eq_str (dict_get kvs "status" JNull) "success")
      (match assoc "data" kvs with Some _ => true | None => false end).

Definition db_entry_ok (j : json) : bool :=
  match j with
  | JObj kvs => match dict_get kvs "id" JNull with JNum _ => true | _ => false end
  | _ => false
  end.

Fixpoint first_match_id (name : string) (dbs : list json) : option json :=
  match dbs with
  | [] => None
  | JObj kvs :: rest =>
      if json_eq_str (dict_get kvs "database_name" JNull) name then Some (dict_get kvs "id" JNull)
      else first_match_id name rest
  | _ :: rest => first_match_id name rest
  end.

Definition db_list_request (x : session) : request :=
  mkRequest GET (base_url x ++ "/api/v1/database/") None (get_headers x) [] (Some (http_session x)).

(** A column descriptor [{"column_name": c}] and the rendering of a dict row. *)
Definition column_entry (c : string) : json := JObj [("column_name", JStr c)].

Definition is_dict (j : json) : bool := match j with JObj _ => true | _ => false end.

Definition row_line (names : list string) (row : json) : string :=
  match row with
  | JObj kvs => py_join " | " (map (fun c => render_cell (dict_get kvs c (JStr "NULL"))) names) ++ nl
  | _ => ""
  end.

Definition has_key (k : string) (f : list (string * json)) : bool :=
  match assoc k f with Some _ => true | None => false end.

(** A filter whose [f["column"]] and [f["value"]] both exist. *)
Definition filter_ok (f : list (string * json)) : bool := andb (has_key "column" f) (has_key "value" f).

Definition authed_session : session := set_tokens demo_session (JStr "tok") JNull JNull None.

Definition authed_state : st := mkSt authed_session true 1000 [] 0 1.

(** Every request answers HTTP 500 with the text "boom". *)
Definition fail500_world : world :=
  mkWorld (fun _ _ => HResp (mkResponse 500 None "boom")) (fun _ => "uuid") (fun _ => None).

Definition n_rows (k : nat) : list json := map (fun i => JObj [("n", JNum (Z.of_nat i))]) (seq 1 k).

(** GET: the database list; POST: a synchronous result with [k] rows. *)
Definition rows_world (k : nat) : world :=
  mkWorld (fun _ rq => match rq_meth rq with
                       | GET => HResp (mk_resp 200 (JObj [("result", JArr [JObj [("id", JNum 1); ("database_name", JStr "PostgreSQL")]])]))
                       | _ => HResp (mk_resp 200 (JObj [("status", JStr "success"); ("data", JArr (n_rows k));
                                                        ("columns", JArr [column_entry "n"])]))
                       end)
          (fun _ => "uuid") (fun _ => None).

Definition login_resp : response :=
  mk_resp 200 (JObj [("access_token", JStr "tok"); ("refresh_token", JStr "ref"); ("result", JStr "csrf")]).

(** The database list: one database, id 1, named "PostgreSQL". *)
Definition pg_list_resp : response :=
  mk_resp 200 (JObj [("result", JArr [JObj [("id", JNum 1); ("database_name", JStr "PostgreSQL")]])]).

(** Request 0 (the database list of [get_database_id]) lists "PostgreSQL"
    with id 1; request [S k] answers [rest k]. *)
Definition lookup_world (rest : nat -> outcome) : world :=
  mkWorld (fun n _ => match n with
                      | O => HResp pg_list_resp
                      | S k => rest k
                      end) (fun _ => "uuid") (fun _ => None).

(** After the lookup, the execute POST answers 401, the login and the
    CSRF token requests succeed and the retry answers [final]. *)
Definition retry_world (final : outcome) : world :=
  lookup_world (fun k => match k with
                         | O => HResp (mk_resp 401 (JObj []))
                         | 3%nat => final
                         | _ => HResp login_resp
                         end).

Definition pending_resp : response := mk_resp 200 (JObj [("status", JStr "pending")]).

Definition success_kvs : list (string * json) := [("status", JStr "success"); ("data", JArr [JNum 1])].

(** After the lookup, the execute POST answers 202 with the query id under
    [query.id], two polls are pending, the third poll succeeds. *)
Definition poll_world : world :=
  lookup_world (fun k => match k with
                         | O => HResp (mk_resp 202 (JObj [("query", JObj [("id", JStr "q1")])]))
                         | 1%nat | 2%nat => HResp pending_resp
                         | _ => HResp (mk_resp 200 (JObj success_kvs))
                         end).

(** The state after [get_database_id] looked "PostgreSQL" up. *)
Definition looked_up_state (w : world) : st := snd (resolve_database_id w JNull "PostgreSQL" authed_state).

Definition other_db_kvs : list (string * json) := [("id", JNum 7); ("database_name", JStr "other")].

(** The database list holds one database, named "other". *)
Definition db_world : world :=
  mkWorld (fun _ _ => HResp (mk_resp 200 (JObj [("result", JArr [JObj other_db_kvs])])))
          (fun _ => "uuid") (fun _ => None).

(** The error message of [authenticate()] when the login request fails:
    a non-200 status, or an exception. *)
Definition login_failure_message (x : session) (o : outcome) : string :=
  match o with
  | HResp r => "Login failed with status " ++ string_of_Z (status_code r) ++ ": " ++ text r
  | HRaise (ConnectionError _) =>
      "Could not connect to Superset at " ++ base_url x ++ ". Please ensure Superset is running."
  | HRaise (PyException m) => "Authentication error: " ++ m
  end.

(** How a token is shown: [None] for a missing or empty token, otherwise
    its first 20 characters followed by ["..."]. *)
Definition masked_as (tok : json) (shown : string) : Prop :=
  (truthy tok = false /\ shown = "None") \/ (exists t, tok = JStr t /\ shown = py_prefix 20 t ++ "...").

(** The record [test_connection()] returns for the answer [o] to its
    database-list request, by the branches of lines 157-180. *)
Definition conn_outcome (x : session) (o : outcome) : conn_result :=
  match o with
  | HResp r =>
      if status_code r =? 200 then
        match body r with
        | Some (JObj kvs) => ConnSuccess (dict_get kvs "count" (JNum 0)) (base_url x)
        | Some j => ConnError ("Connection test error: " ++ exc_str (attr_error j "get")) None
        | None => ConnError "Connection test error: Expecting value: line 1 column 1 (char 0)" None
        end
      else ConnError ("Connection test failed with status " ++ string_of_Z (status_code r))
                     (Some (py_prefix 200 (text r)))
  | HRaise e => ConnError ("Connection test error: " ++ exc_str e) None
  end.

(** The answers to the database listing of [get_database_id] from which
    it finds no database at all (lines 199-224): an exception, a status
    other than 200, a body that is not an object, or a falsy ["result"]. *)
Definition no_database_listed (o : outcome) : bool :=
  match o with
  | HRaise _ => true
  | HResp r =>
      if status_code r =? 200 then
        match body r with
        | Some (JObj kvs) => negb (truthy (dict_get kvs "result" (JArr [])))
        | _ => true
        end
      else true
  end.

(** A dataset entry [render_dataset] renders without raising: a dict with
    an ["id"] and a ["table_name"], whose ["database"], if present, is a
    dict. *)
Definition dataset_ok (ds : json) : bool :=
  match ds with
  | JObj kvs =>
      match assoc "id" kvs, assoc "table_name" kvs with
      | Some _, Some _ =>
          match assoc "database" kvs with
          | None | Some (JObj _) => true
          | Some _ => false
          end
      | _, _ => false
      end
  | _ => false
  end.

(** Request 0 (the login) succeeds, every later request fails to connect. *)
Definition err_after_login_world : world :=
  mkWorld (fun n _ => match n with
                      | O => HResp login_resp
                      | _ => HRaise (ConnectionError "down")
                      end) (fun _ => "uuid") (fun _ => None).

(** Every request fails to connect. *)
Definition down_world : world :=
  mkWorld (fun _ _ => HRaise (ConnectionError "down")) (fun _ => "uuid") (fun _ => None).

(** The login answers 200 without an access token; later requests answer 500. *)
Definition notoken_world : world :=
  mkWorld (fun n _ => match n with
                      | O => HResp (mk_resp 200 (JObj [("refresh_token", JStr "ref")]))
                      | _ => HResp (mkResponse 500 None "boom")
                      end) (fun _ => "uuid") (fun _ => None).

(** The dataset listing: one well-formed entry, then one without ["id"]. *)
Definition datasets_world : world :=
  mkWorld (fun _ _ => HResp (mk_resp 200 (JObj [("result", JArr [JObj [("id", JNum 1); ("table_name", JStr "orders")];
                                                                  JObj [("table_name", JStr "users")]])])))
          (fun _ => "uuid") (fun _ => None).

(** Every request answers 200 with a payload of status ["done"] and no data. *)
Definition odd_payload_world : world :=
  lookup_world (fun _ => HResp (mk_resp 200 (JObj [("status", JStr "done"); ("columns", JArr [JStr "n"])]))).

(** After the lookup of "PostgreSQL", every request answers 500 with the
    text "boom". *)
Definition lookup_fail_world : world := lookup_world (fun _ => HResp (mkResponse 500 None "boom")).

(** [x] occurs in [y]. *)
Definition sub (x y : string) : Prop := exists a b, y = a ++ x ++ b.

(** A list whose last element is not stripped. *)
Definition rstripped (l : list ascii) : Prop :=
  match rev l with [] => True | x :: _ => is_py_space x = false end.

Definition strip_list (l : list ascii) : list ascii :=
  drop_while is_py_space (rev (drop_while is_py_space (rev l))).

(** The number of positions of [hay] where a non-empty [needle] starts. *)
Fixpoint cp_count (needle hay : list N) : nat :=
  match hay with
  | [] => O
  | _ :: r => ((if cp_prefix needle hay then 1 else 0) + cp_count needle r)%nat
  end.

(** How many times the upper-cased text holds LIMIT: the number of places
    where the test [LIMIT in query.upper()] of [execute_sql_query] matches. *)
Definition limit_occurrences (s : string) : nat :=
  cp_count (code_points "LIMIT") (py_upper s).

(** Whether the last character of [s] satisfies [p] (false for [""]). *)
Definition ends_with (p : ascii -> bool) (s : string) : bool :=
  match rev (list_ascii_of_string s) with
  | [] => false
  | c :: _ => p c
  end.

(** The character [';']. *)
Definition is_semicolon (c : ascii) : bool := Ascii.eqb c ";"%char.

(** ** Lemmas on the state updates *)

Section Projections.
Variables (s : st) (rq : request) (x : session).
Lemma sess_log_request : sess (log_request s rq) = sess s. Proof. reflexivity. Qed.
Lemma clock_log_request : clock (log_request s rq) = clock s. Proof. reflexivity. Qed.
Lemma log_log_request : log (log_request s rq) = (log s ++ [rq])%list. Proof. reflexivity. Qed.
Lemma sess_set_sess : sess (set_sess s x) = x. Proof. reflexivity. Qed.
Lemma clock_set_sess : clock (set_sess s x) = clock s. Proof. reflexivity. Qed.
Lemma log_set_sess : log (set_sess s x) = log s. Proof. reflexivity. Qed.
Lemma sess_tick : sess (tick s) = sess s. Proof. reflexivity. Qed.
Lemma clock_tick : clock (tick s) = clock s + 1. Proof. reflexivity. Qed.
Lemma log_tick : log (tick s) = log s. Proof. reflexivity. Qed.
Lemma sess_bump_uuid : sess (bump_uuid s) = sess s. Proof. reflexivity. Qed.
Lemma clock_bump_uuid : clock (bump_uuid s) = clock s. Proof. reflexivity. Qed.
Lemma log_bump_uuid : log (bump_uuid s) = log s. Proof. reflexivity. Qed.
Lemma sess_bump_sess : sess (bump_sess s) = sess s. Proof. reflexivity. Qed.
Lemma clock_bump_sess : clock (bump_sess s) = clock s. Proof. reflexivity. Qed.
Lemma log_bump_sess : log (bump_sess s) = log s. Proof. reflexivity. Qed.
End Projections.

Section TokenProjections.
Variables (x : session) (a c r : json) (e : option Z).
Lemma access_set_tokens : access_token (set_tokens x a c r e) = a. Proof. reflexivity. Qed.
Lemma csrf_set_tokens : csrf_token (set_tokens x a c r e) = c. Proof. reflexivity. Qed.
Lemma refresh_set_tokens : refresh_token (set_tokens x a c r e) = r. Proof. reflexivity. Qed.
Lemma expiry_set_tokens : token_expiry (set_tokens x a c r e) = e. Proof. reflexivity. Qed.
Lemma base_url_set_tokens : base_url (set_tokens x a c r e) = base_url x. Proof. reflexivity. Qed.
End TokenProjections.

Create Rewrite HintDb proj.
#[export] Hint Rewrite sess_log_request clock_log_request log_log_request sess_set_sess
  clock_set_sess log_set_sess sess_tick clock_tick log_tick sess_bump_uuid clock_bump_uuid
  log_bump_uuid sess_bump_sess clock_bump_sess log_bump_sess access_set_tokens csrf_set_tokens
  refresh_set_tokens expiry_set_tokens base_url_set_tokens : proj.

Arguments log_request : simpl never.
Arguments set_sess : simpl never.
Arguments tick : simpl never.
Arguments bump_uuid : simpl never.
Arguments bump_sess : simpl never.
Arguments set_tokens : simpl never.

(** ** Running a computation to an [Ok] result *)

Lemma bind_ok {A B} (m : M A) (f : A -> M B) s b s'' :
  bind m f s = (Ok b, s'') -> exists a s', m s = (Ok a, s') /\ f a s' = (Ok b, s'').
Proof. unfold bind; destruct (m s) as [[a|e] s']; intros H; [eauto | discriminate]. Qed.

Lemma try_except_ok {A} (m : M A) h s b s'' :
  try_except m h s = (Ok b, s'') ->
  m s = (Ok b, s'') \/ exists e s', m s = (Raise e, s') /\ h e s' = (Ok b, s'').
Proof. unfold try_except; destruct (m s) as [[a|e] s']; intros H; eauto. Qed.

Lemma http_ok w rq s r s' :
  http w rq s = (Ok r, s') -> w_http w (List.length (log s)) rq = HResp r /\ s' = log_request s rq.
Proof. unfold http; destruct (w_http w _ rq); intros H; inversion H; auto. Qed.

Ltac decomp_step :=
  match reverse goal with
  | H : bind _ _ _ = (Ok _, _) |- _ =>
      let a := fresh "a" in let s1 := fresh "s" in let H1 := fresh "Hm" in
      apply bind_ok in H; destruct H as (a & s1 & H1 & H)
  | H : get_sess _ = (Ok _, _) |- _ => unfold get_sess in H; injection H; clear H; intros; subst
  | H : datetime_now _ = (Ok _, _) |- _ => unfold datetime_now in H; injection H; clear H; intros; subst
  | H : ret _ _ = (Ok _, _) |- _ => unfold ret in H; injection H; clear H; intros; subst
  | H : raise _ _ = (Ok _, _) |- _ => discriminate H
  | H : put_sess _ _ = (Ok _, _) |- _ => unfold put_sess in H; injection H; clear H; intros; subst
  | H : http _ _ _ = (Ok _, _) |- _ =>
      let E := fresh "E" in apply http_ok in H; destruct H as [E H]; subst
  | H : (Ok _, _) = (Ok _, _) |- _ => injection H; clear H; intros; subst
  | H : (Raise _, _) = (Ok _, _) |- _ => discriminate H
  | H : (let _ := _ in _) _ = _ |- _ => cbv zeta in H
  | H : (if ?b then _ else _) _ = (Ok _, _) |- _ =>
      let E := fresh "E" in destruct b eqn:E
  | H : (match ?x with _ => _ end) _ = (Ok _, _) |- _ =>
      let E := fresh "E" in destruct x eqn:E
  | H : (match ?x with _ => _ end) = (Ok _, _) |- _ =>
      let E := fresh "E" in destruct x eqn:E
  end.

Ltac decomp := repeat decomp_step; try discriminate.

(** ** Computations that never raise *)

Lemma no_raise_ret {A} (a : A) : no_raise (ret a).
Proof. intros s; eexists _, _; reflexivity. Qed.

Lemma no_raise_get_sess : no_raise get_sess.
Proof. intros s; eexists _, _; reflexivity. Qed.

Lemma no_raise_put_sess x : no_raise (put_sess x).
Proof. intros s; eexists _, _; reflexivity. Qed.

Lemma no_raise_new_http_session : no_raise new_http_session.
Proof. intros s; eexists _, _; reflexivity. Qed.

Lemma no_raise_is_authenticated_m : no_raise is_authenticated_m.
Proof. intros s; eexists _, _; reflexivity. Qed.

Lemma no_raise_bind {A B} (m : M A) (f : A -> M B) :
  no_raise m -> (forall a, no_raise (f a)) -> no_raise (bind m f).
Proof.
  intros Hm Hf s; destruct (Hm s) as (a & s' & E).
  destruct (Hf a s') as (b & s'' & E').
  exists b, s''; unfold bind; rewrite E; exact E'.
Qed.

Lemma no_raise_try {A} (m : M A) h :
  (forall e, no_raise (h e)) -> no_raise (try_except m h).
Proof.
  intros Hh s; unfold try_except.
  destruct (m s) as [[a|e] s']; [eauto | apply Hh].
Qed.

Create HintDb noraise.
#[export] Hint Resolve no_raise_ret no_raise_get_sess no_raise_put_sess no_raise_new_http_session
  no_raise_is_authenticated_m : noraise.

Ltac nr :=
  repeat match goal with
         | |- no_raise (bind _ _) => apply no_raise_bind; [ | intro ]
         | |- no_raise (try_except _ _) => apply no_raise_try; intro
         | |- no_raise (let _ := _ in _) => cbv zeta
         | |- no_raise (if ?c then _ else _) => destruct c
         | |- no_raise (match ?x with _ => _ end) => destruct x
         | |- no_raise _ => solve [eauto with noraise]
         end.

Lemma no_raise_authenticate w : no_raise (authenticate w).
Proof. unfold authenticate; apply no_raise_try; intros []; unfold authenticate_handler; nr. Qed.
#[export] Hint Resolve no_raise_authenticate : noraise.

Lemma no_raise_force_reauthenticate w : no_raise (force_reauthenticate w).
Proof. unfold force_reauthenticate; nr. Qed.

Lemma no_raise_ensure_authenticated w : no_raise (ensure_authenticated w).
Proof. unfold ensure_authenticated; nr. Qed.
#[export] Hint Resolve no_raise_ensure_authenticated : noraise.

Lemma no_raise_get_database_id w name : no_raise (get_database_id w name).
Proof. unfold get_database_id; nr. Qed.
#[export] Hint Resolve no_raise_get_database_id : noraise.

Lemma no_raise_execute_query w sql d name lim : no_raise (execute_query w sql d name lim).
Proof. unfold execute_query; nr. Qed.

(** ** Invariants kept by a computation *)

Section Keeps.
Variable P : st -> Prop.

Lemma keeps_ret {A} (a : A) : keeps P (ret a).
Proof. intros s r s' H E; inversion E; subst; exact H. Qed.

Lemma keeps_raise {A} e : keeps P (@raise A e).
Proof. intros s r s' H E; inversion E; subst; exact H. Qed.

Lemma keeps_get_sess : keeps P get_sess.
Proof. intros s r s' H E; inversion E; subst; exact H. Qed.

Lemma keeps_datetime_now : keeps P datetime_now.
Proof. intros s r s' H E; inversion E; subst; exact H. Qed.

Lemma keeps_bind {A B} (m : M A) (f : A -> M B) :
  keeps P m -> (forall a, keeps P (f a)) -> keeps P (bind m f).
Proof.
  intros Hm Hf s r s'' H; unfold bind.
  destruct (m s) as [[a|e] s'] eqn:E; intros E'.
  - exact (Hf a s' r s'' (Hm s _ s' H E) E').
  - inversion E'; subst; exact (Hm s _ s'' H E).
Qed.

Lemma keeps_try {A} (m : M A) h :
  keeps P m -> (forall e, keeps P (h e)) -> keeps P (try_except m h).
Proof.
  intros Hm Hh s r s'' H; unfold try_except.
  destruct (m s) as [[a|e] s'] eqn:E; intros E'.
  - inversion E'; subst; exact (Hm s _ s'' H E).
  - exact (Hh e s' r s'' (Hm s _ s' H E) E').
Qed.

Lemma keeps_http w rq : (forall s, P s -> P (log_request s rq)) -> keeps P (http w rq).
Proof.
  intros HP s r s' H; unfold http.
  destruct (w_http w _ rq); intros E; inversion E; subst; auto.
Qed.

End Keeps.

Create HintDb keeps.
#[export] Hint Resolve keeps_ret keeps_raise keeps_get_sess keeps_datetime_now : keeps.

Ltac kp :=
  repeat match goal with
         | |- keeps _ (bind _ _) => apply keeps_bind; [ | intro ]
         | |- keeps _ (try_except _ _) => apply keeps_try; [ | intro ]
         | |- keeps _ (let _ := _ in _) => cbv zeta
         | |- keeps _ (if ?c then _ else _) => destruct c
         | |- keeps _ (match ?x with _ => _ end) => destruct x
         | |- keeps _ (session_post _ _ _ _) => unfold session_post
         | |- keeps _ (session_get _ _ _) => unfold session_get
         | |- keeps _ _ => solve [eauto with keeps]
         end.

Lemma same_clock_put c x : keeps (same_clock c) (put_sess x).
Proof. intros s r s' H E; inversion E; subst; exact H. Qed.
Lemma same_clock_new_http_session c : keeps (same_clock c) new_http_session.
Proof. intros s r s' H E; inversion E; subst; exact H. Qed.
Lemma same_clock_http c w rq : keeps (same_clock c) (http w rq).
Proof. apply keeps_http; intros s H; exact H. Qed.
#[export] Hint Resolve same_clock_put same_clock_new_http_session same_clock_http : keeps.

Lemma authenticate_clock w c : keeps (same_clock c) (authenticate w).
Proof.
  unfold authenticate, login_step, csrf_step, auth_success_result, authenticate_handler,
    resp_json, py_get, py_get_default, mask_token; kp.
Qed.
#[export] Hint Resolve authenticate_clock : keeps.

Lemma force_reauthenticate_clock w c : keeps (same_clock c) (force_reauthenticate w).
Proof. unfold force_reauthenticate; kp. Qed.

(** ** [authenticate()] on its success path *)

Lemma login_step_none w s s' :
  login_step w s = (Ok None, s') ->
  token_expiry (sess s') = Some (clock s + token_ttl) /\ clock s' = clock s.
Proof.
  unfold login_step, session_post, resp_json, py_get, py_get_default; intros H.
  decomp; autorewrite with proj; auto.
Qed.

Lemma login_step_some w s r s' :
  login_step w s = (Ok (Some r), s') -> exists m, r = AuthError m.
Proof.
  unfold login_step, session_post, resp_json, py_get, py_get_default; intros H.
  decomp; eauto.
Qed.

Lemma csrf_step_ok w s u s' :
  csrf_step w s = (Ok u, s') ->
  token_expiry (sess s') = token_expiry (sess s) /\ clock s' = clock s /\
  access_token (sess s') = access_token (sess s).
Proof.
  unfold csrf_step, session_get, resp_json, py_get, py_get_default; intros H.
  decomp; autorewrite with proj; auto.
Qed.

Lemma auth_success_result_ok s r s' :
  auth_success_result s = (Ok r, s') -> s' = s /\ auth_status r = "success".
Proof.
  unfold auth_success_result, mask_token; intros H.
  decomp; auto.
Qed.

Lemma authenticate_handler_ok e s r s' :
  authenticate_handler e s = (Ok r, s') -> auth_status r = "error".
Proof. unfold authenticate_handler; intros H; decomp; reflexivity. Qed.

Lemma authenticate_success w s r s' :
  authenticate w s = (Ok r, s') -> auth_status r = "success" ->
  token_expiry (sess s') = Some (clock s + token_ttl) /\ clock s' = clock s.
Proof.
  unfold authenticate; intros H Hs.
  apply try_except_ok in H as [H | (e & s1 & _ & H)].
  - apply bind_ok in H as (early & s1 & H1 & H).
    destruct early as [r0|].
    + apply login_step_some in H1 as [m ->].
      unfold ret in H; injection H; clear H; intros; subst; discriminate.
    + apply login_step_none in H1 as [E1 C1].
      apply bind_ok in H as (u & s2 & H2 & H).
      apply csrf_step_ok in H2 as (E2 & C2 & _).
      apply auth_success_result_ok in H as [-> _].
      split; congruence.
  - apply authenticate_handler_ok in H; congruence.
Qed.

(** C2: for every world (every behaviour of the remote service, including
    raised connection errors) and every state, [authenticate] and
    [execute_query] end normally (no exception escapes) with a result whose
    status is "success" or "error". *)
Theorem authenticate_execute_query_never_raise w s sql d name lim :
  (exists r s', authenticate w s = (Ok r, s') /\
                (auth_status r = "success" \/ auth_status r = "error")) /\
  (exists r s', execute_query w sql d name lim s = (Ok r, s') /\
                (result_status r = "success" \/ result_status r = "error")).
Proof.
  split.
  - destruct (no_raise_authenticate w s) as (r & s' & E).
    exists r, s'; split; [exact E | destruct r; simpl; auto].
  - destruct (no_raise_execute_query w sql d name lim s) as (r & s' & E).
    exists r, s'; split; [exact E | destruct r; simpl; auto].
Qed.



(** C6: [is_authenticated] reads the state and changes nothing; it is true
    exactly when an access token is set and the current time is before the
    recorded expiry (if any); it is false on a freshly created manager; and
    after a successful [authenticate] the expiry is the authentication time
    plus the token lifetime, after which it is false again. *)
Theorem is_authenticated_spec :
  (forall s, is_authenticated_m s = (Ok (is_authenticated (sess s) (clock s)), s)) /\
  (forall x now, is_authenticated x now = true <->
     truthy (access_token x) = true /\ (forall e, token_expiry x = Some e -> now < e)) /\
  (forall w s now, created s = false ->
     is_authenticated (sess (snd (get_instance w s))) now = false) /\
  (forall w s r s', authenticate w s = (Ok r, s') -> auth_status r = "success" ->
     token_expiry (sess s') = Some (clock s + token_ttl) /\ clock s' = clock s /\
     forall now, clock s + token_ttl <= now -> is_authenticated (sess s') now = false).
Proof.
  split; [reflexivity |]. split; [| split].
  - intros x now; unfold is_authenticated.
    destruct (truthy (access_token x)); simpl;
      [| split; [discriminate | intros [H _]; discriminate]].
    destruct (token_expiry x) as [e|]; split.
    + intros H; split; [reflexivity |]; intros e' He'; injection He' as <-.
      destruct (e <=? now) eqn:E; [discriminate | apply Z.leb_gt in E; exact E].
    + intros [_ H]; specialize (H e eq_refl). destruct (Z.leb_spec e now); [lia | reflexivity].
    + intros _; split; [reflexivity | discriminate].
    + reflexivity.
  - intros w s now Hc; unfold get_instance; rewrite Hc; reflexivity.
  - intros w s r s' H Hs.
    destruct (authenticate_success w s r s' H Hs) as [E C].
    split; [exact E | split; [exact C |]].
    intros now Hn; unfold is_authenticated; rewrite E.
    destruct (negb _); [reflexivity |].
    destruct (Z.leb_spec (clock s + token_ttl) now); [reflexivity | lia].
Qed.

Lemma is_authenticated_spec_witness :
  is_authenticated (sess (snd (authenticate login_ok_world demo_state))) 1600 = false /\
  is_authenticated (sess (snd (get_instance login_ok_world
                                 (mkSt demo_session false 1000 [] 0 0)))) 1000 = false.
Proof.
  destruct is_authenticated_spec as (_ & _ & H3 & H4). split.
  - destruct (authenticate login_ok_world demo_state) as [r s'] eqn:E.
    pose proof E as E'; vm_compute in E'; injection E' as Hr _.
    subst r; destruct (H4 login_ok_world demo_state _ s' E eq_refl) as (_ & _ & H).
    apply H; simpl; unfold token_ttl; lia.
  - apply H3; reflexivity.
Defined.

(** C9: a session with an access token set and no recorded expiry is
    authenticated at every time. *)
Theorem token_without_expiry_valid x now :
  truthy (access_token x) = true -> token_expiry x = None -> is_authenticated x now = true.
Proof. intros Ht He; unfold is_authenticated; rewrite Ht, He; reflexivity. Qed.

Lemma token_without_expiry_valid_witness :
  is_authenticated (set_tokens demo_session (JStr "tok") JNull JNull None) 123456789 = true.
Proof. apply token_without_expiry_valid; reflexivity. Defined.

Lemma keeps_pure {A} (m : M A) :
  (forall s, keeps (eq s) m) -> forall s r s', m s = (r, s') -> s' = s.
Proof. intros H s r s' E; symmetry; exact (H s s r s' eq_refl E). Qed.
Lemma bind_step {A B} (m : M A) (f : A -> M B) s a s' :
  m s = (Ok a, s') -> bind m f s = f a s'.
Proof. intros E; unfold bind; rewrite E; reflexivity. Qed.

Lemma bind_raise {A B} (m : M A) (f : A -> M B) s e s' :
  m s = (Raise e, s') -> bind m f s = (Raise e, s').
Proof. intros E; unfold bind; rewrite E; reflexivity. Qed.

Lemma session_get_out w url h s :
  session_get w url h s =
  let rq := mkRequest GET url None h [] (Some (http_session (sess s))) in
  match w_http w (List.length (log s)) rq with
  | HResp r => (Ok r, log_request s rq)
  | HRaise e => (Raise e, log_request s rq)
  end.
Proof. reflexivity. Qed.

Lemma session_get_resp w url h s r :
  w_http w (List.length (log s)) (mkRequest GET url None h [] (Some (http_session (sess s)))) = HResp r ->
  session_get w url h s = (Ok r, log_request s (mkRequest GET url None h [] (Some (http_session (sess s))))).
Proof. intros Hw; rewrite session_get_out; cbv zeta; rewrite Hw; reflexivity. Qed.

Lemma session_get_raise w url h s e :
  w_http w (List.length (log s)) (mkRequest GET url None h [] (Some (http_session (sess s)))) = HRaise e ->
  session_get w url h s = (Raise e, log_request s (mkRequest GET url None h [] (Some (http_session (sess s))))).
Proof. intros Hw; rewrite session_get_out; cbv zeta; rewrite Hw; reflexivity. Qed.

Lemma session_post_resp w url j h s r :
  w_http w (List.length (log s)) (mkRequest POST url (Some j) h [] (Some (http_session (sess s)))) = HResp r ->
  session_post w url j h s =
  (Ok r, log_request s (mkRequest POST url (Some j) h [] (Some (http_session (sess s))))).
Proof. intros Hw; unfold session_post, bind, get_sess, http; cbv beta iota; rewrite Hw; reflexivity. Qed.

Lemma session_post_raise w url j h s e :
  w_http w (List.length (log s)) (mkRequest POST url (Some j) h [] (Some (http_session (sess s)))) = HRaise e ->
  session_post w url j h s =
  (Raise e, log_request s (mkRequest POST url (Some j) h [] (Some (http_session (sess s))))).
Proof. intros Hw; unfold session_post, bind, get_sess, http; cbv beta iota; rewrite Hw; reflexivity. Qed.

Lemma poll_results_step w n qid s r :
  w_http w (List.length (log s)) (poll_request (sess s) qid) = HResp r ->
  poll_results w (S n) qid s =
  (if status_code r =? 200 then
     status_data <- resp_json r ;;
     query_status <- py_get status_data "status" ;;
     if json_eq_str query_status "success" then
       r <- success_result status_data ;; ret (Some r)
     else if json_eq_str query_status "error" then
       em <- first_error status_data ;; ret (Some (QError ("Query error: " ++ py_str em)))
     else poll_results w n qid
   else poll_results w n qid) (log_request (tick s) (poll_request (sess s) qid)).
Proof.
  intros Hw; cbn [poll_results].
  rewrite (bind_step _ _ s tt (tick s)) by reflexivity.
  rewrite (bind_step get_sess _ (tick s) (sess (tick s)) (tick s)) by reflexivity.
  rewrite (bind_step _ _ _ r _ (session_get_resp w _ _ (tick s) r Hw)).
  reflexivity.
Qed.

Lemma poll_results_raise w n qid s e :
  w_http w (List.length (log s)) (poll_request (sess s) qid) = HRaise e ->
  poll_results w (S n) qid s = (Raise e, log_request (tick s) (poll_request (sess s) qid)).
Proof.
  intros Hw; cbn [poll_results].
  rewrite (bind_step _ _ s tt (tick s)) by reflexivity.
  rewrite (bind_step get_sess _ (tick s) (sess (tick s)) (tick s)) by reflexivity.
  apply (bind_raise _ _ _ e _ (session_get_raise w _ _ (tick s) e Hw)).
Qed.

Lemma poll_results_pending w n qid s r :
  (forall rq, w_http w (List.length (log s)) rq = HResp r) -> still_pending r = true ->
  poll_results w (S n) qid s = poll_results w n qid (log_request (tick s) (poll_request (sess s) qid)).
Proof.
  intros Hw Hp; rewrite (poll_results_step w n qid s r (Hw _)); unfold still_pending in Hp.
  destruct (status_code r =? 200); [| reflexivity].
  unfold resp_json; destruct (body r) as [[| | | | | | l]|]; try discriminate.
  rewrite (bind_step (ret (JObj l)) _ _ _ _ eq_refl).
  rewrite (bind_step (py_get (JObj l) "status") _ _ _ _ eq_refl).
  unfold dict_get in Hp.
  destruct (json_eq_str _ "success"); [discriminate |].
  destruct (json_eq_str _ "error"); [discriminate | reflexivity].
Qed.

Lemma success_result_obj kvs s : success_result (JObj kvs) s = (Ok (success_record kvs), s).
Proof. reflexivity. Qed.

Lemma first_error_state j s r s' : first_error j s = (r, s') -> s' = s.
Proof.
  apply (keeps_pure (first_error j)); intros s0.
  unfold first_error, py_get, py_get_default, py_index0; kp.
Qed.

Lemma first_error_reported kvs em s :
  reported_error kvs = Some em -> first_error (JObj kvs) s = (Ok em, s).
Proof.
  unfold reported_error, first_error, dict_get; intros E.
  rewrite (bind_step (py_get (JObj kvs) "error") _ _ _ _ eq_refl).
  destruct (truthy _); [injection E as <-; reflexivity |].
  rewrite (bind_step (py_get_default (JObj kvs) "errors" _) _ _ _ _ eq_refl).
  destruct (assoc "errors" kvs) as [v|];
    [destruct v as [| | | | | [|x l] |]; try discriminate | ];
    injection E as <-; reflexivity.
Qed.

Lemma poll_results_success w n qid s r kvs :
  (forall rq, w_http w (List.length (log s)) rq = HResp r) ->
  status_code r = 200 -> body r = Some (JObj kvs) -> dict_get kvs "status" JNull = JStr "success" ->
  poll_results w (S n) qid s =
  (Ok (Some (success_record kvs)), log_request (tick s) (poll_request (sess s) qid)).
Proof.
  intros Hw Hc Hb Hs; rewrite (poll_results_step w n qid s r (Hw _)), Hc; cbn [Z.eqb Pos.eqb].
  unfold resp_json; rewrite Hb.
  rewrite (bind_step (ret (JObj kvs)) _ _ _ _ eq_refl).
  rewrite (bind_step (py_get (JObj kvs) "status") _ _ _ _ eq_refl).
  unfold dict_get in Hs; rewrite Hs; cbn [json_eq_str].
  rewrite String.eqb_refl; cbv iota.
  rewrite (bind_step _ _ _ _ _ (success_result_obj kvs _)); reflexivity.
Qed.

Lemma poll_results_error w n qid s r kvs em :
  (forall rq, w_http w (List.length (log s)) rq = HResp r) ->
  status_code r = 200 -> body r = Some (JObj kvs) -> dict_get kvs "status" JNull = JStr "error" ->
  reported_error kvs = Some em ->
  poll_results w (S n) qid s =
  (Ok (Some (QError ("Query error: " ++ py_str em))),
   log_request (tick s) (poll_request (sess s) qid)).
Proof.
  intros Hw Hc Hb Hs He; rewrite (poll_results_step w n qid s r (Hw _)), Hc; cbn [Z.eqb Pos.eqb].
  unfold resp_json; rewrite Hb.
  rewrite (bind_step (ret (JObj kvs)) _ _ _ _ eq_refl).
  rewrite (bind_step (py_get (JObj kvs) "status") _ _ _ _ eq_refl).
  unfold dict_get in Hs; rewrite Hs; cbn [json_eq_str].
  change (("error" =? "success")%string) with false; rewrite String.eqb_refl; cbv iota.
  rewrite (bind_step _ _ _ _ _ (first_error_reported kvs em _ He)); reflexivity.
Qed.

Lemma poll_results_prefix w qid :
  forall k n s, (k <= n)%nat ->
  (forall j, (j < k)%nat -> exists r,
      (forall rq, w_http w (List.length (log s) + j) rq = HResp r) /\ still_pending r = true) ->
  exists s', poll_results w n qid s = poll_results w (n - k) qid s' /\
             log s' = (log s ++ repeat (poll_request (sess s) qid) k)%list /\
             clock s' = clock s + Z.of_nat k /\ sess s' = sess s.
Proof.
  induction k as [|k IH]; intros n s Hk Hp.
  - exists s; rewrite Nat.sub_0_r, app_nil_r; repeat split; lia.
  - destruct n as [|n]; [lia |].
    destruct (Hp 0%nat ltac:(lia)) as (r & Hw & Hr); rewrite Nat.add_0_r in Hw.
    rewrite (poll_results_pending w n qid s r Hw Hr).
    set (s1 := log_request (tick s) (poll_request (sess s) qid)).
    destruct (IH n s1 ltac:(lia)) as (s' & E & L & C & X).
    + intros j Hj; destruct (Hp (S j) ltac:(lia)) as (r' & Hw' & Hr').
      exists r'; split; [| exact Hr'].
      intros rq; subst s1; autorewrite with proj; rewrite length_app; simpl.
      rewrite <- Hw' with rq; f_equal; lia.
    + exists s'; subst s1; autorewrite with proj in L, C, X.
      rewrite E, L, C, X; repeat split; [| lia].
      rewrite <- app_assoc; reflexivity.
Qed.

Lemma py_get_state j k s r s' : py_get j k s = (r, s') -> s' = s.
Proof. apply (keeps_pure (py_get j k)); intros s0; unfold py_get, py_get_default; kp. Qed.

Lemma success_result_state j s r s' : success_result j s = (r, s') -> s' = s.
Proof.
  apply (keeps_pure (success_result j)); intros s0; unfold success_result, py_get_default; kp.
Qed.

Lemma poll_results_bounded w qid :
  forall n s r s', poll_results w n qid s = (r, s') ->
  exists k, (k <= n)%nat /\ log s' = (log s ++ repeat (poll_request (sess s) qid) k)%list /\
            clock s' = clock s + Z.of_nat k.
Proof.
  induction n as [|n IH]; intros s res s' H.
  - injection H as _ <-; exists 0%nat; rewrite app_nil_r; repeat split; lia.
  - set (s1 := log_request (tick s) (poll_request (sess s) qid)) in H.
    assert (Done : exists k, (k <= S n)%nat /\
                     log s1 = (log s ++ repeat (poll_request (sess s) qid) k)%list /\
                     clock s1 = clock s + Z.of_nat k).
    { exists 1%nat; subst s1; autorewrite with proj; repeat split; lia. }
    assert (Rec : poll_results w n qid s1 = (res, s') ->
                  exists k, (k <= S n)%nat /\
                    log s' = (log s ++ repeat (poll_request (sess s) qid) k)%list /\
                    clock s' = clock s + Z.of_nat k).
    { intros E; destruct (IH s1 res s' E) as (k & Hk & L & C).
      exists (S k); subst s1; autorewrite with proj in L, C.
      rewrite L, C, <- app_assoc; repeat split; lia. }
    destruct (w_http w (List.length (log s)) (poll_request (sess s) qid)) as [r|e] eqn:Ew.
    + rewrite (poll_results_step w n qid s r Ew) in H; fold s1 in H.
      destruct (status_code r =? 200); [| exact (Rec H)].
      unfold resp_json in H; destruct (body r) as [j|].
      2: { rewrite (bind_raise (raise _) _ s1 _ s1 eq_refl) in H; injection H as _ <-; exact Done. }
      rewrite (bind_step (ret j) _ s1 j s1 eq_refl) in H.
      destruct (py_get j "status" s1) as [[st0|e] s2] eqn:Eg;
        pose proof (py_get_state _ _ _ _ _ Eg) as ->.
      2: { rewrite (bind_raise _ _ _ _ _ Eg) in H; injection H as _ <-; exact Done. }
      rewrite (bind_step _ _ _ _ _ Eg) in H.
      destruct (json_eq_str st0 "success").
      * destruct (success_result j s1) as [[x|e] s3] eqn:Es;
          pose proof (success_result_state _ _ _ _ Es) as ->.
        -- rewrite (bind_step _ _ _ _ _ Es) in H; injection H as _ <-; exact Done.
        -- rewrite (bind_raise _ _ _ _ _ Es) in H; injection H as _ <-; exact Done.
      * destruct (json_eq_str st0 "error"); [| exact (Rec H)].
        destruct (first_error j s1) as [[x|e] s3] eqn:Es;
          pose proof (first_error_state _ _ _ _ Es) as ->.
        -- rewrite (bind_step _ _ _ _ _ Es) in H; injection H as _ <-; exact Done.
        -- rewrite (bind_raise _ _ _ _ _ Es) in H; injection H as _ <-; exact Done.
    + rewrite (poll_results_raise w n qid s e Ew) in H; injection H as _ <-; exact Done.
Qed.

Lemma resolve_database_id_given w d name s : d <> JNull -> resolve_database_id w d name s = (Ok d, s).
Proof. intros Hd; destruct d; try contradiction; reflexivity. Qed.

Lemma execute_query_posts_resolved w s s0 s1 sql d0 d name lim r :
  ensure_authenticated w s = (Ok None, s0) ->
  resolve_database_id w d0 name s0 = (Ok d, s1) -> d <> JNull ->
  w_http w (List.length (log s1)) (execute_request_at w s1 sql d (effective_limit lim)) = HResp r ->
  execute_query w sql d0 name lim s =
  try_except (handle_execute_response w (execute_url (sess s1))
                (execute_payload_at w s1 sql d (effective_limit lim)) r)
             query_error_handler
             (log_request (bump_uuid (bump_uuid s1)) (execute_request_at w s1 sql d (effective_limit lim))).
Proof.
  intros Ha Hr Hd Hw; unfold execute_query; rewrite (bind_step _ _ _ _ _ Ha); cbv beta iota.
  assert (Hr' : (match d0 with JNull => get_database_id w name | d => ret d end) s0 = (Ok d, s1))
    by (unfold resolve_database_id in Hr; destruct d0; exact Hr).
  rewrite (bind_step _ _ _ _ _ Hr').
  assert (Hb : execute_body w sql d (effective_limit lim) s1 =
               handle_execute_response w (execute_url (sess s1))
                 (execute_payload_at w s1 sql d (effective_limit lim)) r
                 (log_request (bump_uuid (bump_uuid s1)) (execute_request_at w s1 sql d (effective_limit lim)))).
  { unfold execute_body.
    rewrite (bind_step (uuid4 w) _ s1 _ (bump_uuid s1) eq_refl).
    rewrite (bind_step get_sess _ (bump_uuid s1) _ (bump_uuid s1) eq_refl).
    rewrite (bind_step (uuid4 w) _ _ _ (bump_uuid (bump_uuid s1)) eq_refl).
    rewrite (bind_step get_sess _ (bump_uuid (bump_uuid s1)) _ (bump_uuid (bump_uuid s1)) eq_refl).
    rewrite (bind_step _ _ _ r _ (session_post_resp w _ _ _ (bump_uuid (bump_uuid s1)) r Hw)).
    reflexivity. }
  unfold effective_limit in *.
  destruct d; try contradiction; cbv beta iota zeta; unfold try_except; rewrite Hb; reflexivity.
Qed.

Lemma execute_query_posts w s s1 sql d name lim r :
  ensure_authenticated w s = (Ok None, s1) -> d <> JNull ->
  w_http w (List.length (log s1)) (execute_request_at w s1 sql d (effective_limit lim)) = HResp r ->
  execute_query w sql d name lim s =
  try_except (handle_execute_response w (execute_url (sess s1))
                (execute_payload_at w s1 sql d (effective_limit lim)) r)
             query_error_handler
             (log_request (bump_uuid (bump_uuid s1)) (execute_request_at w s1 sql d (effective_limit lim))).
Proof.
  intros Ha Hd Hw.
  exact (execute_query_posts_resolved w s s1 s1 sql d d name lim r Ha
           (resolve_database_id_given w d name s1 Hd) Hd Hw).
Qed.

Lemma handle_execute_pending w url payload resp kvs qid s :
  is_200_or_202 (status_code resp) = true -> body resp = Some (JObj kvs) ->
  (status_code resp = 202 \/ dict_get kvs "status" JNull = JStr "pending") ->
  pending_query_id kvs = Some qid ->
  handle_execute_response w url payload resp s = bind (poll_results w max_attempts qid) poll_outcome s.
Proof.
  intros H2 Hb Hp Hq; unfold handle_execute_response; rewrite H2.
  unfold resp_json; rewrite Hb.
  rewrite (bind_step (ret (JObj kvs)) _ s _ s eq_refl).
  assert (Hpend : (if status_code resp =? 202 then ret true
                   else st <- py_get (JObj kvs) "status" ;; ret (json_eq_str st "pending")) s = (Ok true, s)).
  { destruct Hp as [Hc | Hs]; [rewrite Hc; reflexivity |].
    destruct (status_code resp =? 202); [reflexivity |].
    unfold dict_get in Hs; unfold py_get, py_get_default, bind, ret; rewrite Hs; reflexivity. }
  rewrite (bind_step _ _ _ _ _ Hpend).
  rewrite (bind_step (py_get (JObj kvs) "id") _ s (dict_get kvs "id" JNull) s eq_refl).
  assert (Hid : (if truthy (dict_get kvs "id" JNull) then ret (dict_get kvs "id" JNull)
                 else q <- py_get_default (JObj kvs) "query" (JObj []) ;; py_get q "id") s = (Ok qid, s)).
  { unfold pending_query_id in Hq; destruct (truthy (dict_get kvs "id" JNull)).
    - injection Hq as <-; reflexivity.
    - unfold bind, py_get, py_get_default, ret; fold (dict_get kvs "query" (JObj [])).
      destruct (dict_get kvs "query" (JObj [])); try discriminate.
      injection Hq as <-; reflexivity. }
  cbv beta; rewrite (bind_step _ _ _ _ _ Hid); reflexivity.
Qed.

Lemma repeat_snoc {A} (x : A) k : (repeat x k ++ [x])%list = repeat x (S k).
Proof. induction k as [|k IH]; simpl; [reflexivity | now rewrite IH]. Qed.

Section PollingRun.
Variables (w : world) (s s0 s1 : st) (sql name : string) (d0 d : json) (lim : option Z).
Variables (resp : response) (kvs : list (string * json)) (qid : json).
Hypothesis Hauth : ensure_authenticated w s = (Ok None, s0).
Hypothesis Hres : resolve_database_id w d0 name s0 = (Ok d, s1).
Hypothesis Hd : d <> JNull.
Hypothesis Hw : forall rq, w_http w (List.length (log s1)) rq = HResp resp.
Hypothesis H2 : is_200_or_202 (status_code resp) = true.
Hypothesis Hb : body resp = Some (JObj kvs).
Hypothesis Hp : status_code resp = 202 \/ dict_get kvs "status" JNull = JStr "pending".
Hypothesis Hq : pending_query_id kvs = Some qid.

Lemma execute_query_polls :
  execute_query w sql d0 name lim s =
  try_except (bind (poll_results w max_attempts qid) poll_outcome) query_error_handler
             (after_execute_post w s1 sql d lim).
Proof.
  rewrite (execute_query_posts_resolved w s s0 s1 sql d0 d name lim resp Hauth Hres Hd (Hw _)).
  unfold try_except; rewrite (handle_execute_pending w _ _ resp kvs qid _ H2 Hb Hp Hq).
  reflexivity.
Qed.

Lemma after_execute_post_log :
  log (after_execute_post w s1 sql d lim) =
  (log s1 ++ [execute_request_at w s1 sql d (effective_limit lim)])%list.
Proof. reflexivity. Qed.

Lemma after_execute_post_sess : sess (after_execute_post w s1 sql d lim) = sess s1.
Proof. reflexivity. Qed.

Lemma after_execute_post_clock : clock (after_execute_post w s1 sql d lim) = clock s1.
Proof. reflexivity. Qed.

Lemma execute_query_poll_ok o s3 :
  poll_results w max_attempts qid (after_execute_post w s1 sql d lim) = (Ok o, s3) ->
  execute_query w sql d0 name lim s = poll_outcome o s3.
Proof.
  intros E; rewrite execute_query_polls; unfold try_except, bind; rewrite E.
  destruct o; reflexivity.
Qed.

Lemma execute_query_poll_raise e s3 :
  poll_results w max_attempts qid (after_execute_post w s1 sql d lim) = (Raise e, s3) ->
  execute_query w sql d0 name lim s = query_error_handler e s3.
Proof. intros E; rewrite execute_query_polls; unfold try_except, bind; rewrite E; reflexivity. Qed.

End PollingRun.

(** C4: when the execute POST answers 200/202 with a pending payload and a
    query id ([id], or else [query.id]), whether the database id was given
    or looked up by name, [execute_query] polls the results endpoint at most 30 times,
    each poll preceded by a sleep of one second; if the first k polls are
    pending and poll k+1 reports "success", exactly k+1 polls were issued and
    that poll's payload is returned; if it reports "error", the reported
    error message is returned; after 30 pending polls the timeout error is
    returned. *)
Theorem execute_query_poll_loop w s s0 s1 sql d0 d name lim resp kvs qid :
  ensure_authenticated w s = (Ok None, s0) ->
  resolve_database_id w d0 name s0 = (Ok d, s1) -> d <> JNull ->
  (forall rq, w_http w (List.length (log s1)) rq = HResp resp) ->
  is_200_or_202 (status_code resp) = true -> body resp = Some (JObj kvs) ->
  (status_code resp = 202 \/ dict_get kvs "status" JNull = JStr "pending") ->
  pending_query_id kvs = Some qid ->
  let pre := (log s1 ++ [execute_request_at w s1 sql d (effective_limit lim)])%list in
  let poll := poll_request (sess s1) qid in
  let n1 := S (List.length (log s1)) in
  let pending j := exists r, (forall rq, w_http w (n1 + j) rq = HResp r) /\ still_pending r = true in
  (forall r s', execute_query w sql d0 name lim s = (r, s') ->
     exists k, (k <= 30)%nat /\ log s' = (pre ++ repeat poll k)%list /\
               clock s' = clock s1 + Z.of_nat k) /\
  (forall k r kvs', (k < 30)%nat -> (forall j, (j < k)%nat -> pending j) ->
     (forall rq, w_http w (n1 + k) rq = HResp r) -> status_code r = 200 ->
     body r = Some (JObj kvs') -> dict_get kvs' "status" JNull = JStr "success" ->
     exists s', execute_query w sql d0 name lim s = (Ok (success_record kvs'), s') /\
                log s' = (pre ++ repeat poll (S k))%list /\ clock s' = clock s1 + Z.of_nat (S k)) /\
  (forall k r kvs' em, (k < 30)%nat -> (forall j, (j < k)%nat -> pending j) ->
     (forall rq, w_http w (n1 + k) rq = HResp r) -> status_code r = 200 ->
     body r = Some (JObj kvs') -> dict_get kvs' "status" JNull = JStr "error" ->
     reported_error kvs' = Some em ->
     exists s', execute_query w sql d0 name lim s = (Ok (QError ("Query error: " ++ py_str em)), s') /\
                log s' = (pre ++ repeat poll (S k))%list /\ clock s' = clock s1 + Z.of_nat (S k)) /\
  ((forall j, (j < 30)%nat -> pending j) ->
     exists s', execute_query w sql d0 name lim s =
                (Ok (QError "Query timeout - took too long to execute"), s') /\
                log s' = (pre ++ repeat poll 30)%list /\ clock s' = clock s1 + 30).
Proof.
  intros Hauth Hres Hd Hw H2 Hb Hp Hq pre poll n1 pending.
  set (s2 := after_execute_post w s1 sql d lim).
  assert (L2 : log s2 = pre) by reflexivity.
  assert (N2 : List.length (log s2) = n1) by (rewrite L2; subst pre n1; rewrite length_app; simpl; lia).
  assert (P2 : poll_request (sess s2) qid = poll) by reflexivity.
  assert (C2 : clock s2 = clock s1) by reflexivity.
  assert (Pre : forall k, (forall j, (j < k)%nat -> pending j) -> (k <= 30)%nat ->
            exists s', poll_results w max_attempts qid s2 = poll_results w (30 - k) qid s' /\
                       log s' = (pre ++ repeat poll k)%list /\
                       clock s' = clock s1 + Z.of_nat k /\ sess s' = sess s1).
  { intros k Hk Hle.
    destruct (poll_results_prefix w qid k max_attempts s2 Hle) as (s' & E & L & C & X).
    - intros j Hj; rewrite N2; exact (Hk j Hj).
    - exists s'; rewrite <- L2, <- P2, <- C2; auto. }
  split; [| split; [| split]].
  - intros r s' H.
    destruct (poll_results w max_attempts qid s2) as [[o|e] s3] eqn:Ep;
      destruct (poll_results_bounded w qid _ _ _ _ Ep) as (k & Hk & L & C);
      [rewrite (execute_query_poll_ok w s s0 s1 sql name d0 d lim resp kvs qid Hauth Hres Hd Hw H2 Hb Hp Hq o s3 Ep) in H;
       destruct o; injection H as _ <-
      | rewrite (execute_query_poll_raise w s s0 s1 sql name d0 d lim resp kvs qid Hauth Hres Hd Hw H2 Hb Hp Hq e s3 Ep) in H;
        injection H as _ <-];
      exists k; rewrite L, C, L2, P2, C2; split; auto.
  - intros k r kvs' Hk Hpend Hr Hc Hb' Hs.
    destruct (Pre k Hpend ltac:(lia)) as (s' & E & L & C & X).
    replace (30 - k)%nat with (S (29 - k)) in E by lia.
    assert (Hr' : forall rq, w_http w (List.length (log s')) rq = HResp r).
    { rewrite L, length_app, repeat_length; subst pre n1; rewrite length_app; simpl.
      intros rq; rewrite <- (Hr rq); f_equal; lia. }
    rewrite (poll_results_success w _ qid s' r kvs' Hr' Hc Hb' Hs) in E.
    rewrite (execute_query_poll_ok w s s0 s1 sql name d0 d lim resp kvs qid Hauth Hres Hd Hw H2 Hb Hp Hq _ _ E).
    eexists; split; [reflexivity |]; autorewrite with proj.
    rewrite L, C, X, <- app_assoc, repeat_snoc; split; [reflexivity | lia].
  - intros k r kvs' em Hk Hpend Hr Hc Hb' Hs He.
    destruct (Pre k Hpend ltac:(lia)) as (s' & E & L & C & X).
    replace (30 - k)%nat with (S (29 - k)) in E by lia.
    assert (Hr' : forall rq, w_http w (List.length (log s')) rq = HResp r).
    { rewrite L, length_app, repeat_length; subst pre n1; rewrite length_app; simpl.
      intros rq; rewrite <- (Hr rq); f_equal; lia. }
    rewrite (poll_results_error w _ qid s' r kvs' em Hr' Hc Hb' Hs He) in E.
    rewrite (execute_query_poll_ok w s s0 s1 sql name d0 d lim resp kvs qid Hauth Hres Hd Hw H2 Hb Hp Hq _ _ E).
    eexists; split; [reflexivity |]; autorewrite with proj.
    rewrite L, C, X, <- app_assoc, repeat_snoc; split; [reflexivity | lia].
  - intros Hpend.
    destruct (Pre 30%nat Hpend ltac:(lia)) as (s' & E & L & C & X).
    rewrite (execute_query_poll_ok w s s0 s1 sql name d0 d lim resp kvs qid Hauth Hres Hd Hw H2 Hb Hp Hq None s' E).
    exists s'; split; [reflexivity | split; [exact L | rewrite C; reflexivity]].
Qed.

Lemma handle_execute_401 w url payload resp s :
  status_code resp = 401 -> handle_execute_response w url payload resp s = retry_after_401 w url payload s.
Proof. intros Hc; unfold handle_execute_response; rewrite Hc; reflexivity. Qed.

Section Retry.
Variables (w : world) (url : string) (payload : json) (s s3 : st).

Lemma retry_reauth_error m :
  force_reauthenticate w s = (Ok (AuthError m), s3) ->
  retry_after_401 w url payload s = (Ok (QError ("Reauthentication failed: " ++ m)), s3).
Proof. intros E; unfold retry_after_401; rewrite (bind_step _ _ _ _ _ E); reflexivity. Qed.

Variables (m : string) (ap cp ea : json).
Hypothesis Hre : force_reauthenticate w s = (Ok (AuthSuccess m ap cp ea), s3).

Lemma retry_raise e :
  w_http w (List.length (log s3)) (retry_request url payload (sess s3)) = HRaise e ->
  retry_after_401 w url payload s = (Raise e, log_request s3 (retry_request url payload (sess s3))).
Proof.
  intros Hw; unfold retry_after_401; rewrite (bind_step _ _ _ _ _ Hre); cbv beta iota.
  rewrite (bind_step get_sess _ s3 (sess s3) s3 eq_refl).
  exact (bind_raise _ _ _ e _ (session_post_raise w _ _ _ s3 e Hw)).
Qed.

Variable r : response.
Hypothesis Hw : w_http w (List.length (log s3)) (retry_request url payload (sess s3)) = HResp r.

Lemma retry_resp :
  retry_after_401 w url payload s =
  (ok <- (if is_200_or_202 (status_code r) then
            result_data <- resp_json r ;;
            good <- looks_successful result_data ;;
            if good then (r <- success_result result_data ;; ret (Some r)) else ret None
          else ret None) ;;
   match ok with
   | Some r => ret r
   | None => ret (QError (reauth_failed_msg r))
   end) (log_request s3 (retry_request url payload (sess s3))).
Proof.
  unfold retry_after_401; rewrite (bind_step _ _ _ _ _ Hre); cbv beta iota.
  rewrite (bind_step get_sess _ s3 (sess s3) s3 eq_refl).
  rewrite (bind_step _ _ _ _ _ (session_post_resp w _ _ _ s3 r Hw)).
  reflexivity.
Qed.

Lemma retry_not_200 :
  is_200_or_202 (status_code r) = false ->
  retry_after_401 w url payload s =
  (Ok (QError (reauth_failed_msg r)), log_request s3 (retry_request url payload (sess s3))).
Proof. intros Hc; rewrite retry_resp, Hc; reflexivity. Qed.

Lemma retry_obj kvs :
  is_200_or_202 (status_code r) = true -> body r = Some (JObj kvs) ->
  retry_after_401 w url payload s =
  (Ok (if orb (json_eq_str (dict_get kvs "status" JNull) "success")
              (match assoc "data" kvs with Some _ => true | None => false end)
       then success_record kvs else QError (reauth_failed_msg r)),
   log_request s3 (retry_request url payload (sess s3))).
Proof.
  intros Hc Hb; rewrite retry_resp, Hc; unfold resp_json; rewrite Hb.
  unfold looks_successful, success_result, success_record, py_in_keys, py_get, py_get_default,
    dict_get, bind, ret;
    cbv beta iota.
  destruct (json_eq_str _ "success"); [reflexivity |].
  destruct (assoc "data" kvs); reflexivity.
Qed.

Lemma retry_other :
  is_200_or_202 (status_code r) = true -> (forall kvs, body r <> Some (JObj kvs)) ->
  exists e, retry_after_401 w url payload s = (Raise e, log_request s3 (retry_request url payload (sess s3))).
Proof.
  intros Hc Hb; rewrite retry_resp, Hc; unfold resp_json, looks_successful, py_get, py_get_default, bind, raise;
    cbv beta iota.
  destruct (body r) as [j|]; [| eexists; reflexivity].
  destruct j as [| | | | | | kvs]; try (eexists; reflexivity).
  destruct (Hb kvs eq_refl).
Qed.

End Retry.

Lemma execute_query_401 w s s0 s1 sql d0 d name lim resp :
  ensure_authenticated w s = (Ok None, s0) ->
  resolve_database_id w d0 name s0 = (Ok d, s1) -> d <> JNull ->
  (forall rq, w_http w (List.length (log s1)) rq = HResp resp) -> status_code resp = 401 ->
  execute_query w sql d0 name lim s =
  try_except (retry_after_401 w (execute_url (sess s1)) (execute_payload_at w s1 sql d (effective_limit lim)))
             query_error_handler (after_execute_post w s1 sql d lim).
Proof.
  intros Ha Hr Hd Hw Hc; rewrite (execute_query_posts_resolved w s s0 s1 sql d0 d name lim resp Ha Hr Hd (Hw _)).
  unfold try_except; rewrite handle_execute_401 by exact Hc; reflexivity.
Qed.

(** C1 (amended): on a 401 answer to the execute POST (the database id
    given or looked up by name), [execute_query] calls
    [force_reauthenticate] once; if it fails, the result is a
    "Reauthentication failed" error; if it succeeds, the same request
    (method, URL and payload) is sent exactly once more and the result is
    determined by that single answer: a success-shaped 200/202 dict payload
    is returned as the success result, another status or another dict
    payload gives the "Query failed after reauthentication" error, and an
    exception or a 200/202 body that is not a dict gives the generic
    "Query execution error" message, which does not name the retry step;
    no further request follows. *)
Theorem execute_query_single_retry_on_401 w s s0 s1 sql d0 d name lim resp :
  ensure_authenticated w s = (Ok None, s0) ->
  resolve_database_id w d0 name s0 = (Ok d, s1) -> d <> JNull ->
  (forall rq, w_http w (List.length (log s1)) rq = HResp resp) -> status_code resp = 401 ->
  let rq0 := execute_request_at w s1 sql d (effective_limit lim) in
  exists ar s3,
    force_reauthenticate w (after_execute_post w s1 sql d lim) = (Ok ar, s3) /\
    match ar with
    | AuthError m =>
        execute_query w sql d0 name lim s = (Ok (QError ("Reauthentication failed: " ++ m)), s3)
    | AuthSuccess _ _ _ _ =>
        let rq1 := retry_request (execute_url (sess s1))
                     (execute_payload_at w s1 sql d (effective_limit lim)) (sess s3) in
        rq_meth rq1 = rq_meth rq0 /\ rq_url rq1 = rq_url rq0 /\ rq_json rq1 = rq_json rq0 /\
        exists res,
          execute_query w sql d0 name lim s = (Ok res, log_request s3 rq1) /\
          (forall e, w_http w (List.length (log s3)) rq1 = HRaise e ->
             res = QError ("Query execution error: " ++ exc_str e)) /\
          (forall r, w_http w (List.length (log s3)) rq1 = HResp r ->
             (is_200_or_202 (status_code r) = false -> res = QError (reauth_failed_msg r)) /\
             (forall kvs, is_200_or_202 (status_code r) = true -> body r = Some (JObj kvs) ->
                res = if retry_success_shaped kvs then success_record kvs
                      else QError (reauth_failed_msg r)) /\
             (is_200_or_202 (status_code r) = true -> (forall kvs, body r <> Some (JObj kvs)) ->
                exists e, res = QError ("Query execution error: " ++ exc_str e)))
    end.
Proof.
  intros Ha Hr Hd Hw Hc rq0.
  pose proof (execute_query_401 w s s0 s1 sql d0 d name lim resp Ha Hr Hd Hw Hc) as E.
  set (s2 := after_execute_post w s1 sql d lim) in *.
  set (url := execute_url (sess s1)) in *.
  set (payload := execute_payload_at w s1 sql d (effective_limit lim)) in *.
  destruct (no_raise_force_reauthenticate w s2) as (ar & s3 & Hre).
  exists ar, s3; split; [exact Hre |].
  destruct ar as [m ap cp ea | m].
  2: { rewrite E; unfold try_except; rewrite (retry_reauth_error w url payload s2 s3 m Hre); reflexivity. }
  intros rq1; split; [reflexivity | split; [reflexivity | split; [reflexivity |]]].
  destruct (w_http w (List.length (log s3)) rq1) as [r|e] eqn:Ew.
  - destruct (is_200_or_202 (status_code r)) eqn:H2.
    + destruct (body r) as [[| | | | | | kvs]|] eqn:Hb.
      7: { exists (if retry_success_shaped kvs then success_record kvs else QError (reauth_failed_msg r)).
           split; [rewrite E; unfold try_except;
                   rewrite (retry_obj w url payload s2 s3 m ap cp ea Hre r Ew kvs H2 Hb); reflexivity |].
           split; [intros e' He; congruence |].
           intros r' Hr'; try rewrite Ew in Hr'; injection Hr' as <-.
           split; [congruence | split].
           - intros kvs' _ Hb'; rewrite Hb in Hb'; injection Hb' as <-; reflexivity.
           - intros _ Hn; destruct (Hn kvs Hb). }
      all: assert (Hn : forall k, body r <> Some (JObj k)) by (intros k; rewrite Hb; discriminate);
           destruct (retry_other w url payload s2 s3 m ap cp ea Hre r Ew H2 Hn) as [e Er];
           exists (QError ("Query execution error: " ++ exc_str e));
           (split; [rewrite E; unfold try_except; rewrite Er; reflexivity |]);
           (split; [intros e' He; congruence |]);
           intros r' Hr'; try rewrite Ew in Hr'; injection Hr' as <-;
           (split; [congruence | split; [intros k _ Hk; congruence | intros; eexists; reflexivity]]).
    + exists (QError (reauth_failed_msg r)).
      split; [rewrite E; unfold try_except; rewrite (retry_not_200 w url payload s2 s3 m ap cp ea Hre r Ew H2); reflexivity |].
      split; [intros e' He; congruence |].
      intros r' Hr'; try rewrite Ew in Hr'; injection Hr' as <-.
      split; [reflexivity | split; intros; congruence].
  - exists (QError ("Query execution error: " ++ exc_str e)).
    split; [rewrite E; unfold try_except; rewrite (retry_raise w url payload s2 s3 m ap cp ea Hre e Ew); reflexivity |].
    split; [intros e' He; try rewrite Ew in He; injection He as <-; reflexivity |].
    intros r' Hr'; congruence.
Qed.

(** C10: when the retry after a 401 and a successful reauthentication
    answers 200/202 with a payload that has neither status "success" nor a
    "data" field, [execute_query] returns the "Query failed after
    reauthentication" error right after that request, without polling,
    whether the database id was given or looked up by name. *)
Theorem retry_after_401_never_polls w s s0 s1 sql d0 d name lim resp m ap cp ea s3 r kvs :
  ensure_authenticated w s = (Ok None, s0) ->
  resolve_database_id w d0 name s0 = (Ok d, s1) -> d <> JNull ->
  (forall rq, w_http w (List.length (log s1)) rq = HResp resp) -> status_code resp = 401 ->
  force_reauthenticate w (after_execute_post w s1 sql d lim) = (Ok (AuthSuccess m ap cp ea), s3) ->
  (forall rq, w_http w (List.length (log s3)) rq = HResp r) ->
  is_200_or_202 (status_code r) = true -> body r = Some (JObj kvs) ->
  json_eq_str (dict_get kvs "status" JNull) "success" = false -> assoc "data" kvs = None ->
  let rq1 := retry_request (execute_url (sess s1))
               (execute_payload_at w s1 sql d (effective_limit lim)) (sess s3) in
  execute_query w sql d0 name lim s =
    (Ok (QError ("Query failed after reauthentication: " ++ py_prefix 500 (text r))),
     log_request s3 rq1) /\
  clock s3 = clock s1.
Proof.
  intros Ha Hres Hd Hw Hc Hre Hr H2 Hb Hs Hdata rq1; split.
  - rewrite (execute_query_401 w s s0 s1 sql d0 d name lim resp Ha Hres Hd Hw Hc); unfold try_except.
    rewrite (retry_obj w _ _ _ s3 m ap cp ea Hre r (Hr _) kvs H2 Hb).
    unfold retry_success_shaped; rewrite Hs, Hdata; reflexivity.
  - exact (force_reauthenticate_clock w (clock s1) (after_execute_post w s1 sql d lim) _ s3 eq_refl Hre).
Qed.

Lemma find_database_ok name dbs s :
  forallb db_entry_ok dbs = true -> find_database name dbs s = (Ok (first_match_id name dbs), s).
Proof.
  induction dbs as [|j dbs IH]; [reflexivity |].
  simpl; intros H; apply andb_true_iff in H as [Hj H].
  destruct j as [| | | | | | kvs]; try discriminate.
  rewrite (bind_step (py_get (JObj kvs) "database_name") _ s _ s eq_refl).
  unfold dict_get; destruct (json_eq_str _ name); [reflexivity | exact (IH H)].
Qed.

Lemma first_match_id_num name dbs i :
  forallb db_entry_ok dbs = true -> first_match_id name dbs = Some i -> exists z, i = JNum z.
Proof.
  induction dbs as [|j dbs IH]; [discriminate |].
  simpl; intros H; apply andb_true_iff in H as [Hj H].
  destruct j as [| | | | | | kvs]; try discriminate.
  unfold db_entry_ok in Hj; destruct (json_eq_str _ name).
  - intros E; injection E as <-; destruct (dict_get kvs "id" JNull); try discriminate; eauto.
  - exact (IH H).
Qed.

Lemma get_database_id_listed w name s s1 r kvs dbs :
  ensure_authenticated w s = (Ok None, s1) ->
  (forall rq, w_http w (List.length (log s1)) rq = HResp r) ->
  status_code r = 200 -> body r = Some (JObj kvs) ->
  dict_get kvs "result" (JArr []) = JArr dbs -> forallb db_entry_ok dbs = true ->
  get_database_id w name s =
  (Ok (match first_match_id name dbs with
       | Some i => i
       | None => match dbs with JObj k0 :: _ => dict_get k0 "id" JNull | _ => JNull end
       end), log_request s1 (db_list_request (sess s1))).
Proof.
  intros Ha Hw Hc Hb Hr Hok.
  unfold get_database_id; rewrite (bind_step _ _ _ _ _ Ha); cbv beta iota.
  unfold try_except.
  rewrite (bind_step get_sess _ s1 _ s1 eq_refl).
  rewrite (bind_step _ _ _ _ _ (session_get_resp w _ _ s1 r (Hw _))).
  rewrite Hc; cbn [Z.eqb Pos.eqb].
  unfold resp_json; rewrite Hb.
  rewrite (bind_step (ret (JObj kvs)) _ _ _ _ eq_refl).
  rewrite (bind_step (py_get_default (JObj kvs) "result" (JArr [])) _ _ (JArr dbs) _)
    by (unfold dict_get in Hr; unfold py_get_default, ret; rewrite Hr; reflexivity).
  rewrite (bind_step (py_iter (JArr dbs)) _ _ dbs _ eq_refl).
  rewrite (bind_step _ _ _ _ _ (find_database_ok name dbs _ Hok)).
  destruct (first_match_id name dbs); [reflexivity |].
  destruct dbs as [|[| | | | | | k0] rest]; simpl in Hok; try discriminate; reflexivity.
Qed.

(** C5: [get_database_id] returns None when authentication fails, when the
    list request raises or answers a non-200 status; for a well-formed list
    it returns the id of the first entry whose name equals the requested
    one, the id of the first entry when none matches, and None exactly when
    the list is empty. *)
Theorem get_database_id_fallback w name s :
  (forall m s1, ensure_authenticated w s = (Ok (Some m), s1) ->
     fst (get_database_id w name s) = Ok JNull) /\
  (forall s1 e, ensure_authenticated w s = (Ok None, s1) ->
     (forall rq, w_http w (List.length (log s1)) rq = HRaise e) ->
     fst (get_database_id w name s) = Ok JNull) /\
  (forall s1 r, ensure_authenticated w s = (Ok None, s1) ->
     (forall rq, w_http w (List.length (log s1)) rq = HResp r) -> status_code r <> 200 ->
     fst (get_database_id w name s) = Ok JNull) /\
  (forall s1 r kvs dbs, ensure_authenticated w s = (Ok None, s1) ->
     (forall rq, w_http w (List.length (log s1)) rq = HResp r) ->
     status_code r = 200 -> body r = Some (JObj kvs) ->
     dict_get kvs "result" (JArr []) = JArr dbs -> forallb db_entry_ok dbs = true ->
     exists i, fst (get_database_id w name s) = Ok i /\
       (forall j, first_match_id name dbs = Some j -> i = j) /\
       (first_match_id name dbs = None -> forall k0 rest, dbs = JObj k0 :: rest -> i = dict_get k0 "id" JNull) /\
       (i = JNull <-> dbs = [])).
Proof.
  split; [| split; [| split]].
  - intros m s1 Ha; unfold get_database_id; rewrite (bind_step _ _ _ _ _ Ha); reflexivity.
  - intros s1 e Ha Hw; unfold get_database_id; rewrite (bind_step _ _ _ _ _ Ha); cbv beta iota.
    unfold try_except.
    rewrite (bind_step get_sess _ s1 _ s1 eq_refl).
    rewrite (bind_raise _ _ _ _ _ (session_get_raise w _ _ s1 e (Hw _))); reflexivity.
  - intros s1 r Ha Hw Hc; unfold get_database_id; rewrite (bind_step _ _ _ _ _ Ha); cbv beta iota.
    unfold try_except.
    rewrite (bind_step get_sess _ s1 _ s1 eq_refl).
    rewrite (bind_step _ _ _ _ _ (session_get_resp w _ _ s1 r (Hw _))).
    apply Z.eqb_neq in Hc; rewrite Hc; reflexivity.
  - intros s1 r kvs dbs Ha Hw Hc Hb Hr Hok.
    rewrite (get_database_id_listed w name s s1 r kvs dbs Ha Hw Hc Hb Hr Hok); cbn [fst].
    eexists; split; [reflexivity |].
    split; [intros j Hj; rewrite Hj; reflexivity |].
    split; [intros Hn k0 rest ->; rewrite Hn; reflexivity |].
    destruct (first_match_id name dbs) as [j|] eqn:Hm.
    + destruct (first_match_id_num name dbs j Hok Hm) as [z ->].
      split; [discriminate | intros ->; discriminate].
    + destruct dbs as [|[| | | | | | k0] rest]; simpl in Hok; try discriminate; [tauto |].
      unfold db_entry_ok in Hok; destruct (dict_get k0 "id" JNull); try discriminate.
      split; discriminate.
Qed.

Lemma str_app_assoc (a b c : string) : (a ++ b) ++ c = a ++ b ++ c.
Proof. induction a as [|x a IH]; simpl; [reflexivity | now rewrite IH]. Qed.

Lemma column_names_from_entries names : forall i s,
  column_names_from i (map column_entry names) s = (Ok (map JStr names), s).
Proof.
  induction names as [|c names IH]; intros i s; [reflexivity |].
  cbn [map column_names_from].
  rewrite (bind_step (py_get_default (column_entry c) "name" _) _ s _ s eq_refl).
  rewrite (bind_step (py_get_default (column_entry c) "column_name" _) _ s (JStr c) s eq_refl).
  rewrite (bind_step _ _ _ _ _ (IH (i + 1) s)); reflexivity.
Qed.

Lemma as_strings_map names s : as_strings (map JStr names) s = (Ok names, s).
Proof.
  revert s; induction names as [|c names IH]; intros s; [reflexivity |].
  cbn [map as_strings]; rewrite (bind_step _ _ _ _ _ (IH s)); reflexivity.
Qed.

Lemma map_m_render_rows names rows s :
  forallb is_dict rows = true ->
  map_m (render_row names) rows s = (Ok (map (row_line names) rows), s).
Proof.
  revert s; induction rows as [|r rows IH]; intros s H; [reflexivity |].
  simpl in H; apply andb_true_iff in H as [Hr H].
  destruct r as [| | | | | | kvs]; try discriminate.
  cbn [map map_m].
  rewrite (bind_step (render_row names (JObj kvs)) _ s _ s eq_refl).
  rewrite (bind_step _ _ _ _ _ (IH s H)); reflexivity.
Qed.

Lemma forallb_firstn {A} (p : A -> bool) n l : forallb p l = true -> forallb p (firstn n l) = true.
Proof.
  revert l; induction n as [|n IH]; intros [|x l] H; try reflexivity.
  simpl in *; apply andb_true_iff in H as [H1 H2]; rewrite H1; simpl; apply IH, H2.
Qed.

Lemma column_names_of_entries rows names s :
  names <> [] -> column_names_of (JArr rows) (JArr (map column_entry names)) s = (Ok (map JStr names), s).
Proof.
  intros Hn; unfold column_names_of.
  destruct names as [|c names]; [contradiction |]; cbn [truthy map List.length Nat.eqb negb].
  rewrite (bind_step (py_iter (JArr (column_entry c :: map column_entry names))) _ s _ s eq_refl).
  exact (column_names_from_entries (c :: names) 0 s).
Qed.

Lemma format_sql_result_table query rows names q s :
  rows <> [] -> names <> [] -> forallb is_dict rows = true ->
  format_sql_result query (QSuccess (JArr rows) (JArr (map column_entry names)) q) s =
  (Ok ("Query: " ++ query ++ nl ++ nl ++ header_lines names ++
       String.concat "" (map (row_line names) (firstn 10 rows)) ++
       more_rows_suffix (List.length rows) ++ nl ++ nl ++
       "Total rows: " ++ string_of_Z (Z.of_nat (List.length rows))), s).
Proof.
  intros Hr Hn Hd; unfold format_sql_result.
  destruct rows as [|r0 rows']; [contradiction |]; cbn [truthy negb List.length Nat.eqb].
  set (rows := r0 :: rows') in *.
  rewrite (bind_step _ _ _ _ _ (column_names_of_entries rows names s Hn)).
  destruct names as [|c names']; [contradiction |]; cbn zeta.
  change (map JStr (c :: names')) with (JStr c :: map JStr names'); cbn iota.
  rewrite (bind_step (as_strings (JStr c :: map JStr names')) _ s _ s (as_strings_map (c :: names') s)).
  set (names := c :: names') in *.
  rewrite (bind_step (py_slice10 (JArr rows)) _ s _ s eq_refl).
  rewrite (bind_step (py_iter (JArr (firstn 10 rows))) _ s _ s eq_refl).
  rewrite (bind_step _ _ _ _ _ (map_m_render_rows names _ s (forallb_firstn is_dict 10 rows Hd))).
  rewrite (bind_step (py_len (JArr rows)) _ s _ s eq_refl).
  rewrite <- !str_app_assoc; reflexivity.
Qed.

Lemma format_aggregation_result_table query rows names q s :
  rows <> [] -> names <> [] -> forallb is_dict rows = true ->
  format_aggregation_result query (QSuccess (JArr rows) (JArr (map column_entry names)) q) s =
  (Ok ("=== Aggregation Results ===" ++ nl ++ "Query: " ++ query ++ nl ++ nl ++ header_lines names ++
       String.concat "" (map (row_line names) rows) ++ nl ++
       "**Total result rows:** " ++ string_of_Z (Z.of_nat (List.length rows))), s).
Proof.
  intros Hr Hn Hd; unfold format_aggregation_result.
  destruct rows as [|r0 rows']; [contradiction |]; cbn [truthy negb List.length Nat.eqb].
  set (rows := r0 :: rows') in *.
  rewrite (bind_step _ _ _ _ _ (column_names_of_entries rows names s Hn)).
  destruct names as [|c names']; [contradiction |]; cbn zeta.
  change (map JStr (c :: names')) with (JStr c :: map JStr names'); cbn iota.
  set (names := c :: names') in *.
  assert (B : (names0 <- as_strings (JStr c :: map JStr names') ;;
               rows0 <- py_iter (JArr rows) ;;
               lines <- map_m (render_row names0) rows0 ;;
               ret (header_lines names0 ++ String.concat "" lines)) s =
              (Ok (header_lines names ++ String.concat "" (map (row_line names) rows)), s)).
  { rewrite (bind_step (as_strings (JStr c :: map JStr names')) _ s _ s (as_strings_map names s)).
    rewrite (bind_step (py_iter (JArr rows)) _ s _ s eq_refl).
    rewrite (bind_step _ _ _ _ _ (map_m_render_rows names _ s Hd)); reflexivity. }
  rewrite (bind_step _ _ _ _ _ B).
  rewrite (bind_step (py_len (JArr rows)) _ s _ s eq_refl).
  rewrite <- !str_app_assoc; reflexivity.
Qed.

Lemma get_instance_ok w s : get_instance w s = (Ok tt, snd (get_instance w s)).
Proof. unfold get_instance; destruct (created s); reflexivity. Qed.

Lemma no_raise_get_instance w : no_raise (get_instance w).
Proof. intros s; exists tt, (snd (get_instance w s)); apply get_instance_ok. Qed.
#[export] Hint Resolve no_raise_get_instance : noraise.

Lemma query_filter_ok f s :
  filter_ok f = true -> exists q, query_filter_of f s = (Ok q, s).
Proof.
  unfold filter_ok, has_key; intros Hf; apply andb_true_iff in Hf as [Hc Hv].
  destruct (assoc "column" f) as [c|] eqn:Ec; [| discriminate].
  destruct (assoc "value" f) as [v|] eqn:Ev; [| discriminate].
  unfold query_filter_of.
  rewrite (bind_step (py_index_key (JObj f) "column") _ s c s) by (simpl; rewrite Ec; reflexivity).
  rewrite (bind_step (py_index_key (JObj f) "value") _ s v s) by (simpl; rewrite Ev; reflexivity).
  eexists; reflexivity.
Qed.

Lemma query_filter_raise f s :
  filter_ok f = false -> exists e, query_filter_of f s = (Raise e, s).
Proof.
  unfold filter_ok, has_key, query_filter_of, bind, py_index_key; intros Hf.
  destruct (assoc "column" f); simpl in Hf |- *; [| eexists; reflexivity].
  destruct (assoc "value" f); [discriminate | eexists; reflexivity].
Qed.

Lemma map_m_filters_ok fl s :
  forallb filter_ok fl = true -> exists qs, map_m query_filter_of fl s = (Ok qs, s).
Proof.
  induction fl as [|f fl IH]; intros H; [eexists; reflexivity |].
  simpl in H; apply andb_true_iff in H as [Hf H].
  destruct (query_filter_ok f s Hf) as [q Q]; destruct (IH H) as [qs E].
  cbn [map_m]; rewrite (bind_step _ _ _ _ _ Q), (bind_step _ _ _ _ _ E).
  eexists; reflexivity.
Qed.

Lemma map_m_filters_raise fl s :
  forallb filter_ok fl = false -> exists e, map_m query_filter_of fl s = (Raise e, s).
Proof.
  induction fl as [|f fl IH]; intros H; [discriminate |].
  simpl in H; cbn [map_m].
  destruct (filter_ok f) eqn:Hf; simpl in H.
  - destruct (query_filter_ok f s Hf) as [q Q]; destruct (IH H) as [e E].
    rewrite (bind_step _ _ _ _ _ Q), (bind_raise _ _ _ _ _ E); eauto.
  - destruct (query_filter_raise f s Hf) as [e Q].
    rewrite (bind_raise _ _ _ _ _ Q); eauto.
Qed.

Section ChartPost.
Variables (w : world) (datasource_id : Z) (chart_type : string) (chart_name : option string)
          (metric : string) (dimensions : option (list string)) (fl : list (list (string * json))) (s : st).
Let s0 := snd (get_instance w s).
Hypothesis Hauth : is_authenticated (sess s0) (clock s0) = true.
Hypothesis Hfl : forallb filter_ok fl = true.

Lemma create_chart_post_raise e :
  (forall rq, w_http w (List.length (log s0)) rq = HRaise e) ->
  fst (create_superset_chart w datasource_id chart_type chart_name metric dimensions (Some fl) s) =
  Ok ("Error creating chart: " ++ exc_str e).
Proof.
  intros Hw; unfold create_superset_chart.
  rewrite (bind_step (get_instance w) _ s tt s0 (get_instance_ok w s)).
  rewrite (bind_step is_authenticated_m _ s0 true s0) by (unfold is_authenticated_m; rewrite Hauth; reflexivity).
  cbn [negb].
  rewrite (bind_step datetime_now _ s0 (clock s0) s0 eq_refl).
  cbv beta zeta iota.
  destruct (map_m_filters_ok fl s0 Hfl) as [qs Q].
  rewrite (bind_step _ _ _ _ _ Q).
  unfold try_except.
  rewrite (bind_step get_sess _ s0 (sess s0) s0 eq_refl).
  unfold bind at 1, requests_post at 1, http at 1; rewrite Hw; reflexivity.
Qed.

Lemma create_chart_post_status r :
  (forall rq, w_http w (List.length (log s0)) rq = HResp r) ->
  status_code r <> 201 ->
  fst (create_superset_chart w datasource_id chart_type chart_name metric dimensions (Some fl) s) =
  Ok ("Failed to create chart: " ++ string_of_Z (status_code r) ++ " - " ++ text r).
Proof.
  intros Hw Hc; unfold create_superset_chart.
  rewrite (bind_step (get_instance w) _ s tt s0 (get_instance_ok w s)).
  rewrite (bind_step is_authenticated_m _ s0 true s0) by (unfold is_authenticated_m; rewrite Hauth; reflexivity).
  cbn [negb].
  rewrite (bind_step datetime_now _ s0 (clock s0) s0 eq_refl).
  cbv beta zeta iota.
  destruct (map_m_filters_ok fl s0 Hfl) as [qs Q].
  rewrite (bind_step _ _ _ _ _ Q).
  unfold try_except.
  rewrite (bind_step get_sess _ s0 (sess s0) s0 eq_refl).
  unfold bind at 1, requests_post at 1, http at 1; rewrite Hw.
  cbv beta iota; apply Z.eqb_neq in Hc; rewrite Hc; reflexivity.
Qed.

End ChartPost.

Lemma ok_pair_inv {A} (a b : A) (s s' : st) : (Ok a, s) = (Ok b, s') -> a = b /\ s = s'.
Proof. intros H; injection H; auto. Qed.

Lemma prefix_app (a b : string) : String.prefix a (a ++ b) = true.
Proof.
  induction a as [|c a IH]; [destruct b; reflexivity |].
  simpl; destruct (ascii_dec c c); [exact IH | contradiction].
Qed.

Section ToolFacts.
Variable w : world.

Lemma create_chart_not_authenticated datasource_id chart_type chart_name metric dimensions filters s :
  is_authenticated (sess (snd (get_instance w s))) (clock (snd (get_instance w s))) = false ->
  create_superset_chart w datasource_id chart_type chart_name metric dimensions filters s =
  (Ok not_authenticated_msg, snd (get_instance w s)).
Proof.
  intros Ha; unfold create_superset_chart.
  rewrite (bind_step (get_instance w) _ s tt _ (get_instance_ok w s)).
  rewrite (bind_step is_authenticated_m _ _ false _) by (unfold is_authenticated_m; rewrite Ha; reflexivity).
  reflexivity.
Qed.

Lemma list_charts_not_authenticated page_size s :
  is_authenticated (sess (snd (get_instance w s))) (clock (snd (get_instance w s))) = false ->
  list_existing_charts w page_size s = (Ok not_authenticated_msg, snd (get_instance w s)).
Proof.
  intros Ha; unfold list_existing_charts.
  rewrite (bind_step (get_instance w) _ s tt _ (get_instance_ok w s)).
  rewrite (bind_step is_authenticated_m _ _ false _) by (unfold is_authenticated_m; rewrite Ha; reflexivity).
  reflexivity.
Qed.

Lemma no_raise_list_existing_charts page_size : no_raise (list_existing_charts w page_size).
Proof. unfold list_existing_charts; nr. Qed.

Lemma no_raise_create_chart datasource_id chart_type chart_name metric dimensions fl :
  forallb filter_ok fl = true ->
  no_raise (create_superset_chart w datasource_id chart_type chart_name metric dimensions (Some fl)).
Proof.
  intros Hfl s; unfold create_superset_chart.
  rewrite (bind_step (get_instance w) _ s tt _ (get_instance_ok w s)).
  set (s0 := snd (get_instance w s)).
  rewrite (bind_step is_authenticated_m _ s0 _ s0 eq_refl).
  destruct (is_authenticated (sess s0) (clock s0)); cbn [negb]; [| eexists _, _; reflexivity].
  rewrite (bind_step datetime_now _ s0 (clock s0) s0 eq_refl).
  cbv beta zeta iota.
  destruct (map_m_filters_ok fl s0 Hfl) as [qs Q].
  rewrite (bind_step _ _ _ _ _ Q).
  apply no_raise_try; intros; apply no_raise_ret.
Qed.

Lemma create_chart_bad_filter datasource_id chart_type chart_name metric dimensions fl s :
  is_authenticated (sess (snd (get_instance w s))) (clock (snd (get_instance w s))) = true ->
  forallb filter_ok fl = false ->
  exists e, create_superset_chart w datasource_id chart_type chart_name metric dimensions (Some fl) s =
            (Raise e, snd (get_instance w s)).
Proof.
  intros Ha Hfl; unfold create_superset_chart.
  rewrite (bind_step (get_instance w) _ s tt _ (get_instance_ok w s)).
  set (s0 := snd (get_instance w s)) in *.
  rewrite (bind_step is_authenticated_m _ s0 true s0) by (unfold is_authenticated_m; rewrite Ha; reflexivity).
  cbn [negb].
  rewrite (bind_step datetime_now _ s0 (clock s0) s0 eq_refl).
  cbv beta zeta iota.
  destruct (map_m_filters_raise fl s0 Hfl) as [e Q].
  rewrite (bind_raise _ _ _ _ _ Q); eauto.
Qed.

Lemma list_charts_get_raise page_size s e :
  let s0 := snd (get_instance w s) in
  is_authenticated (sess s0) (clock s0) = true ->
  (forall rq, w_http w (List.length (log s0)) rq = HRaise e) ->
  fst (list_existing_charts w page_size s) = Ok ("Error fetching charts: " ++ exc_str e).
Proof.
  intros s0 Ha Hw; unfold list_existing_charts.
  rewrite (bind_step (get_instance w) _ s tt s0 (get_instance_ok w s)).
  rewrite (bind_step is_authenticated_m _ s0 true s0) by (unfold is_authenticated_m; rewrite Ha; reflexivity).
  cbn [negb]; unfold try_except.
  rewrite (bind_step get_sess _ s0 (sess s0) s0 eq_refl).
  unfold bind at 1, requests_get at 1, http at 1; rewrite Hw; reflexivity.
Qed.

Lemma list_charts_get_status page_size s r :
  let s0 := snd (get_instance w s) in
  is_authenticated (sess s0) (clock s0) = true ->
  (forall rq, w_http w (List.length (log s0)) rq = HResp r) ->
  status_code r <> 200 ->
  fst (list_existing_charts w page_size s) =
  Ok ("Failed to fetch charts: " ++ string_of_Z (status_code r) ++ " - " ++ text r).
Proof.
  intros s0 Ha Hw Hc; unfold list_existing_charts.
  rewrite (bind_step (get_instance w) _ s tt s0 (get_instance_ok w s)).
  rewrite (bind_step is_authenticated_m _ s0 true s0) by (unfold is_authenticated_m; rewrite Ha; reflexivity).
  cbn [negb]; unfold try_except.
  rewrite (bind_step get_sess _ s0 (sess s0) s0 eq_refl).
  unfold bind at 1, requests_get at 1, http at 1; rewrite Hw.
  cbv beta iota; apply Z.eqb_neq in Hc; rewrite Hc; reflexivity.
Qed.

Lemma no_raise_execute_sql_query q db lim : no_raise (execute_sql_query w q db lim).
Proof. unfold execute_sql_query; apply no_raise_try; intros; apply no_raise_ret. Qed.

Lemma no_raise_execute_aggregation_query q db : no_raise (execute_aggregation_query w q db).
Proof. unfold execute_aggregation_query; apply no_raise_try; intros; apply no_raise_ret. Qed.

Lemma execute_sql_query_outcome q db lim s out s' :
  execute_sql_query w q db lim s = (Ok out, s') ->
  String.prefix "Error executing query: " out = true \/
  exists data cols qr s1,
    execute_query w (add_limit q lim) JNull db (Some lim) (snd (get_instance w s)) = (Ok (QSuccess data cols qr), s1) /\
    format_sql_result (add_limit q lim) (QSuccess data cols qr) s1 = (Ok out, s').
Proof.
  unfold execute_sql_query; cbv zeta; unfold try_except.
  rewrite (bind_step (get_instance w) _ s tt _ (get_instance_ok w s)).
  destruct (no_raise_execute_query w (add_limit q lim) JNull db (Some lim) (snd (get_instance w s))) as (r & s1 & E).
  rewrite (bind_step _ _ _ _ _ E).
  destruct r as [data cols qr | m].
  - destruct (format_sql_result (add_limit q lim) (QSuccess data cols qr) s1) as [[o|e] s2] eqn:F.
    + intros H; apply ok_pair_inv in H as [<- <-]; right; eauto 6.
    + intros H; apply ok_pair_inv in H as [<- <-]; left; match goal with |- String.prefix ?a (?a ++ ?b) = true => exact (prefix_app a b) end.
  - intros H; apply ok_pair_inv in H as [<- <-]; left; match goal with |- String.prefix ?a (?a ++ ?b) = true => exact (prefix_app a b) end.
Qed.

Lemma execute_aggregation_query_outcome q db s out s' :
  execute_aggregation_query w q db s = (Ok out, s') ->
  String.prefix "Error executing aggregation query: " out = true \/
  exists data cols qr s1,
    execute_query w q JNull db (Some 100) (snd (get_instance w s)) = (Ok (QSuccess data cols qr), s1) /\
    format_aggregation_result q (QSuccess data cols qr) s1 = (Ok out, s').
Proof.
  unfold execute_aggregation_query; unfold try_except.
  rewrite (bind_step (get_instance w) _ s tt _ (get_instance_ok w s)).
  destruct (no_raise_execute_query w q JNull db (Some 100) (snd (get_instance w s))) as (r & s1 & E).
  rewrite (bind_step _ _ _ _ _ E).
  destruct r as [data cols qr | m].
  - destruct (format_aggregation_result q (QSuccess data cols qr) s1) as [[o|e] s2] eqn:F.
    + intros H; apply ok_pair_inv in H as [<- <-]; right; eauto 6.
    + intros H; apply ok_pair_inv in H as [<- <-]; left; match goal with |- String.prefix ?a (?a ++ ?b) = true => exact (prefix_app a b) end.
  - intros H; apply ok_pair_inv in H as [<- <-]; left; match goal with |- String.prefix ?a (?a ++ ?b) = true => exact (prefix_app a b) end.
Qed.

Lemma execute_sql_query_table q db lim s s' rows names qr :
  rows <> [] -> names <> [] -> forallb is_dict rows = true ->
  execute_query w (add_limit q lim) JNull db (Some lim) (snd (get_instance w s)) =
    (Ok (QSuccess (JArr rows) (JArr (map column_entry names)) qr), s') ->
  execute_sql_query w q db lim s =
  (Ok ("Query: " ++ add_limit q lim ++ nl ++ nl ++ header_lines names ++
       String.concat "" (map (row_line names) (firstn 10 rows)) ++
       more_rows_suffix (List.length rows) ++ nl ++ nl ++
       "Total rows: " ++ string_of_Z (Z.of_nat (List.length rows))), s').
Proof.
  intros Hr Hn Hd E; unfold execute_sql_query; cbv zeta; unfold try_except.
  rewrite (bind_step (get_instance w) _ s tt _ (get_instance_ok w s)).
  rewrite (bind_step _ _ _ _ _ E), format_sql_result_table by assumption; reflexivity.
Qed.

Lemma execute_aggregation_query_table q db s s' rows names qr :
  rows <> [] -> names <> [] -> forallb is_dict rows = true ->
  execute_query w q JNull db (Some 100) (snd (get_instance w s)) =
    (Ok (QSuccess (JArr rows) (JArr (map column_entry names)) qr), s') ->
  execute_aggregation_query w q db s =
  (Ok ("=== Aggregation Results ===" ++ nl ++ "Query: " ++ q ++ nl ++ nl ++ header_lines names ++
       String.concat "" (map (row_line names) rows) ++ nl ++
       "**Total result rows:** " ++ string_of_Z (Z.of_nat (List.length rows))), s').
Proof.
  intros Hr Hn Hd E; unfold execute_aggregation_query; unfold try_except.
  rewrite (bind_step (get_instance w) _ s tt _ (get_instance_ok w s)).
  rewrite (bind_step _ _ _ _ _ E), format_aggregation_result_table by assumption; reflexivity.
Qed.

End ToolFacts.




(** C8 (counterexample): with 11 result rows, [execute_aggregation_query]
    renders all 11 rows, with no "more rows" suffix and no "Total rows:" line. *)
Lemma query_rendering_counterexample :
  exists out, fst (execute_aggregation_query (rows_world 11) "SELECT n FROM t GROUP BY n" "PostgreSQL" authed_state) = Ok out /\
    py_contains (nl ++ "11" ++ nl) out = true /\
    py_contains "more rows" out = false /\
    py_contains "Total rows:" out = false.
Proof. eexists; split; [vm_compute; reflexivity | vm_compute; repeat split]. Qed.

(** C8 (amended): for a non-empty list of dict rows and a non-empty list of
    column names, [execute_sql_query] shows the first 10 rows, each as its
    cells joined by " | " without padding, then "... and N more rows" when
    more than 10 rows were returned, then "Total rows: N"; whereas
    [execute_aggregation_query] shows every row and ends with
    "**Total result rows:** N". *)
Theorem query_result_rendering w q db lim s s1 s2 rows names qr1 qr2 :
  rows <> [] -> names <> [] -> forallb is_dict rows = true ->
  (execute_query w (add_limit q lim) JNull db (Some lim) (snd (get_instance w s)) =
     (Ok (QSuccess (JArr rows) (JArr (map column_entry names)) qr1), s1) ->
   execute_sql_query w q db lim s =
   (Ok ("Query: " ++ add_limit q lim ++ nl ++ nl ++ header_lines names ++
        String.concat "" (map (row_line names) (firstn 10 rows)) ++
        more_rows_suffix (List.length rows) ++ nl ++ nl ++
        "Total rows: " ++ string_of_Z (Z.of_nat (List.length rows))), s1)) /\
  (execute_query w q JNull db (Some 100) (snd (get_instance w s)) =
     (Ok (QSuccess (JArr rows) (JArr (map column_entry names)) qr2), s2) ->
   execute_aggregation_query w q db s =
   (Ok ("=== Aggregation Results ===" ++ nl ++ "Query: " ++ q ++ nl ++ nl ++ header_lines names ++
        String.concat "" (map (row_line names) rows) ++ nl ++
        "**Total result rows:** " ++ string_of_Z (Z.of_nat (List.length rows))), s2)).
Proof.
  intros Hr Hn Hd; split.
  - apply execute_sql_query_table; assumption.
  - apply execute_aggregation_query_table; assumption.
Qed.

Lemma query_result_rendering_witness :
  execute_aggregation_query (rows_world 11) "SELECT n FROM t GROUP BY n" "PostgreSQL" authed_state =
  (Ok ("=== Aggregation Results ===" ++ nl ++ "Query: " ++ "SELECT n FROM t GROUP BY n" ++ nl ++ nl ++
       header_lines ["n"] ++ String.concat "" (map (row_line ["n"]) (n_rows 11)) ++ nl ++
       "**Total result rows:** " ++ string_of_Z (Z.of_nat (List.length (n_rows 11)))),
   snd (execute_query (rows_world 11) "SELECT n FROM t GROUP BY n" JNull "PostgreSQL" (Some 100) authed_state)).
Proof.
  apply (proj2 (query_result_rendering (rows_world 11) "SELECT n FROM t GROUP BY n" "PostgreSQL" 100
                  authed_state authed_state
                  (snd (execute_query (rows_world 11) "SELECT n FROM t GROUP BY n" JNull "PostgreSQL" (Some 100) authed_state))
                  (n_rows 11) ["n"] JNull (JObj [])
                  ltac:(discriminate) ltac:(discriminate) eq_refl)).
  vm_compute; reflexivity.
Defined.

Lemma execute_query_poll_loop_witness :
  exists s', execute_query poll_world "SELECT 1" JNull "PostgreSQL" None authed_state =
             (Ok (success_record success_kvs), s').
Proof.
  pose proof (execute_query_poll_loop poll_world authed_state authed_state (looked_up_state poll_world)
                "SELECT 1" JNull (JNum 1) "PostgreSQL" None
                (mk_resp 202 (JObj [("query", JObj [("id", JStr "q1")])]))
                [("query", JObj [("id", JStr "q1")])] (JStr "q1")
                eq_refl ltac:(vm_compute; reflexivity) ltac:(discriminate)
                ltac:(intros; vm_compute; reflexivity) eq_refl eq_refl (or_introl eq_refl) eq_refl) as T.
  cbv zeta in T; destruct T as (_ & Hs & _).
  assert (P : forall j, (j < 2)%nat -> exists r,
               (forall rq, w_http poll_world (S (List.length (log (looked_up_state poll_world))) + j) rq = HResp r) /\
               still_pending r = true).
  { intros j Hj; exists pending_resp; split; [| reflexivity].
    intros rq; destruct j as [|[|j]]; [vm_compute; reflexivity | vm_compute; reflexivity | lia]. }
  destruct (Hs 2%nat (mk_resp 200 (JObj success_kvs)) success_kvs ltac:(lia) P
               ltac:(intros; vm_compute; reflexivity) eq_refl eq_refl eq_refl) as (s' & E & _).
  exists s'; exact E.
Defined.

Lemma execute_query_single_retry_on_401_witness :
  exists res s', execute_query (retry_world (HResp login_resp)) "SELECT 1" JNull "PostgreSQL" None authed_state =
                 (Ok res, s').
Proof.
  set (w := retry_world (HResp login_resp)).
  destruct (execute_query_single_retry_on_401 w authed_state authed_state (looked_up_state w)
              "SELECT 1" JNull (JNum 1) "PostgreSQL" None (mk_resp 401 (JObj []))
              eq_refl ltac:(vm_compute; reflexivity) ltac:(discriminate)
              ltac:(intros; vm_compute; reflexivity) eq_refl) as (ar & s3 & _ & H).
  destruct ar.
  - destruct H as (_ & _ & _ & res & E & _); eauto.
  - eauto.
Defined.

(** C1 (counterexample): the database is looked up by name, the execute
    POST answers 401, the reauthentication succeeds and the retried request
    fails with a connection error: the result is the generic "Query
    execution error" message, which does not say that the retry after
    reauthentication failed. *)
Lemma execute_query_single_retry_on_401_counterexample :
  fst (execute_query (retry_world (HRaise (ConnectionError "Connection refused")))
         "SELECT 1" JNull "PostgreSQL" None authed_state) =
  Ok (QError "Query execution error: Connection refused") /\
  List.length (log (snd (execute_query (retry_world (HRaise (ConnectionError "Connection refused")))
         "SELECT 1" JNull "PostgreSQL" None authed_state))) = 5%nat.
Proof. split; vm_compute; reflexivity. Qed.

Lemma retry_after_401_never_polls_witness :
  fst (execute_query (retry_world (HResp pending_resp)) "SELECT 1" JNull "PostgreSQL" None authed_state) =
  Ok (QError ("Query failed after reauthentication: " ++ py_prefix 500 (text pending_resp))).
Proof.
  set (w := retry_world (HResp pending_resp)).
  set (s1 := looked_up_state w).
  set (s3 := snd (force_reauthenticate w (after_execute_post w s1 "SELECT 1" (JNum 1) None))).
  assert (Hre : force_reauthenticate w (after_execute_post w s1 "SELECT 1" (JNum 1) None) =
                (Ok (AuthSuccess "Successfully authenticated with Superset" (JStr "tok...") (JStr "csrf...")
                                 (JStr "1970-01-01T00:26:40")), s3)) by (vm_compute; reflexivity).
  assert (Hr : forall rq, w_http w (List.length (log s3)) rq = HResp pending_resp)
    by (intros rq; vm_compute; reflexivity).
  destruct (retry_after_401_never_polls w authed_state authed_state s1 "SELECT 1" JNull (JNum 1) "PostgreSQL" None
              (mk_resp 401 (JObj [])) _ _ _ _ s3 pending_resp [("status", JStr "pending")]
              eq_refl ltac:(vm_compute; reflexivity) ltac:(discriminate)
              ltac:(intros; vm_compute; reflexivity) eq_refl Hre Hr eq_refl eq_refl eq_refl eq_refl)
    as [E _].
  rewrite E; reflexivity.
Defined.

Lemma get_database_id_fallback_witness :
  fst (get_database_id db_world "PostgreSQL" authed_state) = Ok (JNum 7).
Proof.
  destruct (get_database_id_fallback db_world "PostgreSQL" authed_state) as (_ & _ & _ & H).
  destruct (H authed_state (mk_resp 200 (JObj [("result", JArr [JObj other_db_kvs])]))
              [("result", JArr [JObj other_db_kvs])] [JObj other_db_kvs]
              eq_refl (fun _ => eq_refl) eq_refl eq_refl eq_refl eq_refl) as (i & E & _ & Hn & _).
  rewrite E, (Hn eq_refl other_db_kvs [] eq_refl); reflexivity.
Defined.

Lemma login_step_200 w s r kvs :
  (forall rq, w_http w (List.length (log s)) rq = HResp r) ->
  status_code r = 200 -> body r = Some (JObj kvs) ->
  exists s1, login_step w s = (Ok None, s1) /\
    access_token (sess s1) = dict_get kvs "access_token" JNull /\
    refresh_token (sess s1) = dict_get kvs "refresh_token" JNull /\
    csrf_token (sess s1) = csrf_token (sess s) /\
    token_expiry (sess s1) = Some (clock s + token_ttl) /\
    base_url (sess s1) = base_url (sess s) /\
    http_session (sess s1) = http_session (sess s) /\
    clock s1 = clock s /\ created s1 = created s /\
    List.length (log s1) = S (List.length (log s)).
Proof.
  intros Hw H200 Hb.
  unfold login_step, session_post, http, bind, get_sess, put_sess, ret, datetime_now,
    resp_json, py_get, py_get_default.
  rewrite Hw; cbv beta iota. rewrite H200, Hb; cbv beta iota.
  eexists; split; [reflexivity|].
  unfold set_sess, log_request, set_tokens, dict_get; simpl.
  rewrite length_app; simpl; repeat split; lia.
Qed.

Lemma authenticate_handler_state e s r s' :
  authenticate_handler e s = (r, s') -> s' = s /\ auth_status (match r with Ok a => a | Raise _ => AuthError "" end) = "error" /\ exists a, r = Ok a.
Proof. destruct e; unfold authenticate_handler, bind, get_sess, ret; intros H; injection H; intros; subst; eauto. Qed.

(** [authenticate()] sets the access token, the refresh token and the
    expiry as soon as the login answers 200, before it requests the CSRF
    token: when that second request raises, [authenticate()] reports an
    error, yet the manager is authenticated until the expiry. *)
Theorem authenticate_error_yet_authenticated w s r kvs e :
  (forall rq, w_http w (List.length (log s)) rq = HResp r) ->
  status_code r = 200 -> body r = Some (JObj kvs) ->
  truthy (dict_get kvs "access_token" JNull) = true ->
  (forall rq, w_http w (S (List.length (log s))) rq = HRaise e) ->
  exists res s', authenticate w s = (Ok res, s') /\ auth_status res = "error" /\
    List.length (log s') = (List.length (log s) + 2)%nat /\
    forall now, now < clock s + token_ttl -> is_authenticated (sess s') now = true.
Proof.
  intros Hw H200 Hb Ht Hc.
  destruct (login_step_200 w s r kvs Hw H200 Hb) as (s1 & E & Ha & _ & _ & Hx & _ & _ & _ & _ & Hl).
  unfold authenticate, try_except.
  rewrite (bind_step _ _ _ _ _ E); cbv beta iota.
  assert (Hcs : csrf_step w s1 = (Raise e, log_request s1 (mkRequest GET (base_url (sess s1) ++ "/api/v1/security/csrf_token/") None
             [("Authorization", JStr ("Bearer " ++ py_str (access_token (sess s1))))] [] (Some (http_session (sess s1)))))).
  { unfold csrf_step.
    rewrite (bind_step get_sess _ s1 (sess s1) s1 eq_refl).
    exact (bind_raise _ _ _ e _ (session_get_raise w _ _ s1 e ltac:(rewrite Hl; apply Hc))). }
  rewrite (bind_raise _ _ _ e _ Hcs).
  destruct (authenticate_handler e _) as [r2 s2] eqn:Eh.
  apply authenticate_handler_state in Eh as (-> & Hs & a & ->).
  exists a, (log_request s1 (mkRequest GET (base_url (sess s1) ++ "/api/v1/security/csrf_token/") None
             [("Authorization", JStr ("Bearer " ++ py_str (access_token (sess s1))))] [] (Some (http_session (sess s1))))).
  split; [reflexivity|]. split; [exact Hs|].
  autorewrite with proj. rewrite length_app, Hl; simpl. split; [lia|].
  intros now Hn; unfold is_authenticated. rewrite Ha, Ht, Hx. simpl.
  destruct (clock s + token_ttl <=? now) eqn:Z; [apply Z.leb_le in Z; lia | reflexivity].
Qed.

Lemma login_step_fail w s o :
  (forall rq, w_http w (List.length (log s)) rq = o) ->
  match o with HResp r => status_code r <> 200 | HRaise _ => True end ->
  exists s1, login_step w s = match o with
                     | HResp r => (Ok (Some (AuthError ("Login failed with status " ++ string_of_Z (status_code r)
                                                         ++ ": " ++ text r))), s1)
                     | HRaise e => (Raise e, s1)
                     end /\
    List.length (log s1) = S (List.length (log s)) /\ sess s1 = sess s /\
    clock s1 = clock s /\ created s1 = created s.
Proof.
  intros Hw Ho.
  unfold login_step, session_post, http, bind, get_sess, ret.
  rewrite Hw; destruct o as [r|e]; cbv beta iota.
  - apply Z.eqb_neq in Ho; rewrite Ho; cbv beta iota.
    eexists; split; [reflexivity|].
    unfold log_request; simpl; rewrite length_app; simpl; repeat split; lia.
  - eexists; split; [reflexivity|].
    unfold log_request; simpl; rewrite length_app; simpl; repeat split; lia.
Qed.

Lemma authenticate_login_fail w s o :
  (forall rq, w_http w (List.length (log s)) rq = o) ->
  match o with HResp r => status_code r <> 200 | HRaise _ => True end ->
  exists s', authenticate w s = (Ok (AuthError (login_failure_message (sess s) o)), s') /\
    sess s' = sess s /\ clock s' = clock s /\ created s' = created s /\
    List.length (log s') = S (List.length (log s)).
Proof.
  intros Hw Ho.
  destruct (login_step_fail w s o Hw Ho) as (s1 & E & Hl & Hs & Hc & Hcr).
  unfold authenticate, try_except.
  destruct o as [r|e].
  - rewrite (bind_step _ _ _ _ _ E); cbv beta iota.
    exists s1; unfold ret; repeat split; auto.
  - rewrite (bind_raise _ _ _ _ _ E).
    exists s1; destruct e; unfold authenticate_handler, bind, get_sess, ret; cbv beta iota;
      rewrite ?Hs; repeat split; auto.
Qed.

(** [authenticate()] when the login request fails (a non-200 status or an
    exception): it sends only that request, leaves the tokens and the rest
    of the manager untouched, and returns the error record whose message
    names the status and the body, or the exception. *)
Theorem authenticate_login_failure w s o :
  (forall rq, w_http w (List.length (log s)) rq = o) ->
  match o with HResp r => status_code r <> 200 | HRaise _ => True end ->
  exists s', authenticate w s = (Ok (AuthError (login_failure_message (sess s) o)), s') /\
    sess s' = sess s /\ List.length (log s') = S (List.length (log s)).
Proof.
  intros Hw Ho.
  destruct (authenticate_login_fail w s o Hw Ho) as (s' & E & Hs & _ & _ & Hl).
  exists s'; auto.
Qed.

Lemma force_reauthenticate_unfold w s :
  force_reauthenticate w s =
  authenticate w (mkSt (mkSession JNull JNull JNull None (base_url (sess s)) (username (sess s))
                                  (password (sess s)) (sess_ctr s))
                       (created s) (clock s) (log s) (uuid_ctr s) (S (sess_ctr s))).
Proof. reflexivity. Qed.

(** [force_reauthenticate()] whose login request fails: the tokens it
    cleared stay cleared, so the manager is left unauthenticated at every
    instant and its headers carry no [Authorization] and no [X-CSRFToken];
    the manager keeps the new [requests.Session()]. *)
Theorem force_reauthenticate_failure_logged_out w s o :
  (forall rq, w_http w (List.length (log s)) rq = o) ->
  match o with HResp r => status_code r <> 200 | HRaise _ => True end ->
  exists s', force_reauthenticate w s = (Ok (AuthError (login_failure_message (sess s) o)), s') /\
    (forall now, is_authenticated (sess s') now = false) /\
    get_headers (sess s') = [("Content-Type", JStr "application/json")] /\
    http_session (sess s') = sess_ctr s.
Proof.
  intros Hw Ho; rewrite force_reauthenticate_unfold.
  set (s0 := mkSt _ _ _ _ _ _).
  destruct (authenticate_login_fail w s0 o Hw Ho) as (s' & E & Hs & _ & _ & _).
  exists s'; rewrite E, Hs; simpl; auto.
Qed.

Lemma csrf_step_not200 w s r :
  (forall rq, w_http w (List.length (log s)) rq = HResp r) -> status_code r <> 200 ->
  exists s1, csrf_step w s = (Ok tt, s1) /\ sess s1 = sess s /\ clock s1 = clock s /\
    List.length (log s1) = S (List.length (log s)).
Proof.
  intros Hw Ho; apply Z.eqb_neq in Ho.
  unfold csrf_step, session_get, http, bind, get_sess, ret.
  rewrite Hw; cbv beta iota; rewrite Ho.
  eexists; split; [reflexivity|].
  unfold log_request; simpl; rewrite length_app; simpl; repeat split; lia.
Qed.

Lemma csrf_step_200_obj w s r ck :
  (forall rq, w_http w (List.length (log s)) rq = HResp r) ->
  status_code r = 200 -> body r = Some (JObj ck) ->
  exists s1, csrf_step w s = (Ok tt, s1) /\
    sess s1 = set_tokens (sess s) (access_token (sess s)) (dict_get ck "result" JNull)
                         (refresh_token (sess s)) (token_expiry (sess s)).
Proof.
  intros Hw H2 Hb.
  unfold csrf_step, session_get, http, bind, get_sess, ret.
  rewrite Hw; cbv beta iota; rewrite H2; cbn [Z.eqb Pos.eqb].
  unfold resp_json, py_get, py_get_default, ret, put_sess; rewrite Hb; cbv beta iota.
  eexists; split; [reflexivity|]; reflexivity.
Qed.

(** [force_reauthenticate()] reports success whenever the login answers
    200 with a JSON object and the CSRF request completes without an
    exception (a non-200 status, or 200 with a JSON object whose
    ["result"] is a string or a falsy value), even when the login body
    carries no access token: the manager is then unauthenticated at every
    instant and its headers carry no [Authorization], while the result
    says ["Successfully authenticated with Superset"] with no access-token
    preview. *)
Theorem force_reauthenticate_success_without_token w s r kvs r2 :
  (forall rq, w_http w (List.length (log s)) rq = HResp r) ->
  status_code r = 200 -> body r = Some (JObj kvs) ->
  truthy (dict_get kvs "access_token" JNull) = false ->
  (forall rq, w_http w (S (List.length (log s))) rq = HResp r2) ->
  status_code r2 <> 200 \/
  (exists ck, status_code r2 = 200 /\ body r2 = Some (JObj ck) /\
     (truthy (dict_get ck "result" JNull) = false \/ exists t, dict_get ck "result" JNull = JStr t)) ->
  exists cp ea s', force_reauthenticate w s =
                (Ok (AuthSuccess "Successfully authenticated with Superset" JNull cp ea), s') /\
    (forall now, is_authenticated (sess s') now = false) /\
    assoc "Authorization" (get_headers (sess s')) = None.
Proof.
  intros Hw H200 Hb Ht Hw2 H2; rewrite force_reauthenticate_unfold.
  set (s0 := mkSt _ _ _ _ _ _).
  destruct (login_step_200 w s0 r kvs Hw H200 Hb) as (s1 & E & Ha & _ & Hc & _ & _ & _ & _ & _ & Hl).
  unfold authenticate, try_except.
  rewrite (bind_step _ _ _ _ _ E); cbv beta iota.
  destruct H2 as [H2 | (ck & H2 & Hb2 & Hr)].
  - destruct (csrf_step_not200 w s1 r2 ltac:(rewrite Hl; exact Hw2) H2) as (s2 & E2 & Hs2 & _ & _).
    rewrite (bind_step _ _ _ _ _ E2).
    unfold auth_success_result, mask_token, bind, get_sess, ret.
    rewrite Hs2, Ha, Ht, Hc; simpl.
    eexists _, _, s2; split; [reflexivity|].
    rewrite Hs2; unfold is_authenticated, get_headers; rewrite Ha, Hc, Ht; simpl; auto.
  - destruct (csrf_step_200_obj w s1 r2 ck ltac:(rewrite Hl; exact Hw2) H2 Hb2) as (s2 & E2 & Hs2).
    rewrite (bind_step _ _ _ _ _ E2).
    unfold auth_success_result, mask_token, bind, get_sess, ret.
    rewrite Hs2; unfold set_tokens; simpl; rewrite Ha, Ht.
    destruct Hr as [Hr | (t & Hr)].
    + rewrite Hr.
      eexists _, _, s2; split; [reflexivity|].
      rewrite Hs2; unfold is_authenticated, get_headers, set_tokens; simpl;
        rewrite Ha, Ht, Hr; simpl; auto.
    + rewrite Hr; destruct (truthy (JStr t)).
      * eexists _, _, s2; split; [reflexivity|].
        rewrite Hs2; unfold is_authenticated, get_headers, set_tokens; simpl;
          rewrite Ha, Ht, Hr; simpl; split; auto; destruct t; reflexivity.
      * eexists _, _, s2; split; [reflexivity|].
        rewrite Hs2; unfold is_authenticated, get_headers, set_tokens; simpl;
          rewrite Ha, Ht, Hr; simpl; split; auto; destruct t; reflexivity.
Qed.

Lemma mask_token_ok j s p s' :
  mask_token j s = (Ok p, s') -> s' = s /\ masked_as j (py_str p).
Proof.
  unfold mask_token, ret, raise; intros H.
  destruct (truthy j) eqn:T.
  - destruct j; try discriminate; injection H; intros; subst; split; auto.
    right; eexists; split; reflexivity.
  - injection H; intros; subst; split; auto; left; auto.
Qed.

Lemma authenticate_success_masked w s m ap cp ea s' :
  authenticate w s = (Ok (AuthSuccess m ap cp ea), s') ->
  masked_as (access_token (sess s')) (py_str ap) /\ masked_as (csrf_token (sess s')) (py_str cp).
Proof.
  unfold authenticate; intros H.
  apply try_except_ok in H as [H | (e & s1 & _ & H)].
  - apply bind_ok in H as (early & s1 & H1 & H).
    destruct early as [r0|].
    + apply login_step_some in H1 as [m' ->].
      unfold ret in H; injection H; intros; discriminate.
    + apply bind_ok in H as (u & s2 & _ & H).
      unfold auth_success_result in H.
      apply bind_ok in H as (x & s3 & Hx & H); unfold get_sess in Hx; injection Hx; intros; subst.
      apply bind_ok in H as (ap' & s4 & Ha & H); apply mask_token_ok in Ha as [-> Ha].
      apply bind_ok in H as (cp' & s5 & Hc & H); apply mask_token_ok in Hc as [-> Hc].
      unfold ret in H; injection H; intros; subst; auto.
  - destruct (authenticate_handler e s1) as [r2 s2] eqn:Eh.
    apply authenticate_handler_state in Eh as (_ & Hs & a & ->).
    injection H; intros; subst; discriminate.
Qed.

Lemma py_prefix_length n t : (String.length (py_prefix n t) <= n)%nat.
Proof.
  unfold py_prefix; revert t; induction n as [|n IH]; intros [|c t]; simpl; try lia.
  specialize (IH t); lia.
Qed.

Lemma str_length_app a b : String.length (a ++ b) = (String.length a + String.length b)%nat.
Proof. induction a as [|c a IH]; simpl; [reflexivity | now rewrite IH]. Qed.

Lemma masked_as_length j p : masked_as j p -> (String.length p <= 23)%nat.
Proof.
  intros [[_ ->] | (t & _ & ->)]; [simpl; lia|].
  rewrite str_length_app; pose proof (py_prefix_length 20 t); simpl; lia.
Qed.

(** [authenticate_superset()] never prints a whole token: on success the
    access token and the CSRF token are each shown as [None] or as their
    first 20 characters followed by ["..."], at most 23 characters; on
    failure it prints ["Authentication failed: "] and the message. *)
Theorem authenticate_superset_masks_tokens w s out s' :
  authenticate_superset w s = (Ok out, s') ->
  (exists m, out = "Authentication failed: " ++ m) \/
  exists ap cp rest,
    out = "Successfully authenticated with Superset!" ++ nl ++ "- Access Token: " ++ ap ++ nl ++
          "- CSRF Token: " ++ cp ++ nl ++ rest /\
    masked_as (access_token (sess s')) ap /\ masked_as (csrf_token (sess s')) cp /\
    (String.length ap <= 23)%nat /\ (String.length cp <= 23)%nat.
Proof.
  unfold authenticate_superset; intros H.
  apply bind_ok in H as (u & s1 & _ & H).
  apply bind_ok in H as (r & s2 & Ha & H).
  destruct r as [m ap cp ea | m].
  - apply authenticate_success_masked in Ha as [Ha Hc].
    apply bind_ok in H as (x & s3 & Hx & H); unfold get_sess in Hx; injection Hx; intros; subst.
    unfold ret in H; apply ok_pair_inv in H as [Ho Hs]; subst.
    right; exists (py_str ap), (py_str cp), ("- Token expires at: " ++ py_str ea ++ nl ++
           "- Base URL: " ++ base_url (sess s') ++ nl ++ nl ++
           "You can now use Superset API endpoints for creating charts, dashboards, and running queries.").
    split; [|split; [exact Ha|split; [exact Hc|split; eapply masked_as_length; eassumption]]].
    reflexivity.
  - unfold ret in H; apply ok_pair_inv in H as [Ho Hs]; subst; left; eauto.
Qed.

Lemma authenticated_after_success w s r s1 :
  authenticate w s = (Ok r, s1) -> auth_status r = "success" ->
  truthy (access_token (sess s1)) = true ->
  token_expiry (sess s1) = Some (clock s + token_ttl) /\
  forall now, now < clock s + token_ttl -> is_authenticated (sess s1) now = true.
Proof.
  intros E Hs Ht.
  destruct (authenticate_success w s r s1 E Hs) as [He _].
  split; [exact He|].
  intros now Hn; unfold is_authenticated; rewrite Ht, He; simpl.
  destruct (clock s + token_ttl <=? now) eqn:Z; [apply Z.leb_le in Z; lia | reflexivity].
Qed.

(** [refresh_authentication()] after a successful [authenticate()] that
    stored an access token: as long as the token has not expired, whatever
    else happened to the program state meanwhile, it sends no request,
    changes nothing and reports the expiry set by [authenticate()]. *)
Theorem refresh_after_authenticate_no_request w s r s1 s2 :
  authenticate w s = (Ok r, s1) -> auth_status r = "success" ->
  truthy (access_token (sess s1)) = true ->
  sess s2 = sess s1 -> clock s2 < clock s + token_ttl ->
  refresh_authentication w s2 = (Ok (StillValid (JStr (isoformat (clock s + token_ttl)))), s2).
Proof.
  intros E Hs Ht Hx Hc.
  destruct (authenticated_after_success w s r s1 E Hs Ht) as [He Ha].
  unfold refresh_authentication, is_authenticated_m, bind, get_sess, ret; cbv beta iota.
  rewrite Hx, (Ha _ Hc); cbv beta iota; rewrite Hx, He; reflexivity.
Qed.

(** [get_superset_auth_status()] after a successful [authenticate()] that
    stored an access token: until the token expires it reports the manager
    as authenticated, with the remaining lifetime in whole minutes (10 right
    after the login) and the expiry set by [authenticate()]. *)
Theorem auth_status_after_authenticate w s r s1 s2 :
  authenticate w s = (Ok r, s1) -> auth_status r = "success" ->
  truthy (access_token (sess s1)) = true ->
  sess s2 = sess s1 -> created s2 = true -> clock s2 < clock s + token_ttl ->
  get_superset_auth_status w s2 =
  (Ok ("Superset Authentication Status:" ++ nl ++
       "- Status: Authenticated " ++ check_mark ++ nl ++
       "- Base URL: " ++ base_url (sess s1) ++ nl ++
       "- Username: " ++ username (sess s1) ++ nl ++
       "- Token expires in: " ++ string_of_Z (Z.quot (clock s + token_ttl - clock s2) 60) ++ " minutes" ++ nl ++
       "- Token expiry: " ++ isoformat (clock s + token_ttl)), s2).
Proof.
  intros E Hs Ht Hx Hcr Hc.
  destruct (authenticated_after_success w s r s1 E Hs Ht) as [He Ha].
  unfold get_superset_auth_status.
  rewrite (bind_step (get_instance w) _ s2 tt s2) by (unfold get_instance; rewrite Hcr; reflexivity).
  unfold is_authenticated_m, bind, get_sess, datetime_now, ret, minutes_remaining; cbv beta iota.
  rewrite Hx, (Ha _ Hc); cbv beta iota; rewrite ?Hx, He; reflexivity.
Qed.

Lemma ensure_authenticated_valid w s :
  is_authenticated (sess s) (clock s) = true -> ensure_authenticated w s = (Ok None, s).
Proof. intros H; unfold ensure_authenticated, is_authenticated_m, bind, ret; rewrite H; reflexivity. Qed.

Lemma ensure_authenticated_error w s m s1 :
  is_authenticated (sess s) (clock s) = false -> authenticate w s = (Ok (AuthError m), s1) ->
  ensure_authenticated w s = (Ok (Some m), s1).
Proof. intros H E; unfold ensure_authenticated, is_authenticated_m, bind, ret; rewrite H, E; reflexivity. Qed.

(** [test_connection()] on an authenticated manager sends exactly one
    request, the GET of the database list with the manager's headers on its
    session, never raises, and answers: on a 200 dict body, success with
    ["count"] of the body (0 when absent) as the database count; on another
    status, the error naming the status with the first 200 characters of
    the body as details; on an exception or an unusable body, the error
    ["Connection test error: ..."]. *)
Theorem test_connection_outcomes w s o :
  is_authenticated (sess s) (clock s) = true ->
  (forall rq, w_http w (List.length (log s)) rq = o) ->
  test_connection w s = (Ok (conn_outcome (sess s) o), log_request s (db_list_request (sess s))).
Proof.
  intros Ha Hw; unfold test_connection.
  rewrite (bind_step _ _ _ _ _ (ensure_authenticated_valid w s Ha)); cbv beta iota.
  unfold try_except, db_list_request.
  rewrite (bind_step get_sess _ s (sess s) s eq_refl).
  destruct o as [r|e] eqn:Eo.
  - rewrite (bind_step _ _ _ r _ (session_get_resp w _ _ s r (Hw _))).
    unfold conn_outcome; destruct (status_code r =? 200); [|reflexivity].
    unfold resp_json, py_get_default, bind, ret, raise, get_sess.
    destruct (body r) as [j|]; [destruct j; reflexivity | reflexivity].
  - rewrite (bind_raise _ _ _ e _ (session_get_raise w _ _ s e (Hw _))); reflexivity.
Qed.

(** [test_connection()] on an unauthenticated manager whose
    [authenticate()] fails: it returns the error record with the message of
    [authenticate()] and sends nothing after the authentication requests. *)
Theorem test_connection_auth_failure w s m s1 :
  is_authenticated (sess s) (clock s) = false ->
  authenticate w s = (Ok (AuthError m), s1) ->
  test_connection w s = (Ok (ConnError m None), s1).
Proof.
  intros Ha E; unfold test_connection.
  rewrite (bind_step _ _ _ _ _ (ensure_authenticated_error w s m s1 Ha E)); reflexivity.
Qed.

(** ** Substrings, [str.split] and [str.strip] *)

Lemma str_app_nil (a : string) : a ++ "" = a.
Proof. induction a as [|c a IH]; simpl; [reflexivity | now rewrite IH]. Qed.

Lemma is_prefix_app p t u : is_prefix p t = true -> is_prefix p (t ++ u) = true.
Proof.
  revert t; induction p as [|c p IH]; intros [|d t] H; simpl in *; try easy.
  apply andb_prop in H as [H1 H2]; rewrite H1; simpl; apply IH; exact H2.
Qed.

Lemma is_prefix_nonempty p t : p <> "" -> is_prefix p t = true -> t <> "".
Proof. destruct p; [congruence|]; destruct t; simpl; congruence. Qed.

Lemma py_contains_true n h :
  py_contains n h = true -> exists a t, h = a ++ t /\ is_prefix n t = true.
Proof.
  induction h as [|c h IH]; simpl; intros H.
  - exists "", ""; destruct (is_prefix n ""); [auto | discriminate].
  - destruct (is_prefix n (String c h)) eqn:E; [exists "", (String c h); auto|].
    destruct (IH H) as (a & t & -> & Ht); exists (String c a), t; auto.
Qed.

Lemma py_contains_intro n a t : is_prefix n t = true -> py_contains n (a ++ t) = true.
Proof.
  intros Ht; induction a as [|c a IH]; simpl.
  - destruct t; simpl; rewrite Ht; reflexivity.
  - destruct (is_prefix n (String c (a ++ t))); [reflexivity | exact IH].
Qed.

Lemma sub_trans x y z : sub x y -> sub y z -> sub x z.
Proof.
  intros (a & b & ->) (c & d & ->); exists (c ++ a), (b ++ d).
  rewrite !str_app_assoc; reflexivity.
Qed.

Lemma py_contains_sub n x y : sub x y -> py_contains n x = true -> py_contains n y = true.
Proof.
  intros (a & b & ->) H; apply py_contains_true in H as (c & t & -> & Ht).
  replace (a ++ (c ++ t) ++ b) with ((a ++ c) ++ (t ++ b)) by (rewrite !str_app_assoc; reflexivity).
  apply py_contains_intro, is_prefix_app, Ht.
Qed.

Lemma py_contains_sub_false n x y : sub x y -> py_contains n y = false -> py_contains n x = false.
Proof.
  intros S H; destruct (py_contains n x) eqn:E; [|reflexivity].
  rewrite (py_contains_sub n x y S E) in H; discriminate.
Qed.

Lemma app_eq_nil_r (a t : string) : a ++ t = "" -> t = "".
Proof. destruct a; simpl; [auto | discriminate]. Qed.

Lemma app_snoc_split a t cur c :
  a ++ t = cur ++ String c "" -> t <> "" -> exists t', t = t' ++ String c "" /\ cur = a ++ t'.
Proof.
  revert cur; induction a as [|x a IH]; intros cur E Ht; simpl in E.
  - exists cur; auto.
  - destruct cur as [|y cur]; simpl in E.
    + injection E as -> E2; apply app_eq_nil_r in E2; contradiction.
    + injection E as -> E2; destruct (IH cur E2 Ht) as (t' & -> & ->); exists t'; auto.
Qed.

Lemma split_go_not_nil sep s k cur : split_go sep s k cur <> [].
Proof.
  revert k cur; induction s as [|c s IH]; intros k cur; simpl; [discriminate|].
  destruct k; [destruct (is_prefix sep (String c s)); [discriminate | apply IH] | apply IH].
Qed.

(** No piece of [s.split(sep)] contains [sep]. *)
Lemma split_go_no_sep sep : sep <> "" ->
  forall s k cur, (k <> O -> cur = "") ->
  (forall a t, cur = a ++ t -> t <> "" -> is_prefix sep (t ++ s) = false) ->
  forall p, In p (split_go sep s k cur) -> py_contains sep p = false.
Proof.
  intros Hsep s; induction s as [|c s IH]; intros k cur Hk Inv p Hp; simpl in Hp.
  - destruct Hp as [-> | []].
    destruct (py_contains sep p) eqn:E; [|reflexivity].
    apply py_contains_true in E as (a & t & -> & Ht).
    pose proof (Inv a t eq_refl (is_prefix_nonempty _ _ Hsep Ht)) as F.
    rewrite str_app_nil, Ht in F; discriminate.
  - destruct k as [|k].
    + destruct (is_prefix sep (String c s)) eqn:Em.
      * destruct Hp as [-> | Hp].
        -- destruct (py_contains sep p) eqn:E; [|reflexivity].
           apply py_contains_true in E as (a & t & -> & Ht).
           pose proof (Inv a t eq_refl (is_prefix_nonempty _ _ Hsep Ht)) as F.
           rewrite (is_prefix_app _ _ _ Ht) in F; discriminate.
        -- refine (IH _ "" (fun _ => eq_refl) _ p Hp).
           intros a t E Ht; symmetry in E; apply app_eq_nil_r in E; contradiction.
      * refine (IH O (cur ++ String c "") (fun H => ltac:(contradiction)) _ p Hp).
        intros a t E Ht.
        destruct (app_snoc_split a t cur c (eq_sym E) Ht) as (t' & -> & ->).
        rewrite str_app_assoc; simpl.
        destruct t' as [|x t'].
        -- exact Em.
        -- apply (Inv a (String x t') eq_refl); discriminate.
    + rewrite (Hk ltac:(discriminate)) in Hp.
      refine (IH k "" (fun _ => eq_refl) _ p Hp).
      intros a t E Ht; symmetry in E; apply app_eq_nil_r in E; contradiction.
Qed.

(** Every piece of [s.split(sep)] occurs in [s]. *)
Lemma split_go_sub sep : forall s k cur, (k <> O -> cur = "") ->
  forall p, In p (split_go sep s k cur) -> sub p (cur ++ s).
Proof.
  intros s; induction s as [|c s IH]; intros k cur Hk p Hp; simpl in Hp.
  - destruct Hp as [<- | []]; exists "", ""; rewrite str_app_nil; reflexivity.
  - destruct k as [|k].
    + destruct (is_prefix sep (String c s)).
      * destruct Hp as [<- | Hp]; [exists "", (String c s); reflexivity|].
        destruct (IH _ "" (fun _ => eq_refl) p Hp) as (a & b & E).
        exists (cur ++ String c a), b; simpl in E; rewrite E, str_app_assoc; reflexivity.
      * destruct (IH O (cur ++ String c "") (fun H => ltac:(contradiction)) p Hp) as (a & b & E).
        exists a, b; rewrite <- E, str_app_assoc; reflexivity.
    + rewrite (Hk ltac:(discriminate)) in *.
      destruct (IH k "" (fun _ => eq_refl) p Hp) as (a & b & E).
      exists (String c a), b; simpl in *; rewrite E; reflexivity.
Qed.

Lemma py_split_no_sep sep s p : sep <> "" -> In p (py_split sep s) -> py_contains sep p = false.
Proof.
  intros Hsep; apply (split_go_no_sep sep Hsep s O ""); [congruence|].
  intros a t E Ht; symmetry in E; apply app_eq_nil_r in E; contradiction.
Qed.

Lemma py_split_sub sep s p : In p (py_split sep s) -> sub p s.
Proof. intros H; exact (split_go_sub sep s O "" ltac:(congruence) p H). Qed.

Lemma split_go_two sep s cur : sep <> "" -> py_contains sep s = true ->
  exists p q l, split_go sep s O cur = p :: q :: l.
Proof.
  intros Hsep; revert cur; induction s as [|c s IH]; intros cur H; simpl in *.
  - destruct sep; [congruence | discriminate].
  - destruct (is_prefix sep (String c s)).
    + destruct (split_go sep s (String.length sep - 1) "") as [|q l] eqn:E;
        [exfalso; exact (split_go_not_nil _ _ _ _ E) | eauto].
    + exact (IH _ H).
Qed.

Lemma string_of_list_ascii_app (l m : list ascii) :
  string_of_list_ascii (l ++ m) = string_of_list_ascii l ++ string_of_list_ascii m.
Proof. induction l as [|c l IH]; simpl; [reflexivity | now rewrite IH]. Qed.

Lemma drop_while_suffix {A} (p : A -> bool) l : exists a, l = (a ++ drop_while p l)%list.
Proof.
  induction l as [|x l [a IH]]; simpl; [exists []; reflexivity|].
  destruct (p x); [exists (x :: a); simpl; congruence | exists []; reflexivity].
Qed.

Lemma drop_while_idem {A} (p : A -> bool) l : drop_while p (drop_while p l) = drop_while p l.
Proof.
  induction l as [|x l IH]; simpl; [reflexivity|].
  destruct (p x) eqn:E; [exact IH | simpl; rewrite E; reflexivity].
Qed.

Lemma drop_while_head {A} (p : A -> bool) l :
  match drop_while p l with [] => True | x :: _ => p x = false end.
Proof.
  induction l as [|x l IH]; simpl; [exact I|].
  destruct (p x) eqn:E; [exact IH | exact E].
Qed.

Lemma rstripped_suffix a l : rstripped (a ++ l)%list -> rstripped l.
Proof.
  unfold rstripped; rewrite rev_app_distr.
  destruct (rev l); simpl; auto.
Qed.

Lemma rstrip_fixed l : rstripped l -> rev (drop_while is_py_space (rev l)) = l.
Proof.
  unfold rstripped; intros H.
  destruct (rev l) as [|x r] eqn:E.
  - simpl; rewrite <- (rev_involutive l), E; reflexivity.
  - simpl; rewrite H, <- E, rev_involutive; reflexivity.
Qed.

Lemma rstrip_rstripped l : rstripped (rev (drop_while is_py_space (rev l))).
Proof. unfold rstripped; rewrite rev_involutive; apply drop_while_head. Qed.

Lemma py_strip_list s : py_strip s = string_of_list_ascii (strip_list (list_ascii_of_string s)).
Proof. unfold py_strip, rstrip_by, strip_list; rewrite list_ascii_of_string_of_list_ascii; reflexivity. Qed.

Lemma strip_list_idem l : strip_list (strip_list l) = strip_list l.
Proof.
  unfold strip_list at 2 3.
  set (m := rev (drop_while is_py_space (rev l))).
  assert (Hm : rstripped m) by apply rstrip_rstripped.
  destruct (drop_while_suffix is_py_space m) as [a Ha].
  assert (Hd : rstripped (drop_while is_py_space m)).
  { apply (rstripped_suffix a); rewrite <- Ha; exact Hm. }
  unfold strip_list; rewrite (rstrip_fixed _ Hd), drop_while_idem; reflexivity.
Qed.

Lemma py_strip_idem s : py_strip (py_strip s) = py_strip s.
Proof.
  rewrite (py_strip_list (py_strip s)), py_strip_list, list_ascii_of_string_of_list_ascii.
  rewrite strip_list_idem; reflexivity.
Qed.

Lemma py_strip_sub s : sub (py_strip s) s.
Proof.
  rewrite py_strip_list.
  set (l := list_ascii_of_string s).
  destruct (drop_while_suffix is_py_space (rev (drop_while is_py_space (rev l)))) as [a Ha].
  destruct (drop_while_suffix is_py_space (rev l)) as [b Hb].
  exists (string_of_list_ascii a), (string_of_list_ascii (rev b)).
  rewrite <- string_of_list_ascii_of_string at 1; fold l.
  rewrite <- !string_of_list_ascii_app; f_equal.
  unfold strip_list; rewrite app_assoc, <- Ha.
  transitivity (rev (rev l)); [symmetry; apply rev_involutive|].
  rewrite Hb at 1; rewrite rev_app_distr; reflexivity.
Qed.

Lemma group_by_dimensions_run q s :
  exists dims, group_by_dimensions q s = (Ok dims, s) /\
    (py_contains "group by" q = false -> dims = []) /\
    forall d, In d dims ->
      d <> "" /\ py_strip d = d /\ py_contains "," d = false /\
      py_contains "group by" d = false /\ py_contains "order by" d = false /\
      py_contains "having" d = false.
Proof.
  unfold group_by_dimensions.
  destruct (py_contains "group by" q) eqn:G.
  2: { exists []; split; [reflexivity | split; [auto | intros d []]]. }
  destruct (split_go_two "group by" q "" ltac:(discriminate) G) as (p0 & p1 & l & E1).
  assert (I1 : In p1 (py_split "group by" q)) by (unfold py_split; rewrite E1; simpl; auto).
  rewrite (bind_step (py_list_index (py_split "group by" q) 1) _ s p1 s)
    by (unfold py_list_index, py_split; rewrite E1; reflexivity).
  destruct (py_split "order by" p1) as [|p2 l2] eqn:E2;
    [exfalso; exact (split_go_not_nil _ _ _ _ E2)|].
  assert (I2 : In p2 (py_split "order by" p1)) by (rewrite E2; simpl; auto).
  rewrite (bind_step (py_list_index (p2 :: l2) 0) _ s p2 s eq_refl).
  destruct (py_split "having" p2) as [|p3 l3] eqn:E3;
    [exfalso; exact (split_go_not_nil _ _ _ _ E3)|].
  assert (I3 : In p3 (py_split "having" p2)) by (rewrite E3; simpl; auto).
  rewrite (bind_step (py_list_index (p3 :: l3) 0) _ s p3 s eq_refl).
  eexists; split; [reflexivity | split; [discriminate|]].
  intros d Hd.
  apply in_map_iff in Hd as (x & <- & Hx); apply filter_In in Hx as [Hx Hf].
  assert (Sx : sub (py_strip x) x) by apply py_strip_sub.
  assert (S3 : sub (py_strip x) p3) by exact (sub_trans _ _ _ Sx (py_split_sub _ _ _ Hx)).
  assert (S2 : sub (py_strip x) p2) by exact (sub_trans _ _ _ S3 (py_split_sub _ _ _ I3)).
  assert (S1 : sub (py_strip x) p1) by exact (sub_trans _ _ _ S2 (py_split_sub _ _ _ I2)).
  split; [intros E; rewrite E in Hf; discriminate|].
  split; [apply py_strip_idem|].
  split; [exact (py_contains_sub_false _ _ _ Sx (py_split_no_sep "," _ _ ltac:(discriminate) Hx))|].
  split; [exact (py_contains_sub_false _ _ _ S1 (py_split_no_sep "group by" _ _ ltac:(discriminate) I1))|].
  split; [exact (py_contains_sub_false _ _ _ S2 (py_split_no_sep "order by" _ _ ltac:(discriminate) I2))|].
  exact (py_contains_sub_false _ _ _ S3 (py_split_no_sep "having" _ _ ltac:(discriminate) I3)).
Qed.

(** The dimensions [create_chart_from_query] reads off a GROUP BY clause
    (lines 323-325): computing them never raises; there are none when the
    lowercased query has no ["group by"]; each one is non-empty, has no
    surrounding whitespace, and contains no comma and none of ["group by"],
    ["order by"] and ["having"], so it never takes in a following ORDER BY
    or HAVING clause. *)
Theorem group_by_dimensions_clean q s :
  exists dims, group_by_dimensions q s = (Ok dims, s) /\
    (py_contains "group by" q = false -> dims = []) /\
    forall d, In d dims ->
      d <> "" /\ py_strip d = d /\ py_contains "," d = false /\
      py_contains "group by" d = false /\ py_contains "order by" d = false /\
      py_contains "having" d = false.
Proof. exact (group_by_dimensions_run q s). Qed.

(** [create_chart_from_query] on a query the SQL Lab endpoint rejects
    (lines 327-346): when the manager exists and is authenticated and the
    POST to [/api/v1/sqllab/execute/] answers a status other than 200, the
    tool makes exactly that one request (with [requests.post], outside the
    manager's session) and returns the status and the response text, without
    ever calling the chart tool. *)
Theorem create_chart_from_query_rejected_query w call q ct cn db s r :
  created s = true -> is_authenticated (sess s) (clock s) = true ->
  (forall rq, w_http w (length (log s)) rq = HResp r) -> status_code r <> 200 ->
  create_chart_from_query w call q ct cn db s =
    (Ok ("Query execution failed: " ++ string_of_Z (status_code r) ++ " - " ++ text r),
     log_request s (mkRequest POST (base_url (sess s) ++ "/api/v1/sqllab/execute/")
        (Some (JObj [("database_id", JNum db); ("sql", JStr q);
                     ("runAsync", JBool false); ("schema", JNull)]))
        (get_headers (sess s)) [] None)).
Proof.
  intros Hc Ha Hw Hs.
  unfold create_chart_from_query.
  rewrite (bind_step (get_instance w) _ s tt s) by (unfold get_instance; rewrite Hc; reflexivity).
  rewrite (bind_step is_authenticated_m _ s true s) by (unfold is_authenticated_m; rewrite Ha; reflexivity).
  cbv beta iota; cbn [negb].
  destruct (group_by_dimensions_run (py_lower q) s) as (dims & Hg & _).
  rewrite (bind_step _ _ s dims s Hg).
  unfold try_except, bind, get_sess, requests_post, http, ret.
  rewrite Hw; cbv beta iota.
  apply Z.eqb_neq in Hs; rewrite Hs; reflexivity.
Qed.

(** [explore_table_structure]'s statistics step never takes its bare
    [except:] branch (lines 148-162): [execute_query] catches every
    exception itself, so the fallback row-count query is never sent and the
    step is exactly the statistics query. *)
Theorem explore_stats_no_fallback w t db s :
  explore_stats w t db s = execute_query w (stats_query t) JNull db (Some 10) s.
Proof.
  unfold explore_stats, try_except.
  destruct (no_raise_execute_query w (stats_query t) JNull db (Some 10) s) as (a & s' & E).
  rewrite E; reflexivity.
Qed.

Lemma get_database_id_unlisted w name s o :
  is_authenticated (sess s) (clock s) = true ->
  (forall rq, w_http w (length (log s)) rq = o) -> no_database_listed o = true ->
  get_database_id w name s = (Ok JNull, log_request s (db_list_request (sess s))).
Proof.
  intros Ha Hw Hn; unfold get_database_id.
  rewrite (bind_step _ _ _ _ _ (ensure_authenticated_valid w s Ha)).
  unfold try_except, session_get, http, bind, get_sess, ret; cbv beta iota; rewrite Hw.
  destruct o as [r|e]; cbv beta iota; [|reflexivity].
  unfold no_database_listed in Hn.
  destruct (status_code r =? 200); [|reflexivity].
  unfold resp_json; destruct (body r) as [j|]; [|reflexivity].
  destruct j as [| | | | | |kvs]; try reflexivity.
  unfold dict_get in Hn; unfold py_get_default, ret.
  destruct (assoc "result" kvs) as [v|]; [|reflexivity].
  destruct v as [|b|z|lit|str|l|kvs']; try reflexivity; simpl in Hn.
  - destruct str; [reflexivity | discriminate].
  - destruct l; [reflexivity | discriminate].
  - destruct kvs'; [reflexivity | discriminate].
Qed.

(** [execute_query] with a database name that the database listing does
    not resolve (lines 245-248): when the listing request raises, answers a
    status other than 200, answers a body that is not an object, or lists
    no database at all, the result is the error naming the database, and
    the only request made is the listing: no query is sent. *)
Theorem execute_query_unknown_database w sql name lim s o :
  is_authenticated (sess s) (clock s) = true ->
  (forall rq, w_http w (length (log s)) rq = o) -> no_database_listed o = true ->
  execute_query w sql JNull name lim s =
    (Ok (QError ("Could not find database: " ++ name)), log_request s (db_list_request (sess s))).
Proof.
  intros Ha Hw Hn; unfold execute_query.
  rewrite (bind_step _ _ _ _ _ (ensure_authenticated_valid w s Ha)); cbv beta iota.
  rewrite (bind_step _ _ _ _ _ (get_database_id_unlisted w name s o Ha Hw Hn)).
  reflexivity.
Qed.

(** [execute_query] when the execute endpoint answers a status other than
    200, 202 and 401 (lines 373-376), the database id given or looked up by
    name: the result is the error carrying the first 500 characters of the
    response text, and nothing follows the one execute request: no retry,
    no polling. *)
Theorem execute_query_failed_status w s s1 sql d0 d name lim r :
  is_authenticated (sess s) (clock s) = true ->
  resolve_database_id w d0 name s = (Ok d, s1) -> d <> JNull ->
  w_http w (length (log s1)) (execute_request_at w s1 sql d (effective_limit lim)) = HResp r ->
  is_200_or_202 (status_code r) = false -> status_code r <> 401 ->
  execute_query w sql d0 name lim s =
    (Ok (QError ("Query execution failed: " ++ py_prefix 500 (text r))), after_execute_post w s1 sql d lim) /\
  (String.length (py_prefix 500 (text r)) <= 500)%nat.
Proof.
  intros Ha Hr Hd Hw H2 H4; split.
  - rewrite (execute_query_posts_resolved w s s s1 sql d0 d name lim r (ensure_authenticated_valid w s Ha) Hr Hd Hw).
    unfold try_except, handle_execute_response; rewrite H2.
    apply Z.eqb_neq in H4; rewrite H4; reflexivity.
  - apply py_prefix_length.
Qed.

Lemma render_dataset_ok ds s :
  dataset_ok ds = true -> exists line, render_dataset ds s = (Ok line, s).
Proof.
  intros H; destruct ds as [| | | | | |kvs]; try discriminate; simpl in H.
  unfold render_dataset, py_index_key, py_get_default, bind, ret.
  destruct (assoc "id" kvs); [|discriminate].
  destruct (assoc "table_name" kvs); [|discriminate].
  destruct (assoc "database" kvs) as [[| | | | | |dk]|]; try discriminate; eexists; reflexivity.
Qed.

Lemma map_m_render_raise pre ds post e s :
  forallb dataset_ok pre = true -> render_dataset ds s = (Raise e, s) ->
  map_m render_dataset (pre ++ ds :: post) s = (Raise e, s).
Proof.
  intros Hp Hd; induction pre as [|j pre IH]; simpl.
  - exact (bind_raise _ _ _ _ _ Hd).
  - simpl in Hp; apply andb_true_iff in Hp as [Hj Hp].
    destruct (render_dataset_ok j s Hj) as (line & E).
    rewrite (bind_step _ _ _ _ _ E).
    exact (bind_raise _ _ _ _ _ (IH Hp)).
Qed.

(** [get_available_datasets] on a listing with a dataset entry that has no
    ["id"] (lines 205-230): the tool makes the one listing request and, as
    soon as the first such entry is reached after well-formed ones, the
    [KeyError] ends the whole listing: the output is only the error text,
    without the datasets rendered before it. *)
Theorem get_available_datasets_missing_id w s r kvs pre dkvs post :
  created s = true -> is_authenticated (sess s) (clock s) = true ->
  (forall rq, w_http w (length (log s)) rq = HResp r) ->
  status_code r = 200 -> body r = Some (JObj kvs) ->
  dict_get kvs "result" (JArr []) = JArr (pre ++ JObj dkvs :: post) ->
  forallb dataset_ok pre = true -> assoc "id" dkvs = None ->
  get_available_datasets w s =
    (Ok "Error fetching datasets: 'id'",
     log_request s (mkRequest GET (base_url (sess s) ++ "/api/v1/dataset/") None
                      (get_headers (sess s)) [("page_size", JNum 100)] None)).
Proof.
  intros Hc Ha Hw Hs Hb Hr Hp Hi.
  set (rq := mkRequest GET (base_url (sess s) ++ "/api/v1/dataset/") None
               (get_headers (sess s)) [("page_size", JNum 100)] None).
  set (s1 := log_request s rq).
  unfold get_available_datasets.
  rewrite (bind_step (get_instance w) _ s tt s) by (unfold get_instance; rewrite Hc; reflexivity).
  rewrite (bind_step is_authenticated_m _ s true s) by (unfold is_authenticated_m; rewrite Ha; reflexivity).
  cbv beta iota; cbn [negb]; unfold try_except.
  rewrite (bind_step get_sess _ s (sess s) s eq_refl).
  rewrite (bind_step (requests_get w _ _ _) _ s r s1) by (unfold requests_get, http; rewrite Hw; reflexivity).
  rewrite Hs; cbn [Z.eqb Pos.eqb].
  rewrite (bind_step (resp_json r) _ s1 (JObj kvs) s1) by (unfold resp_json; rewrite Hb; reflexivity).
  rewrite (bind_step (py_get_default (JObj kvs) "result" (JArr [])) _ s1 _ s1)
    by (unfold py_get_default; unfold dict_get in Hr; rewrite Hr; reflexivity).
  replace (negb (truthy (JArr (pre ++ JObj dkvs :: post)))) with false
    by (simpl; rewrite length_app; simpl; rewrite Nat.add_succ_r; reflexivity).
  rewrite (bind_step (py_iter (JArr (pre ++ JObj dkvs :: post))) _ s1 _ s1 eq_refl).
  rewrite (bind_raise _ _ _ _ _ (map_m_render_raise pre (JObj dkvs) post (PyException "'id'") s1 Hp
             ltac:(unfold render_dataset, py_index_key; rewrite Hi; reflexivity))).
  reflexivity.
Qed.

(** [execute_query] on a 200 answer whose payload reports no recognised
    status and carries no ["data"] (lines 284-344): it is neither polled
    nor reported as an error, but returned as a success with an empty row
    list, the payload's ["columns"] (default empty) and the whole payload as
    the query record; the database id is given or looked up by name. *)
Theorem execute_query_unrecognised_payload w s s1 sql d0 d name lim r kvs :
  is_authenticated (sess s) (clock s) = true ->
  resolve_database_id w d0 name s = (Ok d, s1) -> d <> JNull ->
  w_http w (length (log s1)) (execute_request_at w s1 sql d (effective_limit lim)) = HResp r ->
  status_code r = 200 -> body r = Some (JObj kvs) ->
  json_eq_str (dict_get kvs "status" JNull) "pending" = false ->
  json_eq_str (dict_get kvs "status" JNull) "success" = false ->
  json_eq_str (dict_get kvs "status" JNull) "error" = false ->
  assoc "data" kvs = None ->
  execute_query w sql d0 name lim s =
    (Ok (QSuccess (JArr []) (dict_get kvs "columns" (JArr [])) (JObj kvs)), after_execute_post w s1 sql d lim).
Proof.
  intros Ha Hr Hd Hw Hs Hb Hp Hsu He Hdata.
  rewrite (execute_query_posts_resolved w s s s1 sql d0 d name lim r (ensure_authenticated_valid w s Ha) Hr Hd Hw).
  unfold try_except, handle_execute_response; rewrite Hs; cbn [is_200_or_202 Z.eqb Pos.eqb orb].
  unfold dict_get in *.
  unfold bind, resp_json, py_get, py_get_default, py_in_keys, ret; rewrite Hb; cbv beta iota.
  rewrite Hp; cbv beta iota. rewrite Hsu; cbv beta iota. rewrite Hdata; cbv beta iota.
  rewrite He; cbv beta iota; rewrite ?Hdata; reflexivity.
Qed.

Lemma authenticate_error_yet_authenticated_witness :
  exists res s', authenticate err_after_login_world demo_state = (Ok res, s') /\ auth_status res = "error" /\
    List.length (log s') = (List.length (log demo_state) + 2)%nat /\
    forall now, now < clock demo_state + token_ttl -> is_authenticated (sess s') now = true.
Proof.
  exact (authenticate_error_yet_authenticated err_after_login_world demo_state login_resp
           [("access_token", JStr "tok"); ("refresh_token", JStr "ref"); ("result", JStr "csrf")]
           (ConnectionError "down") (fun _ => eq_refl) eq_refl eq_refl eq_refl (fun _ => eq_refl)).
Defined.

Lemma authenticate_login_failure_witness :
  exists s', authenticate fail500_world demo_state =
             (Ok (AuthError (login_failure_message (sess demo_state) (HResp (mkResponse 500 None "boom")))), s') /\
    sess s' = sess demo_state /\ List.length (log s') = S (List.length (log demo_state)).
Proof.
  exact (authenticate_login_failure fail500_world demo_state (HResp (mkResponse 500 None "boom"))
           (fun _ => eq_refl) ltac:(simpl; discriminate)).
Defined.

Lemma force_reauthenticate_failure_logged_out_witness :
  exists s', force_reauthenticate down_world authed_state =
             (Ok (AuthError (login_failure_message (sess authed_state) (HRaise (ConnectionError "down")))), s') /\
    (forall now, is_authenticated (sess s') now = false) /\
    get_headers (sess s') = [("Content-Type", JStr "application/json")] /\
    http_session (sess s') = sess_ctr authed_state.
Proof.
  exact (force_reauthenticate_failure_logged_out down_world authed_state (HRaise (ConnectionError "down"))
           (fun _ => eq_refl) I).
Defined.

Lemma force_reauthenticate_success_without_token_witness :
  exists cp ea s', force_reauthenticate notoken_world demo_state =
                (Ok (AuthSuccess "Successfully authenticated with Superset" JNull cp ea), s') /\
    (forall now, is_authenticated (sess s') now = false) /\
    assoc "Authorization" (get_headers (sess s')) = None.
Proof.
  apply (force_reauthenticate_success_without_token notoken_world demo_state
           (mk_resp 200 (JObj [("refresh_token", JStr "ref")])) [("refresh_token", JStr "ref")]
           (mkResponse 500 None "boom")).
  - intros; reflexivity.
  - reflexivity.
  - reflexivity.
  - reflexivity.
  - intros; reflexivity.
  - left; simpl; discriminate.
Defined.

Lemma authenticate_superset_masks_tokens_witness :
  exists out s', authenticate_superset login_ok_world demo_state = (Ok out, s') /\
  ((exists m, out = "Authentication failed: " ++ m) \/
   exists ap cp rest,
     out = "Successfully authenticated with Superset!" ++ nl ++ "- Access Token: " ++ ap ++ nl ++
           "- CSRF Token: " ++ cp ++ nl ++ rest /\
     masked_as (access_token (sess s')) ap /\ masked_as (csrf_token (sess s')) cp /\
     (String.length ap <= 23)%nat /\ (String.length cp <= 23)%nat).
Proof.
  destruct (authenticate_superset login_ok_world demo_state) as [[out|e] s'] eqn:E.
  - exists out, s'; split; [reflexivity|].
    exact (authenticate_superset_masks_tokens login_ok_world demo_state out s' E).
  - vm_compute in E; discriminate.
Defined.

Lemma refresh_after_authenticate_no_request_witness :
  refresh_authentication login_ok_world (snd (authenticate login_ok_world demo_state)) =
  (Ok (StillValid (JStr (isoformat (clock demo_state + token_ttl)))), snd (authenticate login_ok_world demo_state)).
Proof.
  apply (refresh_after_authenticate_no_request login_ok_world demo_state
           (AuthSuccess "Successfully authenticated with Superset" (JStr "tok...") (JStr "csrf...")
                        (JStr (isoformat (clock demo_state + token_ttl))))
           (snd (authenticate login_ok_world demo_state)));
    vm_compute; reflexivity.
Defined.

Lemma auth_status_after_authenticate_witness :
  get_superset_auth_status login_ok_world (snd (authenticate login_ok_world demo_state)) =
  (Ok ("Superset Authentication Status:" ++ nl ++
       "- Status: Authenticated " ++ check_mark ++ nl ++
       "- Base URL: " ++ base_url (sess (snd (authenticate login_ok_world demo_state))) ++ nl ++
       "- Username: " ++ username (sess (snd (authenticate login_ok_world demo_state))) ++ nl ++
       "- Token expires in: " ++
         string_of_Z (Z.quot (clock demo_state + token_ttl - clock (snd (authenticate login_ok_world demo_state))) 60) ++
         " minutes" ++ nl ++
       "- Token expiry: " ++ isoformat (clock demo_state + token_ttl)),
   snd (authenticate login_ok_world demo_state)).
Proof.
  apply (auth_status_after_authenticate login_ok_world demo_state
           (AuthSuccess "Successfully authenticated with Superset" (JStr "tok...") (JStr "csrf...")
                        (JStr (isoformat (clock demo_state + token_ttl))))
           (snd (authenticate login_ok_world demo_state)));
    vm_compute; reflexivity.
Defined.

Lemma test_connection_outcomes_witness :
  test_connection fail500_world authed_state =
  (Ok (conn_outcome (sess authed_state) (HResp (mkResponse 500 None "boom"))),
   log_request authed_state (db_list_request (sess authed_state))).
Proof.
  exact (test_connection_outcomes fail500_world authed_state (HResp (mkResponse 500 None "boom"))
           eq_refl (fun _ => eq_refl)).
Defined.

Lemma test_connection_auth_failure_witness :
  test_connection fail500_world demo_state =
  (Ok (ConnError (login_failure_message (sess demo_state) (HResp (mkResponse 500 None "boom"))) None),
   snd (authenticate fail500_world demo_state)).
Proof.
  apply (test_connection_auth_failure fail500_world demo_state); vm_compute; reflexivity.
Defined.

Lemma create_chart_from_query_rejected_query_witness :
  create_chart_from_query fail500_world (fun _ _ _ _ _ => ret "chart")
    "SELECT city, COUNT(*) FROM users GROUP BY city" "auto" None 1 authed_state =
    (Ok ("Query execution failed: " ++ string_of_Z 500 ++ " - " ++ "boom"),
     log_request authed_state (mkRequest POST (base_url (sess authed_state) ++ "/api/v1/sqllab/execute/")
        (Some (JObj [("database_id", JNum 1); ("sql", JStr "SELECT city, COUNT(*) FROM users GROUP BY city");
                     ("runAsync", JBool false); ("schema", JNull)]))
        (get_headers (sess authed_state)) [] None)).
Proof.
  exact (create_chart_from_query_rejected_query fail500_world (fun _ _ _ _ _ => ret "chart")
           "SELECT city, COUNT(*) FROM users GROUP BY city" "auto" None 1 authed_state
           (mkResponse 500 None "boom") eq_refl eq_refl (fun _ => eq_refl) ltac:(simpl; discriminate)).
Defined.

Lemma execute_query_unknown_database_witness :
  execute_query fail500_world "SELECT 1" JNull "Analytics" None authed_state =
    (Ok (QError ("Could not find database: " ++ "Analytics")),
     log_request authed_state (db_list_request (sess authed_state))).
Proof.
  exact (execute_query_unknown_database fail500_world "SELECT 1" "Analytics" None authed_state
           (HResp (mkResponse 500 None "boom")) eq_refl (fun _ => eq_refl) eq_refl).
Defined.

Lemma execute_query_failed_status_witness :
  execute_query lookup_fail_world "SELECT 1" JNull "PostgreSQL" None authed_state =
    (Ok (QError ("Query execution failed: " ++ py_prefix 500 "boom")),
     after_execute_post lookup_fail_world (looked_up_state lookup_fail_world) "SELECT 1" (JNum 1) None) /\
  (String.length (py_prefix 500 "boom") <= 500)%nat.
Proof.
  apply (execute_query_failed_status lookup_fail_world authed_state (looked_up_state lookup_fail_world)
           "SELECT 1" JNull (JNum 1) "PostgreSQL" None (mkResponse 500 None "boom")).
  - reflexivity.
  - vm_compute; reflexivity.
  - discriminate.
  - vm_compute; reflexivity.
  - reflexivity.
  - simpl; discriminate.
Defined.

Lemma get_available_datasets_missing_id_witness :
  get_available_datasets datasets_world authed_state =
    (Ok "Error fetching datasets: 'id'",
     log_request authed_state (mkRequest GET (base_url (sess authed_state) ++ "/api/v1/dataset/") None
                                 (get_headers (sess authed_state)) [("page_size", JNum 100)] None)).
Proof.
  exact (get_available_datasets_missing_id datasets_world authed_state
           (mk_resp 200 (JObj [("result", JArr [JObj [("id", JNum 1); ("table_name", JStr "orders")];
                                                JObj [("table_name", JStr "users")]])]))
           [("result", JArr [JObj [("id", JNum 1); ("table_name", JStr "orders")];
                             JObj [("table_name", JStr "users")]])]
           [JObj [("id", JNum 1); ("table_name", JStr "orders")]] [("table_name", JStr "users")] []
           eq_refl eq_refl (fun _ => eq_refl) eq_refl eq_refl eq_refl eq_refl eq_refl).
Defined.

Lemma execute_query_unrecognised_payload_witness :
  execute_query odd_payload_world "SELECT 1" JNull "PostgreSQL" None authed_state =
    (Ok (QSuccess (JArr []) (JArr [JStr "n"]) (JObj [("status", JStr "done"); ("columns", JArr [JStr "n"])])),
     after_execute_post odd_payload_world (looked_up_state odd_payload_world) "SELECT 1" (JNum 1) None).
Proof.
  apply (execute_query_unrecognised_payload odd_payload_world authed_state (looked_up_state odd_payload_world)
           "SELECT 1" JNull (JNum 1) "PostgreSQL" None
           (mk_resp 200 (JObj [("status", JStr "done"); ("columns", JArr [JStr "n"])]))
           [("status", JStr "done"); ("columns", JArr [JStr "n"])]).
  - reflexivity.
  - vm_compute; reflexivity.
  - discriminate.
  - vm_compute; reflexivity.
  - reflexivity.
  - reflexivity.
  - reflexivity.
  - reflexivity.
  - reflexivity.
  - reflexivity.
Defined.

Lemma py_upper_app a b : py_upper (a ++ b) = (py_upper a ++ py_upper b)%list.
Proof. induction a as [|c a IH]; simpl; [reflexivity | now rewrite IH, app_assoc]. Qed.

Lemma cp_prefix_app p l m : cp_prefix p l = true -> cp_prefix p (l ++ m)%list = true.
Proof.
  revert l; induction p as [|x p IH]; intros l H; [reflexivity|].
  destruct l as [|y l]; [discriminate|]; simpl in *.
  apply andb_true_iff in H as [H1 H2]; rewrite H1, (IH _ H2); reflexivity.
Qed.

Lemma cp_prefix_self p m : cp_prefix p (p ++ m)%list = true.
Proof. induction p as [|x p IH]; simpl; [reflexivity | now rewrite N.eqb_refl, IH]. Qed.

Lemma cp_contains_app_r n a b : cp_contains n b = true -> cp_contains n (a ++ b)%list = true.
Proof.
  intros H; induction a as [|c a IH]; [exact H |].
  simpl; destruct (cp_prefix n (c :: a ++ b)); [reflexivity | exact IH].
Qed.

Lemma cp_contains_app_l n a b : cp_contains n a = true -> cp_contains n (a ++ b)%list = true.
Proof.
  induction a as [|c a IH]; intros H.
  - simpl in H; destruct n; [destruct b; reflexivity | discriminate].
  - simpl in *; destruct (cp_prefix n (c :: a)) eqn:E.
    + pose proof (cp_prefix_app _ _ b E) as E'; simpl in E'; rewrite E'; reflexivity.
    + destruct (cp_prefix n (c :: a ++ b)); [reflexivity | exact (IH H)].
Qed.

Lemma cp_count_zero p l : cp_contains p l = false -> cp_count p l = O.
Proof.
  induction l as [|x l IH]; simpl; intros H; [reflexivity|].
  destruct (cp_prefix p (x :: l)); [discriminate | exact (IH H)].
Qed.

(** A needle that holds no space cannot straddle a space. *)
Lemma cp_prefix_space p u v :
  ~ In 32%N p -> cp_prefix p (u ++ 32%N :: v)%list = cp_prefix p u.
Proof.
  revert u; induction p as [|y p IH]; intros u Hp; [reflexivity|].
  destruct u as [|z u]; simpl.
  - destruct (N.eqb_spec y 32); [exfalso; apply Hp; left; congruence | reflexivity].
  - rewrite IH; [reflexivity | intros H; apply Hp; right; exact H].
Qed.

Lemma cp_count_space p u v :
  p <> [] -> ~ In 32%N p -> cp_count p (u ++ 32%N :: v)%list = (cp_count p u + cp_count p v)%nat.
Proof.
  intros Hne Hp; induction u as [|x u IH]; simpl.
  - destruct p as [|y p]; [contradiction|]; simpl.
    destruct (N.eqb_spec y 32); [exfalso; apply Hp; left; congruence | reflexivity].
  - pose proof (cp_prefix_space p (x :: u) v Hp) as E; simpl in E; rewrite IH, E; lia.
Qed.

Lemma cp_count_no_head p x l :
  (forall y, In y l -> y <> x) -> cp_count (x :: p) l = O.
Proof.
  induction l as [|y l IH]; intros H; simpl; [reflexivity|].
  destruct (N.eqb_spec x y); [exfalso; exact (H y (or_introl eq_refl) (eq_sym e))|].
  apply IH; intros z Hz; apply H; right; exact Hz.
Qed.

Lemma char_upper_shape c : (exists y, char_upper c = [y]) \/ char_upper c = [83%N; 83%N].
Proof.
  unfold char_upper;
    repeat match goal with |- context [if ?b then _ else _] => destruct b end; eauto.
Qed.

(** The text of the match starts with LIMIT: split the query at the end
    of the characters whose upper case is that text. *)
Lemma cp_prefix_upper_split p q :
  (forall x, In x p -> x <> 83%N) -> cp_prefix p (py_upper q) = true ->
  exists k b, q = k ++ b /\ py_upper k = p.
Proof.
  revert q; induction p as [|x p IH]; intros q Hp H.
  - exists "", q; split; reflexivity.
  - destruct q as [|c r]; [discriminate|]; simpl in H.
    destruct (char_upper_shape c) as [[y Hy] | Hy]; rewrite Hy in H; simpl in H.
    + apply andb_true_iff in H as [Hxy H]; apply N.eqb_eq in Hxy; subst y.
      destruct (IH r (fun z Hz => Hp z (or_intror Hz)) H) as (k & b & E & U).
      exists (String c k), b; split; [simpl; congruence | simpl; rewrite Hy, U; reflexivity].
    + apply andb_true_iff in H as [Hxy _]; apply N.eqb_eq in Hxy; subst x.
      exfalso; exact (Hp 83%N (or_introl eq_refl) eq_refl).
Qed.

Lemma cp_contains_upper_split p q :
  (forall x, In x p -> x <> 83%N) -> p <> [] -> cp_contains p (py_upper q) = true ->
  exists a k b, q = a ++ k ++ b /\ py_upper k = p.
Proof.
  intros Hp Hne; induction q as [|c r IH]; intros H.
  - destruct p; [contradiction | discriminate].
  - destruct (cp_prefix p (py_upper (String c r))) eqn:P.
    + destruct (cp_prefix_upper_split p (String c r) Hp P) as (k & b & E & U).
      exists "", k, b; split; [exact E | exact U].
    + assert (Hr : cp_contains p (py_upper r) = true).
      { simpl in H, P; destruct (char_upper_shape c) as [[y Hy] | Hy]; rewrite Hy in H, P;
          simpl in H, P; rewrite P in H; [exact H|].
        destruct (cp_prefix p (83%N :: py_upper r)) eqn:P2; [|exact H].
        destruct p as [|x p]; [contradiction|]; simpl in P2.
        apply andb_true_iff in P2 as [Hx _]; apply N.eqb_eq in Hx; subst x.
        exfalso; exact (Hp 83%N (or_introl eq_refl) eq_refl). }
      destruct (IH Hr) as (a & k & b & E & U).
      exists (String c a), k, b; split; [simpl; congruence | exact U].
Qed.

Lemma limit_detection q :
  cp_contains (code_points "LIMIT") (py_upper q) = true <->
  exists a k b, q = a ++ k ++ b /\ py_upper k = code_points "LIMIT".
Proof.
  split.
  - apply cp_contains_upper_split; [|discriminate].
    intros x Hx; simpl in Hx; intuition (subst; discriminate).
  - intros (a & k & b & -> & U).
    rewrite !py_upper_app, U; apply cp_contains_app_r.
    destruct (py_upper b); simpl; reflexivity.
Qed.

Lemma drop_while_split {A} (p : A -> bool) l :
  exists a, l = (a ++ drop_while p l)%list /\ forallb p a = true.
Proof.
  induction l as [|x l (a & IH & Ha)]; simpl; [exists []; split; reflexivity|].
  destruct (p x) eqn:E.
  - exists (x :: a); simpl; rewrite E, Ha; split; [congruence | reflexivity].
  - exists []; split; reflexivity.
Qed.

Lemma forallb_rev {A} (p : A -> bool) l : forallb p (rev l) = forallb p l.
Proof.
  induction l as [|x l IH]; simpl; [reflexivity|].
  rewrite forallb_app, IH; simpl; rewrite andb_true_r, andb_comm; reflexivity.
Qed.

(** [s.rstrip(chars)]: the kept part, and the stripped end whose
    characters are all in the set. *)
Lemma rstrip_by_split p s :
  exists t, list_ascii_of_string s = (list_ascii_of_string (rstrip_by p s) ++ t)%list /\
    forallb p t = true /\ ends_with p (rstrip_by p s) = false.
Proof.
  unfold rstrip_by, ends_with; rewrite list_ascii_of_string_of_list_ascii, rev_involutive.
  set (l := list_ascii_of_string s).
  destruct (drop_while_split p (rev l)) as (a & E & Ha).
  exists (rev a); split; [|split].
  - rewrite <- rev_app_distr, <- E, rev_involutive; reflexivity.
  - rewrite forallb_rev; exact Ha.
  - pose proof (drop_while_head p (rev l)) as Hd.
    destruct (drop_while p (rev l)); [reflexivity | exact Hd].
Qed.

Lemma digit_char_upper d : (d < 10)%N -> char_upper (digit_char d) = [(48 + d)%N].
Proof.
  intros H.
  assert (d = 0 \/ d = 1 \/ d = 2 \/ d = 3 \/ d = 4 \/ d = 5 \/ d = 6 \/ d = 7 \/ d = 8 \/ d = 9)%N
    as Hd by lia.
  repeat destruct Hd as [-> | Hd]; try reflexivity; subst; reflexivity.
Qed.

Lemma digits_aux_no_L f n acc :
  (forall y, In y (py_upper acc) -> y <> 76%N) ->
  forall y, In y (py_upper (digits_aux f n acc)) -> y <> 76%N.
Proof.
  revert n acc; induction f as [|f IH]; intros n acc H; simpl; [exact H|].
  assert (Hc : forall y, In y (py_upper (String (digit_char (n mod 10)) acc)) -> y <> 76%N).
  { simpl; rewrite digit_char_upper by (apply N.mod_lt; discriminate).
    intros y [<- | Hy]; [|exact (H y Hy)].
    pose proof (N.mod_lt n 10 ltac:(discriminate)); lia. }
  destruct (n <? 10)%N; [exact Hc | exact (IH _ _ Hc)].
Qed.

Lemma string_of_Z_no_L z : forall y, In y (py_upper (string_of_Z z)) -> y <> 76%N.
Proof.
  assert (HN : forall n y, In y (py_upper (string_of_N n)) -> y <> 76%N).
  { intros n; apply digits_aux_no_L; intros y []. }
  unfold string_of_Z; destruct (z <? 0).
  - intros y; simpl; intros [<- | Hy]; [discriminate | exact (HN _ y Hy)].
  - apply HN.
Qed.

Lemma string_app_of_lists (l m : list ascii) :
  string_of_list_ascii (l ++ m) = string_of_list_ascii l ++ string_of_list_ascii m.
Proof. induction l as [|c l IH]; simpl; [reflexivity | now rewrite IH]. Qed.

